(** * k8s_manager.py: a shallow embedding of the menu-driven cluster script

    The script is a sequence of prompts and external commands.  Its text
    values are modelled by [string], one [ascii] per code point, which
    covers the code points U+0000 to U+00FF; the string methods the script
    calls are written out for that range.  Prompts, terminal output,
    external commands and the values file are threaded through an explicit
    [world].

    Two things are held fixed in the handlers: a line sent to the terminal
    is printed (what [run_command] does when printing fails is followed
    apart, in [run_command_on]), and the values file is followed as the
    script itself reads and writes it, on a system whose line separator is
    the line feed; what an external command does besides returning its
    result is not followed. *)

From Stdlib Require Import String Ascii List ZArith Lia Bool DecimalString.
Import ListNotations.
Open Scope list_scope.
Open Scope string_scope.

(** ** Text values and the string methods used by the script *)

Module Py.

Local Open Scope nat_scope.

Definition code (c : ascii) : nat := nat_of_ascii c.

(** The line feed, the one character [split] and the patterns single out. *)
Definition nl : ascii := "010"%char.
Definition dquote : ascii := "034"%char.
Definition backslash : ascii := "092"%char.
Definition cr : ascii := "013"%char.

(** [str.isspace] on one character: the blanks below U+0100. *)
Definition isspace (c : ascii) : bool :=
  let n := code c in
  ((9 <=? n) && (n <=? 13)) || ((28 <=? n) && (n <=? 32))
  || (n =? 133) || (n =? 160).

(** Characters accepted by [int()]: the decimal digits 0 to 9. *)
Definition isdecimal_char (c : ascii) : bool :=
  let n := code c in (48 <=? n) && (n <=? 57).

(** [str.isdigit] on one character: the decimal digits and, besides, the
    superscript digits U+00B2, U+00B3 and U+00B9, which have the digit
    property without being decimal. *)
Definition isdigit_char (c : ascii) : bool :=
  let n := code c in
  isdecimal_char c || (n =? 178) || (n =? 179) || (n =? 185).

Fixpoint forallb_str (p : ascii -> bool) (s : string) : bool :=
  match s with
  | EmptyString => true
  | String c s' => p c && forallb_str p s'
  end.

(** [s.isdigit()]: at least one character, and every one a digit. *)
Definition isdigit (s : string) : bool :=
  match s with
  | EmptyString => false
  | _ => forallb_str isdigit_char s
  end.

(** [c.lower()]: A-Z, and the accented capitals U+00C0-U+00DE (U+00D7 is
    the multiplication sign). *)
Definition lower_char (c : ascii) : ascii :=
  let n := code c in
  if ((65 <=? n) && (n <=? 90))
     || ((192 <=? n) && (n <=? 222) && negb (n =? 215))
  then ascii_of_nat (n + 32) else c.

Fixpoint lower (s : string) : string :=
  match s with
  | EmptyString => EmptyString
  | String c s' => String (lower_char c) (lower s')
  end.

Fixpoint lstrip (s : string) : string :=
  match s with
  | EmptyString => EmptyString
  | String c s' => if isspace c then lstrip s' else s
  end.

Fixpoint rstrip (s : string) : string :=
  match s with
  | EmptyString => EmptyString
  | String c s' =>
      match rstrip s' with
      | EmptyString => if isspace c then EmptyString else String c EmptyString
      | r => String c r
      end
  end.

(** [s.strip()] *)
Definition strip (s : string) : string := rstrip (lstrip s).

(** [s.split('\n')]: never the empty list. *)
Fixpoint split_lines (s : string) : list string :=
  match s with
  | EmptyString => [EmptyString]
  | String c s' =>
      if Ascii.eqb c nl then EmptyString :: split_lines s'
      else match split_lines s' with
           | l :: ls => String c l :: ls
           | [] => [String c EmptyString]
           end
  end.

(** Truth value of a text value: [not s] holds of the empty string only. *)
Definition truthy (s : string) : bool := negb (s =? "")%string.

(** [a or b] on text values. *)
Definition or_else (a b : string) : string := if truthy a then a else b.

(** Decimal rendering of integers inside f-strings. *)
Definition str_of_Z (z : Z) : string := NilZero.string_of_int (Z.to_int z).
Definition str_of_nat (n : nat) : string := NilZero.string_of_uint (Nat.to_uint n).

Definition decimal_value (c : ascii) : option N :=
  if isdecimal_char c then Some (N.of_nat (code c - 48)) else None.

Fixpoint int_acc (acc : N) (s : string) : option N :=
  match s with
  | EmptyString => Some acc
  | String c s' =>
      match decimal_value c with
      | Some d => int_acc (10 * acc + d) s'
      | None => None
      end
  end.

(** [sys.int_max_str_digits] as the interpreter starts (CPython 3.11 and
    later): [int()] refuses a text of more digits, leading zeros counted. *)
Definition int_max_str_digits : nat := 4300.

(** [int(s)] for a string on which [isdigit] holds.  Such a string has
    no sign, blank or underscore, so the conversion succeeds exactly when
    every character is a decimal digit and there are at most
    [int_max_str_digits] of them; [None] stands for ValueError. *)
Definition int_of_digits (s : string) : option N :=
  if String.length s <=? int_max_str_digits then int_acc 0 s else None.

(** What reading in text mode makes of the characters of a file: each
    carriage return followed by a line feed is dropped, every other
    carriage return becomes a line feed. *)
Fixpoint universal_newlines (s : string) : string :=
  match s with
  | EmptyString => EmptyString
  | String c s' =>
      if Ascii.eqb c cr then
        match s' with
        | String d _ =>
            if Ascii.eqb d nl then universal_newlines s'
            else String nl (universal_newlines s')
        | EmptyString => String nl EmptyString
        end
      else String c (universal_newlines s')
  end.

End Py.

(** ** The two patterns of the hostname rewrite

    The fragment of [re] the script uses: literal text, [.] and [\s], each
    either once or under a greedy star.  Matching is by backtracking, the
    longest run of a star tried first. *)

Module Re.

Inductive atom := Dot | Space.
Inductive item := Lit (text : string) | One (a : atom) | Star (a : atom).
Definition regex := list item.

(** [.] excludes the line feed only; [\s] is [str.isspace]. *)
Definition accepts (a : atom) (c : ascii) : bool :=
  match a with
  | Dot => negb (Ascii.eqb c Py.nl)
  | Space => Py.isspace c
  end.

(** [drop_prefix p s] is what follows [p] in [s], when [s] starts with [p]. *)
Fixpoint drop_prefix (p s : string) : option string :=
  match p, s with
  | EmptyString, _ => Some s
  | String a p', String b s' => if Ascii.eqb a b then drop_prefix p' s' else None
  | String _ _, EmptyString => None
  end.

(** Length of the match of [r] that starts at the head of the text. *)
Fixpoint match_here (r : regex) : string -> option nat :=
  match r with
  | [] => fun _ => Some 0
  | Lit p :: r' => fun s =>
      match drop_prefix p s with
      | Some rest => option_map (Nat.add (String.length p)) (match_here r' rest)
      | None => None
      end
  | One a :: r' => fun s =>
      match s with
      | String c s' => if accepts a c then option_map S (match_here r' s') else None
      | EmptyString => None
      end
  | Star a :: r' =>
      fix star (s : string) : option nat :=
        match s with
        | String c s' =>
            if accepts a c then
              match star s' with
              | Some n => Some (S n)
              | None => match_here r' s
              end
            else match_here r' s
        | EmptyString => match_here r' s
        end
  end.

Fixpoint take (n : nat) (s : string) : string :=
  match n, s with
  | S k, String c s' => String c (take k s')
  | _, _ => EmptyString
  end.

(** [pattern.sub(repl, s)] from the current position: the leftmost match
    is replaced and the scan resumes where it ended; [skip] counts the
    characters of the current match still to be passed over.  [repl]
    receives the matched text. *)
Fixpoint sub_from (r : regex) (repl : string -> string) (skip : nat) (s : string)
  : string :=
  match s with
  | EmptyString =>
      match skip, match_here r EmptyString with
      | 0, Some _ => repl EmptyString
      | _, _ => EmptyString
      end
  | String c s' =>
      match skip with
      | S k => sub_from r repl k s'
      | 0 =>
          match match_here r s with
          | Some 0 => repl EmptyString ++ String c (sub_from r repl 0 s')
          | Some (S n) => repl (take (S n) s) ++ sub_from r repl n s'
          | None => String c (sub_from r repl 0 s')
          end
      end
  end.

Definition sub (r : regex) (repl : string -> string) (s : string) : string :=
  sub_from r repl 0 s.

Fixpoint has_backslash (s : string) : bool :=
  match s with
  | EmptyString => false
  | String c s' => Ascii.eqb c Py.backslash || has_backslash s'
  end.

(** r'hosts:\s*\n\s*- .*' *)
Definition hosts_pattern : regex :=
  [Lit "hosts:"; Star Space; Lit (String Py.nl ""); Star Space; Lit "- "; Star Dot].

(** r'external-dns.alpha.kubernetes.io/hostname: ".*"' *)
Definition dns_pattern : regex :=
  [Lit "external-dns"; One Dot; Lit "alpha"; One Dot; Lit "kubernetes"; One Dot;
   Lit ("io/hostname: " ++ String Py.dquote ""); Star Dot; Lit (String Py.dquote "")].

End Re.

(** ** Values produced by [json.loads] *)

#[warnings="-register-all"]
Inductive json :=
| JNull
| JBool (b : bool)
| JNum (shown : string)
| JStr (s : string)
| JArr (items : list json)
| JObj (fields : list (string * json)).

(** ** Effects: terminal, external commands, the values file *)

Inductive event :=
| Header (text : string)
| Success (text : string)
| Error (text : string)
| Info (text : string)
| Warning (text : string)
| Print (text : string)
| Input (prompt : string)
| Run (command : string)
| Sleep (seconds : nat)
| WriteFile (name content : string).

(** What [subprocess.run(..., check=True)] does with a command: the process
    ran and exited, or the call raised some other exception. *)
Inductive completion :=
| Exit (returncode : Z) (stdout stderr : string)
| Fail (message : string).

Inductive exn :=
| EOFError
| ValueError
| IndexError
| TypeError
| KeyError
| ReError
| UnicodeEncodeError
| OSError.

Inductive outcome (A : Type) :=
| Ret (a : A)
| Raise (e : exn).
Arguments Ret {A} a.
Arguments Raise {A} e.

(** [stdin]: the answers still to be typed; [values_file]: the content of
    prometheus-values.yaml when it exists; [trace]: what the script has done
    so far, most recent first. *)
Record world := mkWorld {
  stdin : list string;
  values_file : option string;
  trace : list event
}.

Definition M (A : Type) : Type := world -> outcome A * world.

Definition ret {A} (a : A) : M A := fun w => (Ret a, w).

Definition raise {A} (e : exn) : M A := fun w => (Raise e, w).

Definition bind {A B} (c : M A) (k : A -> M B) : M B :=
  fun w =>
    match c w with
    | (Ret a, w') => k a w'
    | (Raise e, w') => (Raise e, w')
    end.

Definition lift {A} (o : outcome A) : M A := fun w => (o, w).

Notation "x <- c ;; k" := (bind c (fun x => k))
  (at level 61, c at next level, right associativity).
Notation "' pat <- c ;; k" := (bind c (fun x => match x with pat => k end))
  (at level 61, pat pattern, c at next level, right associativity).
Notation "c ;; k" := (bind c (fun _ => k))
  (at level 61, right associativity).

(** One more event, which always succeeds: in the handlers a line sent to
    the terminal is taken as printed ([run_command_on] follows a terminal
    that refuses lines). *)
Definition emit (e : event) : M unit :=
  fun w => (Ret tt, mkWorld (stdin w) (values_file w) (e :: trace w)).

(** The commands run so far, most recent first. *)
Fixpoint commands (t : list event) : list string :=
  match t with
  | [] => []
  | Run c :: t' => c :: commands t'
  | _ :: t' => commands t'
  end.

Definition print (text : string) : M unit := emit (Print text).
Definition print_header (text : string) : M unit := emit (Header text).
Definition print_success (text : string) : M unit := emit (Success text).
Definition print_error (text : string) : M unit := emit (Error text).
Definition print_info (text : string) : M unit := emit (Info text).
Definition print_warning (text : string) : M unit := emit (Warning text).

(** [input(prompt)]: the prompt is shown, then the next answer is read;
    at the end of the input EOFError is raised. *)
Definition input (prompt : string) : M string :=
  fun w =>
    match stdin w with
    | [] => (Raise EOFError, mkWorld [] (values_file w) (Input prompt :: trace w))
    | a :: rest => (Ret a, mkWorld rest (values_file w) (Input prompt :: trace w))
    end.

Definition sleep (seconds : nat) : M unit := emit (Sleep seconds).

Definition path_exists : M bool :=
  fun w => (Ret (match values_file w with Some _ => true | None => false end), w).

(** [open(values_file, "r").read()]: the file is read in text mode. *)
Definition read_values : M string :=
  fun w =>
    (Ret (match values_file w with
          | Some c => Py.universal_newlines c
          | None => ""
          end), w).

(** [open(values_file, "w").write(content)]: the text is stored as it is,
    the line separator being the line feed. *)
Definition write_values (name content : string) : M unit :=
  fun w => (Ret tt, mkWorld (stdin w) (Some content) (WriteFile name content :: trace w)).

(** A block of text written as its lines, each ended by a line feed. *)
Fixpoint text_of_lines (ls : list string) : string :=
  match ls with
  | [] => ""
  | l :: ls' => l ++ String Py.nl (text_of_lines ls')
  end.

(** The default values file of [deploy_prometheus], lines 190-221. *)
Definition default_values (hostname : string) : string :=
  text_of_lines
    [ "prometheus-node-exporter:";
      "  enabled: false";
      "kube-state-metrics:";
      "  enabled: false";
      "alertmanager:";
      "  enabled: false";
      "serverFiles:";
      "  prometheus.yml:";
      "    scrape_configs:";
      "      - job_name: prometheus";
      "        static_configs:";
      "          - targets:";
      "              - localhost:9090";
      "      - job_name: node-exporter";
      "        static_configs:";
      "          - targets:";
      "              - kube-prometheus-stack-prometheus-node-exporter.monitoring:9100";
      "      - job_name: nginx";
      "        static_configs:";
      "          - targets:";
      "              - ingress-nginx-controller-metrics.ingress-nginx:10254";
      "server:";
      "  persistentVolume:";
      "    enabled: false";
      "  ingress:";
      "    enabled: true";
      "    ingressClassName: nginx";
      "    hosts:";
      "      - " ++ hostname;
      "    annotations:";
      "      external-dns.alpha.kubernetes.io/hostname: "
        ++ String Py.dquote hostname ++ String Py.dquote "" ].

(** f'hosts:\n      - {hostname}' *)
Definition hosts_replacement (hostname : string) : string :=
  "hosts:" ++ String Py.nl ("      - " ++ hostname).

(** f'external-dns.alpha.kubernetes.io/hostname: "{hostname}"' *)
Definition dns_replacement (hostname : string) : string :=
  "external-dns.alpha.kubernetes.io/hostname: "
    ++ String Py.dquote hostname ++ String Py.dquote "".

(** Iterating over a decoded value: the items of a list, the keys of an
    object, the characters of a string; anything else is not iterable. *)
Definition iterate (v : json) : outcome (list json) :=
  match v with
  | JArr items => Ret items
  | JObj fields => Ret (map (fun kv => JStr (fst kv)) fields)
  | JStr s => Ret (map (fun c => JStr (String c "")) (list_ascii_of_string s))
  | _ => Raise TypeError
  end.

Fixpoint lookup (key : string) (fields : list (string * json)) : option json :=
  match fields with
  | [] => None
  | (k, v) :: fields' => if (k =? key)%string then Some v else lookup key fields'
  end.

(** [v[key]] for a text key. *)
Definition item (v : json) (key : string) : outcome json :=
  match v with
  | JObj fields =>
      match lookup key fields with
      | Some x => Ret x
      | None => Raise KeyError
      end
  | _ => Raise TypeError
  end.

(** [v[i]] for an index within [0, len(v)). *)
Definition at_index (v : json) (i : nat) : outcome json :=
  match v with
  | JArr items =>
      match nth_error items i with
      | Some x => Ret x
      | None => Raise IndexError
      end
  | JStr s =>
      match nth_error (list_ascii_of_string s) i with
      | Some c => Ret (JStr (String c ""))
      | None => Raise IndexError
      end
  | JObj _ => Raise KeyError
  | _ => Raise TypeError
  end.

(** [selection.isdigit() and 1 <= int(selection) <= n]: the 0-based index
    chosen, if any. *)
Definition chosen_index (n : nat) (selection : string) : outcome (option nat) :=
  if Py.isdigit selection then
    match Py.int_of_digits selection with
    | None => Raise ValueError
    | Some v =>
        if ((1 <=? v) && (v <=? N.of_nat n))%N
        then Ret (Some (N.to_nat v - 1))
        else Ret None
    end
  else Ret None.

(** Lines 164-167 (and 288-291, 349-352, 405-408). *)
Definition resolve_namespace (namespaces : list string) (selection : string)
  : outcome string :=
  match chosen_index (List.length namespaces) selection with
  | Raise e => Raise e
  | Ret None => Ret selection
  | Ret (Some i) =>
      match nth_error namespaces i with
      | Some ns => Ret ns
      | None => Raise IndexError
      end
  end.

Definition list_namespaces_command : string :=
  "kubectl get namespaces -o custom-columns=NAME:.metadata.name --no-headers".

(** ** The script *)

Section Script.

(** What the outside world answers: the result of running a command
    given everything done so far, [json.loads] ([None] for
    JSONDecodeError), the parser of [re] for a replacement text that holds
    a backslash ([None] for re.error; the result maps the matched text to
    its replacement), and [str()] of a decoded value that is not text. *)
Variable shell : list event -> string -> completion.
Variable json_loads : string -> option json.
Variable parse_template : string -> option (string -> string).
Variable show : json -> string.

(** [subprocess.run(command, shell=True, ...)]: the command text is
    recorded and the outside world gives its result.  What the command does
    besides (to the cluster, or to the values file when the text typed into
    it makes the shell do so) is not followed. *)
Definition subprocess_run (command : string) : M completion :=
  fun w =>
    (Ret (shell (trace w) command),
     mkWorld (stdin w) (values_file w) (Run command :: trace w)).

Definition when (b : bool) (c : M unit) : M unit := if b then c else ret tt.

(** Lines 46-65. *)
Definition run_command (command : string) (show_output : bool) : M (bool * string) :=
  print_info ("Running: " ++ command) ;;
  result <- subprocess_run command ;;
  match result with
  | Exit returncode stdout stderr =>
      if (returncode =? 0)%Z then
        when (show_output && Py.truthy stdout) (print stdout) ;;
        ret (true, stdout)
      else
        print_error ("Command failed with exit code " ++ Py.str_of_Z returncode) ;;
        when (Py.truthy stderr) (print_error ("Error: " ++ stderr)) ;;
        when (Py.truthy stdout && show_output) (print stdout) ;;
        ret (false, stderr)
  | Fail message =>
      print_error ("An error occurred: " ++ message) ;;
      ret (false, message)
  end.

(** Lines 67-87. *)
Definition connect_to_eks_cluster : M bool :=
  print_header "Connecting to EKS Cluster" ;;
  answer <- input "Enter AWS region (default: us-east-1): " ;;
  let region := Py.or_else answer "us-east-1" in
  '(success, _) <- run_command ("aws configure set region " ++ region) true ;;
  if negb success then ret false else
  answer <- input "Enter EKS cluster name (default: shared-eks-cluster): " ;;
  let cluster_name := Py.or_else answer "shared-eks-cluster" in
  '(success, _) <- run_command ("aws eks update-kubeconfig --name " ++ cluster_name
                                 ++ " --region " ++ region) true ;;
  if success then
    print_success ("Successfully connected to EKS cluster: " ++ cluster_name) ;;
    ret true
  else
    print_error ("Failed to connect to EKS cluster: " ++ cluster_name) ;;
    ret false.

(** Line 106. *)
Definition namespace_name (username purpose : string) : string :=
  username ++ "-" ++ purpose.

Definition create_namespace_command (namespace : string) : string :=
  "kubectl create namespace " ++ namespace.

(** Lines 89-122. *)
Definition create_namespace : M bool :=
  print_header "Creating Kubernetes Namespace" ;;
  username <- input "Enter your username or identifier (e.g., 'azni'): " ;;
  if negb (Py.truthy username) then
    print_error "Username cannot be empty" ;;
    ret false
  else
  purpose <- input "Enter namespace purpose (e.g., 'eks', 'prom', 'app'): " ;;
  if negb (Py.truthy purpose) then
    print_error "Purpose cannot be empty" ;;
    ret false
  else
  let namespace := namespace_name username purpose in
  print_info ("Generated namespace name: " ++ namespace) ;;
  confirm <- input ("Create namespace '" ++ namespace ++ "'? (y/n): ") ;;
  if negb (Py.lower confirm =? "y") then
    print_info "Namespace creation cancelled" ;;
    ret false
  else
  '(success, _) <- run_command (create_namespace_command namespace) true ;;
  if success then
    print_success ("Successfully created namespace: " ++ namespace) ;;
    ret true
  else
    print_error ("Failed to create namespace: " ++ namespace) ;;
    ret false.

(** [for i, ns in enumerate(namespaces, 1): print(f"{i}. {ns}")] *)
Fixpoint print_numbered (i : nat) (entries : list string) : M unit :=
  match entries with
  | [] => ret tt
  | e :: rest =>
      print (Py.str_of_nat i ++ ". " ++ e) ;;
      print_numbered (S i) rest
  end.

(** The namespace choice, written four times in the script (lines
    150-169, 274-293, 335-354 and 391-410) with different prompts. *)
Definition choose_namespace (listed_prompt manual_prompt : string) : M string :=
  print_info "Fetching available namespaces..." ;;
  '(success, output) <- run_command list_namespaces_command false ;;
  if success && Py.truthy output then
    let namespaces := Py.split_lines (Py.strip output) in
    print_info "Available namespaces:" ;;
    print_numbered 1 namespaces ;;
    selection <- input (String Py.nl listed_prompt) ;;
    lift (resolve_namespace namespaces selection)
  else
    input manual_prompt.

(** Line 178 (and 322, 324). *)
Definition default_release_name (namespace : string) : string :=
  namespace ++ "-prom".

Definition ask_release_name (namespace : string) : M string :=
  answer <- input ("Enter Prometheus release name (default: "
                   ++ default_release_name namespace ++ "): ") ;;
  ret (Py.or_else answer (default_release_name namespace)).

(** Lines 186 and 225. *)
Definition ask_hostname (namespace : string) : M string :=
  answer <- input ("Enter hostname for Prometheus ingress (default: "
                   ++ namespace ++ ".sctp-sandbox.com): ") ;;
  ret (Py.or_else answer (namespace ++ ".sctp-sandbox.com")).

(** [re.sub(pattern, repl, content)] for a text replacement: a
    replacement without backslash stands for itself. *)
Definition re_sub (pattern : Re.regex) (repl content : string) : outcome string :=
  if Re.has_backslash repl then
    match parse_template repl with
    | Some expand => Ret (Re.sub pattern expand content)
    | None => Raise ReError
    end
  else Ret (Re.sub pattern (fun _ => repl) content).

(** Lines 233-234. *)
Definition rewrite_hostname (hostname content : string) : outcome string :=
  match re_sub Re.hosts_pattern (hosts_replacement hostname) content with
  | Raise e => Raise e
  | Ret content' => re_sub Re.dns_pattern (dns_replacement hostname) content'
  end.

Definition values_file_name : string := "prometheus-values.yaml".

Definition deploy_command (release_name namespace : string) : string :=
  "helm upgrade --install " ++ release_name
    ++ " prometheus-community/prometheus --version 27.5.1 --values "
    ++ values_file_name ++ " --namespace " ++ namespace.

(** Lines 180-240: the hostname in use afterwards. *)
Definition prepare_values (namespace : string) : M string :=
  present <- path_exists ;;
  if negb present then
    print_warning ("Values file " ++ values_file_name
                   ++ " not found. Creating a default values file...") ;;
    hostname <- ask_hostname namespace ;;
    write_values values_file_name (default_values hostname) ;;
    print_success ("Created default values file: " ++ values_file_name) ;;
    ret hostname
  else
    hostname <- ask_hostname namespace ;;
    content <- read_values ;;
    content' <- lift (rewrite_hostname hostname content) ;;
    write_values values_file_name content' ;;
    print_success ("Updated values file with hostname: " ++ hostname) ;;
    ret hostname.

(** Lines 171-260: [deploy_prometheus] once the namespace is chosen. *)
Definition deploy_to (namespace : string) : M bool :=
  if negb (Py.truthy namespace) then
    print_error "Namespace cannot be empty" ;;
    ret false
  else
  print_info ("Using namespace: " ++ namespace) ;;
  release_name <- ask_release_name namespace ;;
  hostname <- prepare_values namespace ;;
  print_info "Deploying Prometheus..." ;;
  '(success, _) <- run_command (deploy_command release_name namespace) true ;;
  if success then
    print_success ("Successfully deployed Prometheus to namespace: " ++ namespace) ;;
    print_info ("Prometheus will be accessible at: http://" ++ hostname) ;;
    print_info "Checking deployment status..." ;;
    sleep 5 ;;
    run_command ("kubectl get pods -n " ++ namespace) true ;;
    run_command ("kubectl get svc -n " ++ namespace) true ;;
    run_command ("kubectl get ingress -n " ++ namespace) true ;;
    ret true
  else
    print_error ("Failed to deploy Prometheus to namespace: " ++ namespace) ;;
    ret false.

Definition install_helm_command : string :=
  "curl https://raw.githubusercontent.com/helm/helm/main/scripts/get-helm-3 | bash".

Definition repo_add_command : string :=
  "helm repo add prometheus-community https://prometheus-community.github.io/helm-charts".

(** Lines 138-260: [deploy_prometheus] once Helm is available. *)
Definition deploy_with_helm : M bool :=
  '(success, _) <- run_command repo_add_command true ;;
  if negb success then
    print_error "Failed to add Prometheus Helm repository" ;;
    ret false
  else
  '(success, _) <- run_command "helm repo update" true ;;
  if negb success then
    print_error "Failed to update Helm repositories" ;;
    ret false
  else
  namespace <- choose_namespace
                 "Enter namespace number or name for Prometheus deployment: "
                 "Enter namespace for Prometheus deployment: " ;;
  deploy_to namespace.

(** Lines 124-260. *)
Definition deploy_prometheus : M bool :=
  print_header "Deploying Prometheus" ;;
  '(success, _) <- run_command "helm version" false ;;
  if negb success then
    print_warning "Helm is not installed. Installing Helm..." ;;
    '(success, _) <- run_command install_helm_command true ;;
    if negb success then
      print_error "Failed to install Helm" ;;
      ret false
    else
      print_success "Helm installed successfully" ;;
      deploy_with_helm
  else deploy_with_helm.

Definition format (v : json) : string :=
  match v with
  | JStr s => s
  | _ => show v
  end.

(** Lines 310-311. *)
Fixpoint print_releases (i : nat) (releases : list json) : M unit :=
  match releases with
  | [] => ret tt
  | release :: rest =>
      name <- lift (item release "name") ;;
      chart <- lift (item release "chart") ;;
      print (Py.str_of_nat i ++ ". " ++ format name
             ++ " (Chart: " ++ format chart ++ ")") ;;
      print_releases (S i) rest
  end.

(** Lines 308-320: the body of the [try]. *)
Definition choose_release (releases : json) : M string :=
  print_info "Available Helm releases:" ;;
  entries <- lift (iterate releases) ;;
  print_releases 1 entries ;;
  selection <- input (String Py.nl "Enter release number or name to delete: ") ;;
  chosen <- lift (chosen_index (List.length entries) selection) ;;
  match chosen with
  | Some i =>
      release <- lift (at_index releases i) ;;
      name <- lift (item release "name") ;;
      ret (format name)
  | None => ret selection
  end.

Definition list_releases_command (namespace : string) : string :=
  "helm list -n " ++ namespace ++ " -o json".

Definition uninstall_command (release_name namespace : string) : string :=
  "helm uninstall " ++ release_name ++ " --namespace " ++ namespace.

Definition delete_namespace_command (namespace : string) : string :=
  "kubectl delete namespace " ++ namespace.

(** Lines 295-332: release deletion once the namespace is chosen. *)
Definition delete_release_in (namespace : string) : M bool :=
  if negb (Py.truthy namespace) then
    print_error "Namespace cannot be empty" ;;
    ret false
  else
  print_info ("Using namespace: " ++ namespace) ;;
  print_info ("Fetching Helm releases in namespace '" ++ namespace ++ "'...") ;;
  '(success, output) <- run_command (list_releases_command namespace) false ;;
  release_name <-
    (if success && Py.truthy output && negb (Py.strip output =? "[]") then
       match json_loads output with
       | Some releases => choose_release releases
       | None => ask_release_name namespace
       end
     else ask_release_name namespace) ;;
  '(success, _) <- run_command (uninstall_command release_name namespace) true ;;
  if success then
    print_success ("Successfully deleted Prometheus deployment: " ++ release_name) ;;
    ret true
  else
    print_error ("Failed to delete Prometheus deployment: " ++ release_name) ;;
    ret false.

(** The escape sequences of [Colors]. *)
Definition esc (code : string) : string := String "027" ("[" ++ code ++ "m").
Definition RED : string := esc "91".
Definition BOLD : string := esc "1".
Definition ENDC : string := esc "0".

Definition delete_confirmation_prompt (namespace : string) : string :=
  String Py.nl (RED ++ BOLD ++ "WARNING: Are you sure you want to delete namespace '"
                ++ namespace ++ "'?" ++ ENDC)
  ++ String Py.nl "This will delete ALL resources in the namespace and CANNOT be undone. (yes/no): ".

(** Lines 356-378: namespace deletion once the namespace is chosen. *)
Definition delete_namespace (namespace : string) : M bool :=
  if negb (Py.truthy namespace) then
    print_error "Namespace cannot be empty" ;;
    ret false
  else
  print_info ("Selected namespace: " ++ namespace) ;;
  print_info ("Resources in namespace '" ++ namespace ++ "':") ;;
  run_command ("kubectl get all -n " ++ namespace) true ;;
  confirm <- input (delete_confirmation_prompt namespace) ;;
  if negb (Py.lower confirm =? "yes") then
    print_info "Namespace deletion cancelled" ;;
    ret false
  else
  '(success, _) <- run_command (delete_namespace_command namespace) true ;;
  if success then
    print_success ("Successfully deleted namespace: " ++ namespace) ;;
    ret true
  else
    print_error ("Failed to delete namespace: " ++ namespace) ;;
    ret false.

(** Lines 262-385. *)
Definition delete_resources : M bool :=
  print_header "Deleting Kubernetes Resources" ;;
  print "1. Delete Prometheus deployment" ;;
  print "2. Delete namespace" ;;
  print "3. Back to main menu" ;;
  choice <- input (String Py.nl "Enter your choice (1-3): ") ;;
  if choice =? "1" then
    namespace <- choose_namespace
                   "Enter namespace number or name containing Prometheus deployment: "
                   "Enter namespace containing Prometheus deployment: " ;;
    delete_release_in namespace
  else if choice =? "2" then
    namespace <- choose_namespace
                   "Enter namespace number or name to delete: "
                   "Enter namespace to delete: " ;;
    delete_namespace namespace
  else if choice =? "3" then
    ret true
  else
    print_error "Invalid choice" ;;
    ret false.

(** Lines 440-471 and 477-479: the optional description of one resource. *)
Definition describe (prompt command_prefix namespace : string) (more : string -> M unit)
  : M unit :=
  name <- input (String Py.nl prompt) ;;
  if Py.truthy name then
    run_command (command_prefix ++ name ++ " -n " ++ namespace) true ;;
    more name
  else ret tt.

(** Lines 445-447. *)
Definition offer_logs (namespace pod : string) : M unit :=
  show_logs <- input (String Py.nl "Do you want to see logs for this pod? (y/n): ") ;;
  if Py.lower show_logs =? "y" then
    run_command ("kubectl logs " ++ pod ++ " -n " ++ namespace) true ;;
    ret tt
  else ret tt.

(** Lines 412-486: the status views once the namespace is chosen. *)
Definition show_status (namespace : string) : M bool :=
  if negb (Py.truthy namespace) then
    print_error "Namespace cannot be empty" ;;
    ret false
  else
  print_info ("Checking resources in namespace: " ++ namespace) ;;
  print (String Py.nl "Select resource type to check:") ;;
  print "1. All resources (summary)" ;;
  print "2. Pods" ;;
  print "3. Services" ;;
  print "4. Deployments" ;;
  print "5. Ingresses" ;;
  print "6. Helm releases" ;;
  print "7. Events (useful for troubleshooting)" ;;
  resource_choice <- input (String Py.nl "Enter your choice (1-7): ") ;;
  (if resource_choice =? "1" then
     print_info ("All resources in namespace '" ++ namespace ++ "':") ;;
     run_command ("kubectl get all -n " ++ namespace) true ;;
     run_command ("kubectl get ingress -n " ++ namespace) true ;;
     run_command ("helm list -n " ++ namespace) true ;;
     ret tt
   else if resource_choice =? "2" then
     print_info ("Pods in namespace '" ++ namespace ++ "':") ;;
     run_command ("kubectl get pods -n " ++ namespace) true ;;
     describe "Enter pod name to see details (or press Enter to skip): "
              "kubectl describe pod " namespace (offer_logs namespace)
   else if resource_choice =? "3" then
     print_info ("Services in namespace '" ++ namespace ++ "':") ;;
     run_command ("kubectl get svc -n " ++ namespace) true ;;
     describe "Enter service name to see details (or press Enter to skip): "
              "kubectl describe svc " namespace (fun _ => ret tt)
   else if resource_choice =? "4" then
     print_info ("Deployments in namespace '" ++ namespace ++ "':") ;;
     run_command ("kubectl get deployments -n " ++ namespace) true ;;
     describe "Enter deployment name to see details (or press Enter to skip): "
              "kubectl describe deployment " namespace (fun _ => ret tt)
   else if resource_choice =? "5" then
     print_info ("Ingresses in namespace '" ++ namespace ++ "':") ;;
     run_command ("kubectl get ingress -n " ++ namespace) true ;;
     describe "Enter ingress name to see details (or press Enter to skip): "
              "kubectl describe ingress " namespace (fun _ => ret tt)
   else if resource_choice =? "6" then
     print_info ("Helm releases in namespace '" ++ namespace ++ "':") ;;
     run_command ("helm list -n " ++ namespace) true ;;
     describe "Enter release name to see details (or press Enter to skip): "
              "helm status " namespace (fun _ => ret tt)
   else if resource_choice =? "7" then
     print_info ("Events in namespace '" ++ namespace ++ "' (most recent first):") ;;
     run_command ("kubectl get events --sort-by=.metadata.creationTimestamp -n "
                  ++ namespace) true ;;
     ret tt
   else
     print_error "Invalid choice") ;;
  ret true.

(** Lines 387-486. *)
Definition check_resource_status : M bool :=
  print_header "Resource Status Check" ;;
  namespace <- choose_namespace
                 "Enter namespace number or name to check: "
                 "Enter namespace to check: " ;;
  show_status namespace.

(** How a run of the menu ends: [sys.exit(code)], or an exception nothing
    catches ([__main__] catches KeyboardInterrupt only). *)
Inductive ending :=
| Exited (code : Z)
| Uncaught (e : exn).

(** Line 518. *)
Definition pause : M (option Z) :=
  input (String Py.nl "Press Enter to continue...") ;;
  ret None.

(** Lines 502-518: the branch of the choice, then the pause; [Some code]
    stands for [sys.exit(code)], [None] for the next turn. *)
Definition dispatch (choice : string) : M (option Z) :=
  if choice =? "1" then connect_to_eks_cluster ;; pause
  else if choice =? "2" then create_namespace ;; pause
  else if choice =? "3" then deploy_prometheus ;; pause
  else if choice =? "4" then check_resource_status ;; pause
  else if choice =? "5" then delete_resources ;; pause
  else if choice =? "6" then
    print_info "Exiting..." ;;
    ret (Some 0%Z)
  else
    print_error "Invalid choice" ;;
    pause.

(** Lines 491-518: one turn of the [while True] loop. *)
Definition menu_turn : M (option Z) :=
  print_header "Kubernetes Resource Manager" ;;
  print "1. Connect to EKS Cluster" ;;
  print "2. Create Namespace" ;;
  print "3. Deploy Prometheus" ;;
  print "4. Check Resource Status" ;;
  print "5. Delete Resources" ;;
  print "6. Exit" ;;
  choice <- input (String Py.nl "Enter your choice (1-6): ") ;;
  dispatch choice.

(** Lines 488-518, run for at most [fuel] turns; [None] when the loop is
    still going after them. *)
Fixpoint main_menu (fuel : nat) (w : world) : option ending * world :=
  match fuel with
  | 0 => (None, w)
  | S fuel' =>
      match menu_turn w with
      | (Ret None, w') => main_menu fuel' w'
      | (Ret (Some code), w') => (Some (Exited code), w')
      | (Raise e, w') => (Some (Uncaught e), w')
      end
  end.

End Script.

(** ** Vocabulary of the statements *)

(** The pair [run_command] returns and what it prints after the command has
    run (most recent first), as functions of what the command did. *)
Definition run_result (c : completion) : bool * string :=
  match c with
  | Exit rc out err => if (rc =? 0)%Z then (true, out) else (false, err)
  | Fail msg => (false, msg)
  end.

Definition run_report (show_output : bool) (c : completion) : list event :=
  match c with
  | Exit rc out err =>
      if (rc =? 0)%Z then
        if show_output && Py.truthy out then [Print out] else []
      else
        ((if Py.truthy out && show_output then [Print out] else [])
         ++ (if Py.truthy err then [Error ("Error: " ++ err)] else [])
         ++ [Error ("Command failed with exit code " ++ Py.str_of_Z rc)])%list
  | Fail msg => [Error ("An error occurred: " ++ msg)]
  end.

(** Text shapes the two patterns stand for. *)
Definition blank (s : string) : Prop := Py.forallb_str Py.isspace s = true.

Definition one_line (s : string) : Prop :=
  Py.forallb_str (fun c => negb (Ascii.eqb c Py.nl)) s = true.

(** [hosts:], blanks, a line feed, blanks, [- ] and the rest of the line. *)
Inductive hosts_block : string -> Prop :=
| hosts_block_intro (gap indent entry : string) :
    blank gap -> blank indent -> one_line entry ->
    hosts_block ("hosts:" ++ gap ++ String Py.nl (indent ++ "- " ++ entry)).

(** The annotation key, each of its dots standing for any character of the
    line, and a quoted value within the line. *)
Inductive dns_entry : string -> Prop :=
| dns_entry_intro (a b c : ascii) (value : string) :
    one_line (String a (String b (String c value))) ->
    dns_entry ("external-dns" ++ String a ("alpha" ++ String b ("kubernetes"
               ++ String c ("io/hostname: " ++ String Py.dquote (value
               ++ String Py.dquote ""))))).

(** [rewritten P repl s t]: [t] is [s] with some disjoint pieces satisfying
    [P] replaced by [repl], and every other character kept in place. *)
Inductive rewritten (P : string -> Prop) (repl : string) : string -> string -> Prop :=
| rewritten_end : rewritten P repl "" ""
| rewritten_keep (c : ascii) (s t : string) :
    rewritten P repl s t -> rewritten P repl (String c s) (String c t)
| rewritten_replace (m s t : string) :
    P m -> rewritten P repl s t -> rewritten P repl (m ++ s) (repl ++ t).

(** The texts a pattern matches, item by item. *)
Inductive matches : Re.regex -> string -> Prop :=
| matches_nil : matches [] ""
| matches_lit (p : string) (r : Re.regex) (s : string) :
    matches r s -> matches (Re.Lit p :: r) (p ++ s)
| matches_one (a : Re.atom) (c : ascii) (r : Re.regex) (s : string) :
    Re.accepts a c = true -> matches r s -> matches (Re.One a :: r) (String c s)
| matches_star (a : Re.atom) (run : string) (r : Re.regex) (s : string) :
    Py.forallb_str (Re.accepts a) run = true ->
    matches r s -> matches (Re.Star a :: r) (run ++ s).

Fixpoint drop (n : nat) (s : string) : string :=
  match n, s with
  | S k, String _ s' => drop k s'
  | _, _ => s
  end.

Fixpoint contains (p s : string) : bool :=
  match Re.drop_prefix p s with
  | Some _ => true
  | None =>
      match s with
      | String _ s' => contains p s'
      | EmptyString => false
      end
  end.

(** The frame property read line by line: the rewritten file has the lines
    of the input, except for the line under a [hosts:] key and for lines
    holding the annotation key. *)
Definition is_hosts_key (l : string) : bool :=
  (Py.strip l =? "hosts:") || (Py.strip l =? "- hosts:").

Definition is_annotation (l : string) : bool :=
  contains "external-dns.alpha.kubernetes.io/hostname:" l.

Fixpoint only_hostname_lines_differ (above : string) (old new : list string) : bool :=
  match old, new with
  | [], [] => true
  | l :: old', l' :: new' =>
      ((l =? l') || is_hosts_key above || is_annotation l)
      && only_hostname_lines_differ l old' new'
  | _, _ => false
  end.

(** ** Sample surroundings for the concrete runs *)

(** Every command succeeds and prints nothing. *)
Definition shell_ok : list event -> string -> completion :=
  fun _ _ => Exit 0 "" "".

(** Every command fails. *)
Definition shell_down : list event -> string -> completion :=
  fun _ _ => Exit 1 "" "connection refused".

(** A cluster with three namespaces; the release list is not JSON. *)
Definition shell_cluster : list event -> string -> completion :=
  fun _ command =>
    if command =? list_namespaces_command
    then Exit 0 (text_of_lines ["default"; "kube-system"; "team-prom"]) ""
    else if command =? "helm list -n team-prom -o json"
    then Exit 0 "WARNING: no releases" ""
    else Exit 0 "" "".

Definition no_json : string -> option json := fun _ => None.
Definition no_template : string -> option (string -> string) := fun _ => None.
Definition show_plain : json -> string := fun _ => "".

(** The one-character text U+00B2, superscript two. *)
Definition superscript_two : string := String "178" "".

(** A values file with a comment above its scrape jobs. *)
Definition commented_values : string :=
  text_of_lines
    [ "serverFiles:";
      "  prometheus.yml:";
      "    scrape_configs:";
      "      # jobs for the ingress hosts:";
      "      - job_name: nginx" ].

Definition start (answers : list string) : world := mkWorld answers None [].

(** ** The command runner on a terminal that can refuse a line *)

(** What the terminal does with a line: [None] when it is printed, or the
    exception that [print] raises, with its message, and nothing printed
    (UnicodeEncodeError when the stream cannot encode the line, OSError when
    it is closed).  Every such exception is a subclass of [Exception]. *)
Definition console : Type := event -> option (exn * string).

Definition print_on (terminal : console) (line : event) : M unit :=
  fun w =>
    match terminal line with
    | None => emit line w
    | Some (e, _) => (Raise e, w)
    end.

(** How the [try] block of [run_command] ends. *)
Inductive attempt :=
| Returned (stdout : string)
| CalledProcessError (returncode : Z) (stdout stderr : string)
| OtherException (message : string).

(** A print inside the [try] block: its exception is caught by
    [except Exception], with [str(e)] the message. *)
Definition print_in_try (terminal : console) (line : event) (next : M attempt)
  : M attempt :=
  fun w =>
    match terminal line with
    | None => bind (emit line) (fun _ => next) w
    | Some (_, message) => (Ret (OtherException message), w)
    end.

Section Runner.

Variable shell : list event -> string -> completion.
Variable terminal : console.

(** Lines 48-54. *)
Definition try_block (command : string) (show_output : bool) : M attempt :=
  print_in_try terminal (Info ("Running: " ++ command))
    (result <- subprocess_run shell command ;;
     match result with
     | Exit returncode stdout stderr =>
         if (returncode =? 0)%Z then
           if show_output && Py.truthy stdout
           then print_in_try terminal (Print stdout) (ret (Returned stdout))
           else ret (Returned stdout)
         else ret (CalledProcessError returncode stdout stderr)
     | Fail message => ret (OtherException message)
     end).

(** Lines 46-65, with the prints of the two [except] clauses outside any
    [try]. *)
Definition run_command_on (command : string) (show_output : bool)
  : M (bool * string) :=
  ended <- try_block command show_output ;;
  match ended with
  | Returned stdout => ret (true, stdout)
  | CalledProcessError returncode stdout stderr =>
      print_on terminal
        (Error ("Command failed with exit code " ++ Py.str_of_Z returncode)) ;;
      when (Py.truthy stderr) (print_on terminal (Error ("Error: " ++ stderr))) ;;
      when (Py.truthy stdout && show_output) (print_on terminal (Print stdout)) ;;
      ret (false, stderr)
  | OtherException message =>
      print_on terminal (Error ("An error occurred: " ++ message)) ;;
      ret (false, message)
  end.

End Runner.

(** The lines the [except] clauses print: error reports and captured
    output. *)
Definition reported (line : event) : bool :=
  match line with
  | Error _ | Print _ => true
  | _ => false
  end.

(** A terminal that prints everything. *)
Definition plain_terminal : console := fun _ => None.

(** A terminal whose stream encodes ASCII only: the lines that carry a
    check mark, a cross, an information or a warning sign are refused, and
    so is any text with a character past U+007F. *)
Definition ascii_text (s : string) : bool :=
  Py.forallb_str (fun c => Nat.ltb (Py.code c) 128) s.

Definition ascii_terminal : console :=
  fun line =>
    let refuse := Some (UnicodeEncodeError, "'ascii' codec can't encode character") in
    match line with
    | Header text | Print text => if ascii_text text then None else refuse
    | Success _ | Error _ | Info _ | Warning _ => refuse
    | _ => None
    end.

(** A terminal that refuses the information sign only. *)
Definition no_info_terminal : console :=
  fun line =>
    match line with
    | Info _ => Some (UnicodeEncodeError, "'charmap' codec can't encode character")
    | _ => None
    end.

(** ** Frames: what a computation leaves as it was *)

(** [preserves R c]: whatever the world, running [c] relates it to the world
    it leaves by [R], also when [c] raises. *)
Definition preserves {A : Type} (R : world -> world -> Prop) (c : M A) : Prop :=
  forall w, R w (snd (c w)).

(** Lines on the terminal and pauses: the events that neither read an
    answer, run a command nor write the values file. *)
Definition printed (e : event) : bool :=
  match e with
  | Input _ | Run _ | WriteFile _ _ => false
  | _ => true
  end.

(** The script wrote no file in between. *)
Definition writes_nothing (w w' : world) : Prop :=
  exists later,
    trace w' = (later ++ trace w)%list
    /\ forallb (fun e => match e with WriteFile _ _ => false | _ => true end) later
       = true.


(** The commands run in between all pass [ok]. *)
Definition runs_only (ok : string -> bool) (w w' : world) : Prop :=
  exists ran,
    commands (trace w') = (ran ++ commands (trace w))%list /\ forallb ok ran = true.

(** The shapes of the commands of each handler. *)
Definition starts_with (c : string) (prefixes : list string) : bool :=
  existsb (fun p => match Re.drop_prefix p c with Some _ => true | None => false end)
          prefixes.

Definition connect_commands (c : string) : bool :=
  starts_with c ["aws configure set region "; "aws eks update-kubeconfig --name "].

Definition create_commands (c : string) : bool :=
  starts_with c ["kubectl create namespace "].

Definition deploy_commands (c : string) : bool :=
  starts_with c ["helm version"; "curl https://raw.githubusercontent.com/helm/helm/";
                 "helm repo add prometheus-community "; "helm repo update";
                 "kubectl get "; "helm upgrade --install "].

Definition status_commands (c : string) : bool :=
  starts_with c ["kubectl get "; "kubectl describe "; "kubectl logs ";
                 "helm list "; "helm status "].

Definition delete_commands (c : string) : bool :=
  starts_with c ["kubectl get "; "helm list "; "helm uninstall ";
                 "kubectl delete namespace "].

(** Each answer of [choices] is a menu choice no branch recognises, followed
    by the answer to the pause. *)
Fixpoint unrecognised_turns (choices : list (string * string)) : list string :=
  match choices with
  | [] => []
  | (choice, ack) :: more => choice :: ack :: unrecognised_turns more
  end.

Definition recognised (choice : string) : bool :=
  existsb (String.eqb choice) ["1"; "2"; "3"; "4"; "5"; "6"].

(** ** Listings, generated files and releases *)

(** A character that is no blank. *)
Definition solid (c : ascii) : bool := negb (Py.isspace c).

(** A name as kubectl prints them: not empty, no blank inside. *)
Definition is_name (n : string) : bool := Py.truthy n && Py.forallb_str solid n.

(** The lines joined by line feeds, none after the last. *)
Fixpoint join_lines (ls : list string) : string :=
  match ls with
  | [] => ""
  | [l] => l
  | l :: ls' => l ++ String Py.nl (join_lines ls')
  end.

(** The generated file up to its [hosts:] key, and between the host entry
    and the annotation value. *)
Definition values_head : string :=
  text_of_lines
    [ "prometheus-node-exporter:";
      "  enabled: false";
      "kube-state-metrics:";
      "  enabled: false";
      "alertmanager:";
      "  enabled: false";
      "serverFiles:";
      "  prometheus.yml:";
      "    scrape_configs:";
      "      - job_name: prometheus";
      "        static_configs:";
      "          - targets:";
      "              - localhost:9090";
      "      - job_name: node-exporter";
      "        static_configs:";
      "          - targets:";
      "              - kube-prometheus-stack-prometheus-node-exporter.monitoring:9100";
      "      - job_name: nginx";
      "        static_configs:";
      "          - targets:";
      "              - ingress-nginx-controller-metrics.ingress-nginx:10254";
      "server:";
      "  persistentVolume:";
      "    enabled: false";
      "  ingress:";
      "    enabled: true";
      "    ingressClassName: nginx" ]
  ++ "    ".

(** What stands between the host entry and the annotation key. *)
Definition values_indent : string := String Py.nl ("    annotations:" ++ String Py.nl "      ").

(** The annotation key up to the quoted value. *)
Definition dns_key : string := "external-dns.alpha.kubernetes.io/hostname: ".

(** The generated file with one hostname in the host list and one in the
    annotation. *)
Definition generated (entry value : string) : string :=
  values_head
  ++ "hosts:" ++ String Py.nl ("      - " ++ entry
  ++ values_indent ++ dns_key ++ String Py.dquote (value ++ String Py.dquote (String Py.nl ""))).

(** [mismatch p x]: [x] differs from [p] at a character they both have. *)
Fixpoint mismatch (p x : string) : bool :=
  match p, x with
  | String a p', String b x' => if Ascii.eqb a b then mismatch p' x' else true
  | _, _ => false
  end.

(** [clear p x]: at no position of [x] can a text starting with [p] begin,
    whatever follows [x]. *)
Fixpoint clear (p x : string) : bool :=
  match x with
  | EmptyString => true
  | String _ x' => mismatch p x && clear p x'
  end.

(** A listed release that carries the two keys the listing reads. *)
Definition has_keys (release : json) : bool :=
  match release with
  | JObj fields =>
      match lookup "name" fields, lookup "chart" fields with
      | Some _, Some _ => true
      | _, _ => false
      end
  | _ => false
  end.

(** Two releases as [helm list -o json] reports them. *)
Definition two_releases : list json :=
  [ JObj [("name", JStr "team-grafana"); ("chart", JStr "grafana-8.0.0")];
    JObj [("name", JStr "team-prom"); ("chart", JStr "prometheus-27.5.1")] ].

(** A cluster whose release listing succeeds. *)
Definition shell_releases (history : list event) (command : string) : completion :=
  if command =? "helm list -n team -o json" then Exit 0 "[...]" "" else Exit 0 "" "".

(** A text without carriage return, which text mode reads as it is. *)
Definition no_cr (s : string) : Prop :=
  Py.forallb_str (fun c => negb (Ascii.eqb c Py.cr)) s = true.

(** A values file by its lines: the lines above the host list, the key
    line, the entry line, the lines down to the annotation, the annotation
    line, the lines below, and a last line that no line feed ends (empty
    when the file ends in a line feed). *)
Definition file_of (above : list string) (key_line entry_line : string)
           (between : list string) (annotation_line : string)
           (below : list string) (last : string) : string :=
  text_of_lines (above ++ [key_line; entry_line] ++ between ++ [annotation_line] ++ below)
  ++ last.

(** The same file in the order it is scanned: what stands from the key to
    the entry, the entry, and the annotation as a function of what follows
    its value. *)
Definition scanned (above between below : list string) (last i1 i3 tail : string)
           (key entry_line : string) (annotation : string -> string) : string :=
  text_of_lines above ++ i1 ++ key
  ++ entry_line
  ++ String Py.nl (text_of_lines between ++ i3
                   ++ annotation (tail ++ String Py.nl (text_of_lines below ++ last))).

(** The annotation line: indentation, key, quoted value, and what trails. *)
Definition annotation_line (i3 value tail : string) : string :=
  i3 ++ dns_key ++ String Py.dquote (value ++ String Py.dquote tail).

(** Blanks within a line: the indentation of a line, or what trails it. *)
Definition indent (s : string) : Prop :=
  Py.forallb_str (fun c => Py.isspace c && negb (Ascii.eqb c Py.nl)) s = true.

(** No line of [ls] holds the text [p]. *)
Definition free_of (p : string) (ls : list string) : bool :=
  forallb (fun l => negb (contains p l)) ls.

Definition no_quote (s : string) : Prop :=
  Py.forallb_str (fun c => negb (Ascii.eqb c Py.dquote)) s = true.

(** A values file saved with carriage returns. *)
Definition crlf_values : string :=
  "server:" ++ String Py.cr (String Py.nl
  ("  persistentVolume:" ++ String Py.cr (String Py.nl ""))).

(** The lines of the generated file above its host list. *)
Definition generated_above : list string :=
  [ "prometheus-node-exporter:";
    "  enabled: false";
    "kube-state-metrics:";
    "  enabled: false";
    "alertmanager:";
    "  enabled: false";
    "serverFiles:";
    "  prometheus.yml:";
    "    scrape_configs:";
    "      - job_name: prometheus";
    "        static_configs:";
    "          - targets:";
    "              - localhost:9090";
    "      - job_name: node-exporter";
    "        static_configs:";
    "          - targets:";
    "              - kube-prometheus-stack-prometheus-node-exporter.monitoring:9100";
    "      - job_name: nginx";
    "        static_configs:";
    "          - targets:";
    "              - ingress-nginx-controller-metrics.ingress-nginx:10254";
    "server:";
    "  persistentVolume:";
    "    enabled: false";
    "  ingress:";
    "    enabled: true";
    "    ingressClassName: nginx" ].

(** ** Text lemmas *)

Lemma append_nil_r (s : string) : s ++ "" = s.
Proof. induction s as [|c s IH]; cbn; [reflexivity | now rewrite IH]. Qed.

Lemma append_assoc (a b c : string) : (a ++ b) ++ c = a ++ (b ++ c).
Proof. induction a as [|x a IH]; cbn; [reflexivity | now rewrite IH]. Qed.

Lemma take_drop (n : nat) (s : string) : Re.take n s ++ drop n s = s.
Proof.
  revert s; induction n as [|n IH]; intros [|c s]; cbn; try reflexivity.
  now rewrite IH.
Qed.

Lemma take_append (p s : string) (k : nat) :
  Re.take (String.length p + k) (p ++ s) = p ++ Re.take k s.
Proof. induction p as [|c p IH]; cbn; [reflexivity | now rewrite IH]. Qed.

Lemma length_append (p s : string) :
  String.length (p ++ s) = String.length p + String.length s.
Proof. induction p as [|c p IH]; cbn; [reflexivity | now rewrite IH]. Qed.

Lemma drop_prefix_sound (p s rest : string) :
  Re.drop_prefix p s = Some rest -> s = p ++ rest.
Proof.
  revert s; induction p as [|a p IH]; intros s H; cbn in *.
  - now inversion H.
  - destruct s as [|b s]; [discriminate|].
    destruct (Ascii.eqb a b) eqn:E; [|discriminate].
    apply Ascii.eqb_eq in E. subst b. now rewrite (IH _ H).
Qed.

Lemma truthy_nonempty (c : ascii) (s : string) : Py.truthy (String c s) = true.
Proof. reflexivity. Qed.

Lemma truthy_true (s : string) : s <> "" -> Py.truthy s = true.
Proof. destruct s; [congruence | reflexivity]. Qed.

Lemma or_else_empty (d : string) : Py.or_else "" d = d.
Proof. reflexivity. Qed.

(** ** The matcher finds only texts of the pattern *)

Lemma match_here_star (a : Re.atom) (r : Re.regex) (s : string) :
  Re.match_here (Re.Star a :: r) s
  = match s with
    | String c s' =>
        if Re.accepts a c then
          match Re.match_here (Re.Star a :: r) s' with
          | Some n => Some (S n)
          | None => Re.match_here r s
          end
        else Re.match_here r s
    | EmptyString => Re.match_here r s
    end.
Proof. destruct s; reflexivity. Qed.

Lemma matches_star_cons (a : Re.atom) (c : ascii) (r : Re.regex) (m : string) :
  Re.accepts a c = true -> matches (Re.Star a :: r) m ->
  matches (Re.Star a :: r) (String c m).
Proof.
  intros Hc H. inversion H as [| | |a' run r' s Hrun Hs]; subst.
  change (String c (run ++ s)) with (String c run ++ s).
  constructor; [cbn; now rewrite Hc | exact Hs].
Qed.

Lemma match_here_sound (r : Re.regex) :
  forall (s : string) (n : nat),
    Re.match_here r s = Some n ->
    matches r (Re.take n s) /\ n <= String.length s.
Proof.
  induction r as [|[p|a|a] r IH]; intros s n H.
  - cbn in H. inversion H; subst. split; [destruct s; constructor | lia].
  - cbn in H. destruct (Re.drop_prefix p s) as [rest|] eqn:E; [|discriminate].
    destruct (Re.match_here r rest) as [k|] eqn:K; [|discriminate].
    cbn in H. inversion H; subst. apply drop_prefix_sound in E. subst s.
    destruct (IH _ _ K) as [Hm Hk].
    rewrite take_append, length_append. split; [now constructor | lia].
  - cbn in H. destruct s as [|c s]; [discriminate|].
    destruct (Re.accepts a c) eqn:Hc; [|discriminate].
    destruct (Re.match_here r s) as [k|] eqn:K; [|discriminate].
    cbn in H. inversion H; subst. destruct (IH _ _ K) as [Hm Hk].
    cbn. split; [now constructor | lia].
  - revert n H. induction s as [|c s IHs]; intros n H; rewrite match_here_star in H.
    + destruct (IH _ _ H) as [Hm Hk].
      split; [|exact Hk]. apply (matches_star a "" r); [reflexivity | exact Hm].
    + assert (Hskip : forall n, Re.match_here r (String c s) = Some n ->
                matches (Re.Star a :: r) (Re.take n (String c s))
                /\ n <= String.length (String c s)).
      { intros k Hk. destruct (IH _ _ Hk) as [Hm Hle].
        split; [|exact Hle]. apply (matches_star a "" r); [reflexivity | exact Hm]. }
      destruct (Re.accepts a c) eqn:Hc; [|now apply Hskip].
      destruct (Re.match_here (Re.Star a :: r) s) as [k|] eqn:K; [|now apply Hskip].
      inversion H; subst. destruct (IHs _ eq_refl) as [Hm Hle].
      cbn. split; [now apply matches_star_cons | lia].
Qed.

Lemma rewritten_weaken (P Q : string -> Prop) (repl s t : string) :
  (forall m, P m -> Q m) -> rewritten P repl s t -> rewritten Q repl s t.
Proof. intros PQ H. induction H; constructor; auto. Qed.

Lemma sub_from_rewritten (r : Re.regex) (repl : string) :
  forall (s : string) (skip : nat),
    skip <= String.length s ->
    rewritten (matches r) repl (drop skip s) (Re.sub_from r (fun _ => repl) skip s).
Proof.
  induction s as [|c s IH]; intros skip Hskip.
  - cbn in Hskip. assert (skip = 0) by lia. subst skip. cbn.
    destruct (Re.match_here r "") as [n|] eqn:E; [|constructor].
    destruct (match_here_sound _ _ _ E) as [Hm _].
    replace (Re.take n "") with "" in Hm by (destruct n; reflexivity).
    pose proof (rewritten_replace (matches r) repl "" "" "" Hm
                  (rewritten_end _ _)) as R.
    cbn in R. now rewrite append_nil_r in R.
  - destruct skip as [|k].
    + cbn [drop Re.sub_from].
      destruct (Re.match_here r (String c s)) as [[|n]|] eqn:E.
      * destruct (match_here_sound _ _ _ E) as [Hm _]. cbn in Hm.
        apply (rewritten_replace _ _ "" (String c s)); [exact Hm|].
        constructor. apply (IH 0). lia.
      * destruct (match_here_sound _ _ _ E) as [Hm Hle]. cbn in Hle.
        rewrite <- (take_drop (S n) (String c s)) at 1.
        apply rewritten_replace; [exact Hm|]. cbn. apply IH. lia.
      * constructor. apply (IH 0). lia.
    + cbn in *. apply IH. lia.
Qed.

Lemma sub_rewritten (r : Re.regex) (repl s : string) :
  rewritten (matches r) repl s (Re.sub r (fun _ => repl) s).
Proof. apply (sub_from_rewritten r repl s 0). lia. Qed.

Lemma matches_nil_inv (m : string) : matches [] m -> m = "".
Proof. now inversion 1. Qed.

Lemma matches_lit_inv (p : string) (r : Re.regex) (m : string) :
  matches (Re.Lit p :: r) m -> exists s, m = p ++ s /\ matches r s.
Proof. inversion 1; subst; eauto. Qed.

Lemma matches_one_inv (a : Re.atom) (r : Re.regex) (m : string) :
  matches (Re.One a :: r) m ->
  exists c s, m = String c s /\ Re.accepts a c = true /\ matches r s.
Proof. inversion 1; subst; eauto. Qed.

Lemma matches_star_inv (a : Re.atom) (r : Re.regex) (m : string) :
  matches (Re.Star a :: r) m ->
  exists run s, m = run ++ s /\ Py.forallb_str (Re.accepts a) run = true /\ matches r s.
Proof. inversion 1; subst; eauto. Qed.

Lemma hosts_pattern_block (m : string) : matches Re.hosts_pattern m -> hosts_block m.
Proof.
  unfold Re.hosts_pattern. intros H.
  apply matches_lit_inv in H. destruct H as (s1 & -> & H).
  apply matches_star_inv in H. destruct H as (gap & s2 & -> & Hgap & H).
  apply matches_lit_inv in H. destruct H as (s3 & -> & H).
  apply matches_star_inv in H. destruct H as (indent & s4 & -> & Hindent & H).
  apply matches_lit_inv in H. destruct H as (s5 & -> & H).
  apply matches_star_inv in H. destruct H as (entry & s6 & -> & Hentry & H).
  apply matches_nil_inv in H. subst s6. rewrite append_nil_r.
  cbn [append]. now constructor.
Qed.

Lemma dns_pattern_entry (m : string) : matches Re.dns_pattern m -> dns_entry m.
Proof.
  unfold Re.dns_pattern. intros H.
  apply matches_lit_inv in H. destruct H as (s1 & -> & H).
  apply matches_one_inv in H. destruct H as (a & s2 & -> & Ha & H).
  apply matches_lit_inv in H. destruct H as (s3 & -> & H).
  apply matches_one_inv in H. destruct H as (b & s4 & -> & Hb & H).
  apply matches_lit_inv in H. destruct H as (s5 & -> & H).
  apply matches_one_inv in H. destruct H as (c & s6 & -> & Hc & H).
  apply matches_lit_inv in H. destruct H as (s7 & -> & H).
  apply matches_star_inv in H. destruct H as (value & s8 & -> & Hvalue & H).
  apply matches_lit_inv in H. destruct H as (s9 & -> & H).
  apply matches_nil_inv in H. subst s9.
  cbn [append]. constructor.
  unfold one_line. cbn in *. now rewrite Ha, Hb, Hc.
Qed.

(** ** Traces *)

Lemma commands_app (a b : list event) :
  commands (a ++ b) = (commands a ++ commands b)%list.
Proof.
  induction a as [|e a IH]; [reflexivity|].
  destruct e; cbn; now rewrite ?IH.
Qed.

Lemma commands_run_report (show_output : bool) (c : completion) :
  commands (run_report show_output c) = [].
Proof.
  destruct c as [rc out err|msg]; cbn; [|reflexivity].
  destruct (rc =? 0)%Z, show_output, (Py.truthy out), (Py.truthy err); reflexivity.
Qed.

Lemma resolve_empty (namespaces : list string) : resolve_namespace namespaces "" = Ret "".
Proof. reflexivity. Qed.

Lemma chosen_index_bound (n : nat) (selection : string) (i : nat) :
  chosen_index n selection = Ret (Some i) -> i < n.
Proof.
  unfold chosen_index. destruct (Py.isdigit selection); [|discriminate].
  destruct (Py.int_of_digits selection) as [v|]; [|discriminate].
  destruct ((1 <=? v)%N && (v <=? N.of_nat n)%N) eqn:E; [|discriminate].
  intros H. inversion H; subst. apply andb_true_iff in E. destruct E as [E1 E2].
  apply N.leb_le in E1, E2. lia.
Qed.

(** The choice never fails on the index: only [int()] can raise, and only
    on a text that passes [isdigit] and that [int()] refuses. *)
Lemma resolve_namespace_cases (namespaces : list string) (selection : string) :
  (exists ns, resolve_namespace namespaces selection = Ret ns)
  \/ (resolve_namespace namespaces selection = Raise ValueError
      /\ Py.isdigit selection = true /\ Py.int_of_digits selection = None).
Proof.
  unfold resolve_namespace.
  destruct (chosen_index (List.length namespaces) selection) as [[i|]|e] eqn:E.
  - apply chosen_index_bound in E. apply nth_error_Some in E.
    destruct (nth_error namespaces i); [eauto | congruence].
  - eauto.
  - right. unfold chosen_index in E.
    destruct (Py.isdigit selection); [|discriminate].
    destruct (Py.int_of_digits selection) as [v|].
    + destruct ((1 <=? v)%N && _); discriminate.
    + injection E as <-. auto.
Qed.

Ltac by_character ch :=
  destruct ch as [[] [] [] [] [] [] [] []]; vm_compute; intros H;
  first [ discriminate H | now left | now right ].

Lemma lower_char_y (ch : ascii) :
  Py.lower_char ch = "y"%char -> ch = "y"%char \/ ch = "Y"%char.
Proof. by_character ch. Qed.

Lemma lower_char_e (ch : ascii) :
  Py.lower_char ch = "e"%char -> ch = "e"%char \/ ch = "E"%char.
Proof. by_character ch. Qed.

Lemma lower_char_s (ch : ascii) :
  Py.lower_char ch = "s"%char -> ch = "s"%char \/ ch = "S"%char.
Proof. by_character ch. Qed.

Lemma lower_nil (s : string) : Py.lower s = "" -> s = "".
Proof. destruct s; [reflexivity | discriminate]. Qed.

(** Lower-casing gives [y] for [y] and [Y] only. *)
Lemma lower_is_y (c : string) : Py.lower c = "y" <-> c = "y" \/ c = "Y".
Proof.
  split.
  - destruct c as [|ch s]; [discriminate|]. cbn [Py.lower]. intros H.
    injection H as Hch Hs. apply lower_nil in Hs. subst s.
    destruct (lower_char_y _ Hch); subst; auto.
  - intros [-> | ->]; reflexivity.
Qed.

(** Lower-casing gives [yes] for the eight spellings of [yes] only. *)
Lemma lower_is_yes (c : string) :
  Py.lower c = "yes" <->
  exists a b d, c = String a (String b (String d ""))
                /\ (a = "y" \/ a = "Y")%char /\ (b = "e" \/ b = "E")%char
                /\ (d = "s" \/ d = "S")%char.
Proof.
  split.
  - destruct c as [|a [|b [|d s]]]; cbn [Py.lower]; intros H; try discriminate H.
    injection H as Ha Hb Hd Hs. apply lower_nil in Hs. subst s.
    exists a, b, d. split; [reflexivity|].
    repeat split; auto using lower_char_y, lower_char_e, lower_char_s.
  - intros (a & b & d & -> & [-> | ->] & [-> | ->] & [-> | ->]); reflexivity.
Qed.

(** [strip t tr]: the events of [t] above its tail [tr]. *)
Ltac strip t tr :=
  lazymatch t with
  | tr => constr:(@nil event)
  | ?e :: ?t' => let l := strip t' tr in constr:(e :: l)
  | (?a ++ ?t')%list => let l := strip t' tr in constr:((a ++ l)%list)
  end.

Ltac give_later tr :=
  lazymatch goal with
  | |- exists later, (_, {| stdin := _; values_file := _; trace := ?t |}) = _ /\ _ =>
      let l := strip t tr in exists l
  end.

Ltac same_trace := repeat (cbn [app]; rewrite <- ?app_assoc); reflexivity.

Ltac find_in :=
  repeat first [ left; reflexivity | right | apply in_or_app; right ].

Lemma has_backslash_app (a b : string) :
  Re.has_backslash (a ++ b) = Re.has_backslash a || Re.has_backslash b.
Proof.
  induction a as [|c a IH]; [reflexivity|].
  cbn. rewrite IH. now rewrite orb_assoc.
Qed.

Lemma hosts_replacement_plain (h : string) :
  Re.has_backslash (hosts_replacement h) = Re.has_backslash h.
Proof. reflexivity. Qed.

Lemma dns_replacement_plain (h : string) :
  Re.has_backslash (dns_replacement h) = Re.has_backslash h.
Proof.
  unfold dns_replacement. rewrite has_backslash_app.
  change (String Py.dquote h ++ String Py.dquote "")
    with (String Py.dquote (h ++ String Py.dquote "")).
  cbn. rewrite has_backslash_app. cbn. now rewrite orb_false_r.
Qed.

Ltac cmds :=
  repeat first [ rewrite commands_app
               | rewrite commands_run_report
               | rewrite app_nil_r
               | rewrite <- app_assoc
               | progress cbn [commands app] ].

Section Properties.

Variable shell : list event -> string -> completion.
Variable json_loads : string -> option json.
Variable parse_template : string -> option (string -> string).
Variable show : json -> string.

Lemma run_command_eq (cmd : string) (show_output : bool) (w : world) :
  run_command shell cmd show_output w
  = (Ret (run_result (shell (Info ("Running: " ++ cmd) :: trace w) cmd)),
     mkWorld (stdin w) (values_file w)
       ((run_report show_output (shell (Info ("Running: " ++ cmd) :: trace w) cmd)
         ++ Run cmd :: Info ("Running: " ++ cmd) :: trace w)%list)).
Proof.
  unfold run_command, bind, print_info, emit, subprocess_run. cbn.
  destruct (shell _ cmd) as [rc out err | msg]; cbn.
  - destruct (rc =? 0)%Z; cbn.
    + destruct show_output, (Py.truthy out); reflexivity.
    + destruct show_output, (Py.truthy out), (Py.truthy err); reflexivity.
  - reflexivity.
Qed.

Lemma print_numbered_spec (entries : list string) :
  forall (i : nat) (w : world),
  exists t,
    print_numbered i entries w
    = (Ret tt, mkWorld (stdin w) (values_file w) ((t ++ trace w)%list))
    /\ commands t = [].
Proof.
  induction entries as [|e entries IH]; intros i w.
  - exists []. destruct w; split; reflexivity.
  - cbn [print_numbered]. unfold bind, print, emit.
    destruct (IH (S i) (mkWorld (stdin w) (values_file w)
                          (Print (Py.str_of_nat i ++ ". " ++ e) :: trace w)))
      as (t & E & Ht).
    rewrite E. exists (t ++ [Print (Py.str_of_nat i ++ ". " ++ e)])%list.
    cbn. rewrite <- app_assoc, commands_app, Ht. split; reflexivity.
Qed.

Ltac exec :=
  unfold bind, print_header, print_info, print_error, print_success,
    print_warning, print, input, emit, ret, lift, sleep, when,
    path_exists, read_values, write_values;
  cbn -[append run_command run_result run_report choose_namespace
        print_numbered Py.lower Re.sub Re.has_backslash Py.strip].

Ltac run := rewrite run_command_eq; exec.

(** What the namespace choice does with one answer: it runs the listing
    command and nothing else, consumes the answer, and yields either the
    answer itself or the entry resolved from the listing. *)
Lemma choose_namespace_spec (listed manual selection : string)
      (rest : list string) (vf : option string) (tr : list event) :
  exists o t,
    choose_namespace shell listed manual (mkWorld (selection :: rest) vf tr)
    = (o, mkWorld rest vf ((t ++ tr)%list))
    /\ commands t = [list_namespaces_command]
    /\ (o = Ret selection \/ exists nss, o = resolve_namespace nss selection).
Proof.
  unfold choose_namespace. exec. run.
  destruct (run_result _) as [success output] eqn:R.
  destruct (success && Py.truthy output); exec.
  - match goal with
    | |- context [print_numbered ?i ?l ?w] =>
        destruct (print_numbered_spec l i w) as (t & E & Ht)
    end.
    cbn [stdin values_file trace] in E. rewrite E. exec.
    eexists. eexists (Input _ :: t ++ Info _ :: run_report false _
                       ++ Run _ :: Info _ :: [Info _])%list.
    split; [|split].
    + cbn [app]. rewrite <- !app_assoc. cbn [app]. rewrite <- !app_assoc. reflexivity.
    + cmds. rewrite Ht. reflexivity.
    + right. eauto.
  - eexists. eexists (Input _ :: run_report false _
                             ++ Run _ :: Info _ :: [Info _])%list.
    split; [|split].
    + cbn [app]. rewrite <- !app_assoc. reflexivity.
    + cmds. reflexivity.
    + left. reflexivity.
Qed.

Ltac drive :=
  repeat first
    [ progress exec
    | rewrite run_command_eq
    | match goal with
      | |- context [let (_, _) := run_result ?c in _] =>
          let success := fresh "success" in
          let output := fresh "output" in
          destruct (run_result c) as [success output]; destruct success
      end ].

(** With every line printed, [run_command] returns a pair: on exit code 0
    it returns [(True, stdout)]; on another exit code it reports the code,
    then stderr when there is any, and returns [(False, stderr)]; when the
    call itself fails it reports the message and returns
    [(False, message)].  The trace lists the report most recent first. *)
Lemma run_command_total (cmd : string) (show_output : bool) (w : world) :
  let before := Info ("Running: " ++ cmd) :: trace w in
  let returns (r : bool * string) (report : list event) :=
    run_command shell cmd show_output w
    = (Ret r, mkWorld (stdin w) (values_file w) ((report ++ Run cmd :: before)%list)) in
  match shell before cmd with
  | Exit rc out err =>
      if (rc =? 0)%Z then
        returns (true, out) (if show_output && Py.truthy out then [Print out] else [])
      else
        returns (false, err)
          ((if Py.truthy out && show_output then [Print out] else [])
           ++ (if Py.truthy err then [Error ("Error: " ++ err)] else [])
           ++ [Error ("Command failed with exit code " ++ Py.str_of_Z rc)])%list
  | Fail msg => returns (false, msg) [Error ("An error occurred: " ++ msg)]
  end.
Proof.
  intros before returns. subst returns before. rewrite run_command_eq.
  destruct (shell _ cmd) as [rc out err | msg]; cbn [run_result run_report].
  - destruct (rc =? 0)%Z; reflexivity.
  - reflexivity.
Qed.

(** C6.  With a non-empty username [u] and a non-empty purpose [p],
    [create_namespace] announces the namespace [u-p], asks to confirm the
    creation of [u-p], and the only command it can run is
    [kubectl create namespace u-p], run exactly when the confirmation
    lower-cases to [y]. *)
Theorem namespace_is_username_dash_purpose
        (u p c : string) (rest : list string) (vf : option string) (tr : list event) :
  u <> "" -> p <> "" ->
  exists r w' later,
    create_namespace shell (mkWorld (u :: p :: c :: rest) vf tr) = (r, w')
    /\ trace w' = (later ++ tr)%list
    /\ In (Info ("Generated namespace name: " ++ u ++ "-" ++ p)) later
    /\ In (Input ("Create namespace '" ++ (u ++ "-" ++ p) ++ "'? (y/n): ")) later
    /\ commands later
       = if Py.lower c =? "y" then ["kubectl create namespace " ++ u ++ "-" ++ p]
         else [].
Proof.
  intros Hu Hp. destruct u as [|a u]; [congruence|]. destruct p as [|b p]; [congruence|].
  unfold create_namespace, create_namespace_command, namespace_name. exec.
  destruct (Py.lower c =? "y"); drive;
    do 2 eexists; give_later tr;
    (split; [reflexivity|]); (split; [same_trace|]);
    (split; [find_in|]); (split; [find_in|]); cmds; reflexivity.
Qed.

Ltac choose :=
  lazymatch goal with
  | |- context [choose_namespace shell ?l ?m
                  {| stdin := ?sel :: ?rest; values_file := ?vf; trace := ?tr |}] =>
      let o := fresh "o" in
      let t := fresh "t" in
      let E := fresh "E" in
      let Ht := fresh "Ht" in
      let Ho := fresh "Ho" in
      destruct (choose_namespace_spec l m sel rest vf tr) as (o & t & E & Ht & Ho);
      rewrite E
  end.

(** An empty answer to the namespace choice resolves to the empty name. *)
Lemma empty_choice (o : outcome string) :
  (o = Ret "" \/ exists nss, o = resolve_namespace nss "") -> o = Ret "".
Proof. intros [-> | [nss ->]]; reflexivity. Qed.

(** C8, as amended.  With a non-empty username and purpose,
    [create_namespace] runs the create command when the confirmation is [y]
    or [Y], and for every other confirmation it cancels: it returns [False]
    and runs no command. *)
Theorem create_needs_y_or_Y
        (u p c : string) (rest : list string) (vf : option string) (tr : list event) :
  u <> "" -> p <> "" ->
  exists r w',
    create_namespace shell (mkWorld (u :: p :: c :: rest) vf tr) = (r, w')
    /\ stdin w' = rest
    /\ (c = "y" \/ c = "Y" ->
        commands (trace w')
        = create_namespace_command (namespace_name u p) :: commands tr)
    /\ (c <> "y" -> c <> "Y" -> r = Ret false /\ commands (trace w') = commands tr).
Proof using shell.
  clear json_loads parse_template show.
  intros Hu Hp. destruct u as [|a u]; [congruence|]. destruct p as [|b p]; [congruence|].
  unfold create_namespace. exec.
  destruct (Py.lower c =? "y") eqn:E.
  - apply String.eqb_eq, lower_is_y in E.
    drive; do 2 eexists; (split; [reflexivity|]); (split; [reflexivity|]);
      (split; [intros _; cbn [trace]; cmds; reflexivity | tauto]).
  - assert (Hc : ~ (c = "y" \/ c = "Y")).
    { intros H. apply lower_is_y in H. rewrite H in E. discriminate E. }
    drive. do 2 eexists. split; [reflexivity|]. split; [reflexivity|].
    split; [tauto | intros _ _; split; reflexivity].
Qed.

(** C1, as amended.  An empty answer to a required prompt makes the
    handler return [False] and run no command after that answer.  In
    [create_namespace] (empty username; empty purpose after a username) no
    command has run at all.  In [check_resource_status] and in both paths of
    [delete_resources] the namespace listing has run, and nothing else.  In
    [deploy_prometheus] only the Helm check, its installation, the two
    repository commands and the namespace listing can have run. *)
Theorem empty_required_field_fails
        (rest : list string) (vf : option string) (tr : list event) :
  (exists w',
      create_namespace shell (mkWorld ("" :: rest) vf tr) = (Ret false, w')
      /\ commands (trace w') = commands tr)
  /\ (forall (a : ascii) (u : string),
      exists w',
        create_namespace shell (mkWorld (String a u :: "" :: rest) vf tr) = (Ret false, w')
        /\ commands (trace w') = commands tr)
  /\ (exists w',
      check_resource_status shell (mkWorld ("" :: rest) vf tr) = (Ret false, w')
      /\ stdin w' = rest
      /\ commands (trace w') = list_namespaces_command :: commands tr)
  /\ (exists w',
      delete_resources shell json_loads show (mkWorld ("1" :: "" :: rest) vf tr)
      = (Ret false, w')
      /\ stdin w' = rest
      /\ commands (trace w') = list_namespaces_command :: commands tr)
  /\ (exists w',
      delete_resources shell json_loads show (mkWorld ("2" :: "" :: rest) vf tr)
      = (Ret false, w')
      /\ stdin w' = rest
      /\ commands (trace w') = list_namespaces_command :: commands tr)
  /\ (exists w' ran,
      deploy_prometheus shell parse_template (mkWorld ("" :: rest) vf tr) = (Ret false, w')
      /\ commands (trace w') = (ran ++ commands tr)%list
      /\ incl ran [list_namespaces_command; "helm repo update"; repo_add_command;
                   install_helm_command; "helm version"]).
Proof.
  repeat apply conj.
  - unfold create_namespace. exec. eexists. split; reflexivity.
  - intros a u. unfold create_namespace. exec. eexists. split; reflexivity.
  - unfold check_resource_status. exec. choose. apply empty_choice in Ho. subst o.
    drive. eexists. split; [reflexivity|]. split; [reflexivity|].
    cbn [trace]. cmds. now rewrite Ht.
  - unfold delete_resources. exec. choose. apply empty_choice in Ho. subst o.
    drive. eexists. split; [reflexivity|]. split; [reflexivity|].
    cbn [trace]. cmds. now rewrite Ht.
  - unfold delete_resources. exec. choose. apply empty_choice in Ho. subst o.
    drive. eexists. split; [reflexivity|]. split; [reflexivity|].
    cbn [trace]. cmds. now rewrite Ht.
  - unfold deploy_prometheus, deploy_with_helm.
    drive; try (choose; apply empty_choice in Ho; subst o; drive);
      eexists;
      lazymatch goal with
      | |- exists ran, (_, {| stdin := _; values_file := _; trace := ?t |}) = _ /\ _ =>
          let l := strip t tr in exists (commands l)
      end;
      (split; [reflexivity|]); cbn [trace];
      (split; [cmds; rewrite ?Ht; reflexivity|]);
      cmds; rewrite ?Ht; cbn [app];
      intros x Hx; cbn [In] in *; intuition auto.
Qed.

(** A hostname without backslash is substituted as it stands. *)
Lemma rewrite_hostname_plain (hostname content : string) :
  Re.has_backslash hostname = false ->
  rewrite_hostname parse_template hostname content
  = Ret (Re.sub Re.dns_pattern (fun _ => dns_replacement hostname)
           (Re.sub Re.hosts_pattern (fun _ => hosts_replacement hostname) content)).
Proof.
  intros H. unfold rewrite_hostname, re_sub.
  now rewrite hosts_replacement_plain, dns_replacement_plain, H.
Qed.

(** C3, as amended.  Once a non-empty namespace is chosen, the namespace
    deletion asks for confirmation after listing the resources: when the
    answer lower-cases to [yes] the delete command is run, and for every
    other answer the handler returns [False] having run the resource
    listing only.  In the whole handler, whatever the answers to the
    namespace choice, a delete command among the commands run means the
    third answer lower-cases to [yes]. *)
Theorem delete_namespace_needs_yes
        (selection c : string) (rest : list string) (vf : option string)
        (tr : list event) :
  (forall (a : ascii) (n : string),
      let ns := String a n in
      exists r w',
        delete_namespace shell ns (mkWorld (c :: rest) vf tr) = (r, w')
        /\ stdin w' = rest
        /\ (Py.lower c = "yes" ->
            commands (trace w')
            = delete_namespace_command ns :: ("kubectl get all -n " ++ ns)
                :: commands tr)
        /\ (Py.lower c <> "yes" ->
            r = Ret false
            /\ commands (trace w') = ("kubectl get all -n " ++ ns) :: commands tr))
  /\ (exists r w' ran,
      delete_resources shell json_loads show
        (mkWorld ("2" :: selection :: c :: rest) vf tr) = (r, w')
      /\ commands (trace w') = (ran ++ commands tr)%list
      /\ (forall ns, In (delete_namespace_command ns) ran -> Py.lower c = "yes")).
Proof.
  split.
  - intros a n ns. subst ns. unfold delete_namespace. exec. rewrite run_command_eq. exec.
    destruct (Py.lower c =? "yes") eqn:E.
    + apply String.eqb_eq in E.
      drive; do 2 eexists; (split; [reflexivity|]); (split; [reflexivity|]);
        (split; [intros _; cbn [trace]; cmds; reflexivity | congruence]).
    + apply String.eqb_neq in E.
      drive. do 2 eexists. split; [reflexivity|]. split; [reflexivity|].
      split; [congruence|]. intros _. split; [reflexivity|].
      cbn [trace]. cmds. reflexivity.
  - unfold delete_resources. exec. choose.
    destruct o as [[|a n]|e]; unfold delete_namespace; exec.
    + do 2 eexists. exists (commands t). split; [reflexivity|]. cbn [trace].
      split; [cmds; reflexivity|]. rewrite Ht. intros ns [H|[]].
      unfold list_namespaces_command, delete_namespace_command in H. discriminate H.
    + rewrite run_command_eq. exec.
      destruct (Py.lower c =? "yes") eqn:Hc.
      * apply String.eqb_eq in Hc.
        drive; do 2 eexists;
          lazymatch goal with
          | |- exists ran, (_, {| stdin := _; values_file := _; trace := ?t0 |}) = _ /\ _ =>
              let l := strip t0 tr in exists (commands l)
          end;
          (split; [reflexivity|]); cbn [trace];
          (split; [cmds; reflexivity|]); intros; exact Hc.
      * drive. do 2 eexists.
        lazymatch goal with
        | |- exists ran, (_, {| stdin := _; values_file := _; trace := ?t0 |}) = _ /\ _ =>
            let l := strip t0 tr in exists (commands l)
        end.
        split; [reflexivity|]. cbn [trace]. split; [cmds; reflexivity|].
        cmds. rewrite Ht. cbn [app]. intros ns [H|[H|[]]];
          unfold list_namespaces_command, delete_namespace_command in H;
          discriminate H.
    + do 2 eexists. exists (commands t). split; [reflexivity|]. cbn [trace].
      split; [cmds; reflexivity|]. rewrite Ht. intros ns [H|[]].
      unfold list_namespaces_command, delete_namespace_command in H. discriminate H.
Qed.

(** C7.  An empty answer to the release prompt gives the release name
    [n-prom] for the namespace [n]; [deploy_prometheus], once a non-empty
    namespace [n] is chosen, then installs the release [n-prom] into [n]:
    the first command it runs after the prompt is the upgrade-or-install
    command for that release (the values file being absent, or the
    hostname free of backslashes). *)
Theorem default_release_is_namespace_prom
        (a : ascii) (n h : string) (rest : list string) (vf : option string)
        (tr : list event) :
  let ns := String a n in
  let hostname := Py.or_else h (ns ++ ".sctp-sandbox.com") in
  vf = None \/ Re.has_backslash hostname = false ->
  (forall namespace,
      ask_release_name namespace (mkWorld ("" :: h :: rest) vf tr)
      = (Ret (namespace ++ "-prom"),
         mkWorld (h :: rest) vf
           (Input ("Enter Prometheus release name (default: "
                   ++ (namespace ++ "-prom") ++ "): ") :: tr)))
  /\ exists b w',
      deploy_to shell parse_template ns (mkWorld ("" :: h :: rest) vf tr) = (Ret b, w')
      /\ stdin w' = rest
      /\ commands (trace w')
         = ((if b then ["kubectl get ingress -n " ++ ns; "kubectl get svc -n " ++ ns;
                        "kubectl get pods -n " ++ ns]%string
             else [])
            ++ deploy_command (ns ++ "-prom")%string ns :: commands tr)%list.
Proof.
  intros ns hostname Hvf. split; [reflexivity|].
  unfold deploy_to, prepare_values, ask_release_name, ask_hostname, default_release_name.
  exec. destruct vf as [content|].
  - destruct Hvf as [Hvf|Hvf]; [discriminate|].
    exec. fold ns. fold hostname. rewrite (rewrite_hostname_plain _ _ Hvf). exec.
    rewrite run_command_eq. exec.
    destruct (run_result _) as [[] output]; exec; repeat (rewrite run_command_eq; exec);
      do 2 eexists; (split; [reflexivity|]); (split; [reflexivity|]);
      cbn [trace]; cmds; reflexivity.
  - exec. fold ns. fold hostname. rewrite run_command_eq. exec.
    destruct (run_result _) as [[] output]; exec; repeat (rewrite run_command_eq; exec);
      do 2 eexists; (split; [reflexivity|]); (split; [reflexivity|]);
      cbn [trace]; cmds; reflexivity.
Qed.

(** C9.  In the release deletion, once a non-empty namespace [n] is
    chosen: when the release listing fails, prints nothing, prints the empty
    list [[]], or prints text that [json.loads] rejects, the handler asks
    for the release name with the default [n-prom] and goes on to run the
    uninstall command for the answer (or for the default on an empty
    answer); it returns what that command reports. *)
Theorem unparsable_release_list_falls_back
        (a : ascii) (n answer : string) (rest : list string) (vf : option string)
        (tr : list event) :
  let ns := String a n in
  let listing :=
    shell (Info ("Running: " ++ list_releases_command ns)
           :: Info ("Fetching Helm releases in namespace '" ++ ns ++ "'...")
           :: Info ("Using namespace: " ++ ns) :: tr)
          (list_releases_command ns) in
  match listing with
  | Exit rc out _ =>
      rc <> 0%Z \/ out = "" \/ Py.strip out = "[]" \/ json_loads out = None
  | Fail _ => True
  end ->
  exists b w' later,
    delete_release_in shell json_loads show ns (mkWorld (answer :: rest) vf tr)
    = (Ret b, w')
    /\ stdin w' = rest
    /\ trace w' = (later ++ tr)%list
    /\ In (Input ("Enter Prometheus release name (default: " ++ (ns ++ "-prom") ++ "): "))
          later
    /\ commands later
       = [uninstall_command (Py.or_else answer (ns ++ "-prom")) ns;
          list_releases_command ns].
Proof.
  intros ns listing Hlisting.
  assert (Hfall : forall success output,
    run_result listing = (success, output) ->
    (if success && Py.truthy output && negb (Py.strip output =? "[]") then
       match json_loads output with
       | Some releases => choose_release show releases
       | None => ask_release_name ns
       end
     else ask_release_name ns) = ask_release_name ns).
  { intros success output R.
    destruct listing as [rc out err|msg]; cbn [run_result] in R.
    - destruct (rc =? 0)%Z eqn:Hrc; injection R as <- <-; [|reflexivity].
      apply Z.eqb_eq in Hrc. cbn [andb].
      destruct Hlisting as [H|[H|[H|H]]].
      + congruence.
      + subst out. reflexivity.
      + rewrite H. cbn. now rewrite andb_false_r.
      + rewrite H. now destruct (Py.truthy out && _).
    - injection R as <- <-. reflexivity. }
  unfold delete_release_in. exec. rewrite run_command_eq. exec.
  fold ns. fold listing.
  destruct (run_result listing) as [success output] eqn:R.
  rewrite (Hfall _ _ eq_refl).
  unfold ask_release_name, default_release_name. exec. rewrite run_command_eq. exec.
  clear R Hfall. drive;
    do 2 eexists; give_later tr;
    (split; [reflexivity|]); (split; [reflexivity|]); (split; [same_trace|]);
    (split; [find_in|]); cmds; reflexivity.
Qed.

(** What the two substitutions can touch.  When the values file exists and
    the hostname in use holds no backslash, what is written back is the text
    read with some pieces matched by the first pattern replaced, and then
    some pieces matched by the second; every character of the text read
    outside those pieces is kept in place. *)
Lemma rewrite_keeps_unmatched_text
      (namespace h content : string) (rest : list string) (tr : list event) :
  let hostname := Py.or_else h (namespace ++ ".sctp-sandbox.com") in
  Re.has_backslash hostname = false ->
  exists middle out,
    prepare_values parse_template namespace (mkWorld (h :: rest) (Some content) tr)
    = (Ret hostname,
       mkWorld rest (Some out)
         (Success ("Updated values file with hostname: " ++ hostname)
          :: WriteFile values_file_name out
          :: Input ("Enter hostname for Prometheus ingress (default: "
                    ++ namespace ++ ".sctp-sandbox.com): ")
          :: tr))
    /\ rewritten hosts_block (hosts_replacement hostname)
         (Py.universal_newlines content) middle
    /\ rewritten dns_entry (dns_replacement hostname) middle out.
Proof.
  intros hostname Hplain.
  exists (Re.sub Re.hosts_pattern (fun _ => hosts_replacement hostname)
            (Py.universal_newlines content)).
  exists (Re.sub Re.dns_pattern (fun _ => dns_replacement hostname)
            (Re.sub Re.hosts_pattern (fun _ => hosts_replacement hostname)
               (Py.universal_newlines content))).
  split; [|split].
  - unfold prepare_values, ask_hostname. exec. fold hostname.
    rewrite (rewrite_hostname_plain _ _ Hplain). reflexivity.
  - apply rewritten_weaken with (P := matches Re.hosts_pattern);
      [exact hosts_pattern_block | apply sub_rewritten].
  - apply rewritten_weaken with (P := matches Re.dns_pattern);
      [exact dns_pattern_entry | apply sub_rewritten].
Qed.

(** Past the namespace check, every status view ends in [return True]:
    three further answers are enough for any of them. *)
Lemma show_status_returns_true
      (a : ascii) (n choice x y : string) (rest : list string) (vf : option string)
      (tr : list event) :
  exists w',
    show_status shell (String a n) (mkWorld (choice :: x :: y :: rest) vf tr)
    = (Ret true, w').
Proof.
  unfold show_status, describe, offer_logs. exec.
  repeat first
    [ progress exec
    | rewrite run_command_eq
    | match goal with
      | |- context [if ?b then _ else _] => destruct b
      end ];
    eexists; reflexivity.
Qed.

(** How the handlers reach the parts stated above. *)
Lemma delete_resources_release_path
      (rest : list string) (vf : option string) (tr : list event) :
  delete_resources shell json_loads show (mkWorld ("1" :: rest) vf tr)
  = (namespace <- choose_namespace shell
                    "Enter namespace number or name containing Prometheus deployment: "
                    "Enter namespace containing Prometheus deployment: " ;;
     delete_release_in shell json_loads show namespace)
      (mkWorld rest vf
         (Input (String Py.nl "Enter your choice (1-3): ")
          :: Print "3. Back to main menu" :: Print "2. Delete namespace"
          :: Print "1. Delete Prometheus deployment"
          :: Header "Deleting Kubernetes Resources" :: tr)).
Proof. reflexivity. Qed.

Lemma delete_resources_namespace_path
      (rest : list string) (vf : option string) (tr : list event) :
  delete_resources shell json_loads show (mkWorld ("2" :: rest) vf tr)
  = (namespace <- choose_namespace shell
                    "Enter namespace number or name to delete: "
                    "Enter namespace to delete: " ;;
     delete_namespace shell namespace)
      (mkWorld rest vf
         (Input (String Py.nl "Enter your choice (1-3): ")
          :: Print "3. Back to main menu" :: Print "2. Delete namespace"
          :: Print "1. Delete Prometheus deployment"
          :: Header "Deleting Kubernetes Resources" :: tr)).
Proof. reflexivity. Qed.

Lemma check_resource_status_path (w : world) :
  check_resource_status shell w
  = (namespace <- choose_namespace shell
                    "Enter namespace number or name to check: "
                    "Enter namespace to check: " ;;
     show_status shell namespace)
      (mkWorld (stdin w) (values_file w) (Header "Resource Status Check" :: trace w)).
Proof. reflexivity. Qed.

Lemma deploy_with_helm_path (w : world) :
  fst (run_result (shell (Info ("Running: " ++ repo_add_command) :: trace w)
                         repo_add_command)) = true ->
  let w1 := snd (run_command shell repo_add_command true w) in
  fst (run_result (shell (Info ("Running: " ++ "helm repo update") :: trace w1)
                         "helm repo update")) = true ->
  let w2 := snd (run_command shell "helm repo update" true w1) in
  deploy_with_helm shell parse_template w
  = (namespace <- choose_namespace shell
                    "Enter namespace number or name for Prometheus deployment: "
                    "Enter namespace for Prometheus deployment: " ;;
     deploy_to shell parse_template namespace) w2.
Proof.
  intros H1 w1 H2 w2. subst w2 w1. unfold deploy_with_helm.
  unfold bind at 1. rewrite !run_command_eq in *. cbn [snd trace] in *.
  destruct (run_result _) as [s1 o1]. cbn [fst] in H1. subst s1. cbn [negb].
  unfold bind at 1. rewrite run_command_eq. cbn [trace].
  destruct (run_result _) as [s2 o2]. cbn [fst] in H2. subst s2. reflexivity.
Qed.

(** With four answers at hand the status handler returns [True], returns
    [False], or stops on the ValueError of [int()]. *)
Lemma check_resource_status_outcomes
      (selection choice x y : string) (rest : list string) (vf : option string)
      (tr : list event) :
  exists o w',
    check_resource_status shell (mkWorld (selection :: choice :: x :: y :: rest) vf tr)
    = (o, w')
    /\ (o = Ret true \/ o = Ret false
        \/ (o = Raise ValueError
            /\ Py.isdigit selection = true /\ Py.int_of_digits selection = None)).
Proof.
  rewrite check_resource_status_path. cbn [stdin values_file trace].
  unfold bind at 1. choose.
  assert (Hcases : (exists ns, o = Ret ns)
                   \/ (o = Raise ValueError /\ Py.isdigit selection = true
                       /\ Py.int_of_digits selection = None)).
  { destruct Ho as [-> | [nss ->]]; [eauto | apply resolve_namespace_cases]. }
  destruct Hcases as [[ns ->] | (-> & Hd & Hi)]; cbn -[show_status append].
  - destruct ns as [|a n].
    + do 2 eexists. split; [reflexivity | auto].
    + match goal with
      | |- context [show_status shell _ {| stdin := _; values_file := _; trace := ?t0 |}] =>
          destruct (show_status_returns_true a n choice x y rest vf t0) as (w' & E')
      end.
      rewrite E'. do 2 eexists. split; [reflexivity | auto].
  - do 2 eexists. split; [reflexivity | auto].
Qed.

End Properties.

(** ** Selection by number *)

Lemma resolve_literal (namespaces : list string) (selection : string) :
  Py.isdigit selection = false -> resolve_namespace namespaces selection = Ret selection.
Proof. intros H. unfold resolve_namespace, chosen_index. now rewrite H. Qed.

Lemma resolve_in_range (namespaces : list string) (selection : string) (v : N) :
  Py.isdigit selection = true -> Py.int_of_digits selection = Some v ->
  (1 <= v <= N.of_nat (List.length namespaces))%N ->
  exists ns,
    nth_error namespaces (N.to_nat v - 1) = Some ns
    /\ resolve_namespace namespaces selection = Ret ns.
Proof.
  intros Hd Hv [H1 H2]. unfold resolve_namespace, chosen_index. rewrite Hd, Hv.
  apply N.leb_le in H1 as H1'. apply N.leb_le in H2 as H2'. rewrite H1', H2'. cbn [andb].
  destruct (nth_error namespaces (N.to_nat v - 1)) as [ns|] eqn:E; [eauto|].
  apply nth_error_None in E. lia.
Qed.

Lemma resolve_out_of_range (namespaces : list string) (selection : string) (v : N) :
  Py.int_of_digits selection = Some v ->
  (v = 0 \/ N.of_nat (List.length namespaces) < v)%N ->
  resolve_namespace namespaces selection = Ret selection.
Proof.
  intros Hv Hout. unfold resolve_namespace, chosen_index. rewrite Hv.
  destruct (Py.isdigit selection); [|reflexivity].
  destruct ((1 <=? v)%N && (v <=? N.of_nat (List.length namespaces))%N) eqn:E;
    [|reflexivity].
  apply andb_true_iff in E. destruct E as [E1 E2]. apply N.leb_le in E1, E2. lia.
Qed.

(** The entry at 0-based position [k] is shown with the number [k + 1]. *)
Lemma numbered_display (entries : list string) :
  forall (k i : nat) (ns : string) (w : world),
    nth_error entries k = Some ns ->
    In (Print (Py.str_of_nat (i + k) ++ ". " ++ ns))
       (trace (snd (print_numbered i entries w))).
Proof.
  induction entries as [|e entries IH]; intros k i ns w H.
  - destruct k; discriminate H.
  - cbn [print_numbered]. unfold bind, print, emit.
    destruct k as [|k].
    + injection H as <-. rewrite Nat.add_0_r.
      match goal with
      | |- context [print_numbered ?j entries ?w0] =>
          destruct (print_numbered_spec entries j w0) as (t & E & _)
      end.
      rewrite E. cbn. apply in_or_app. right. now left.
    + replace (i + S k) with (S i + k) by lia. apply IH. exact H.
Qed.

(** ** Concrete runs *)

Example strip_kube_system : Py.strip (String Py.nl " kube-system  ") = "kube-system".
Proof. reflexivity. Qed.

Example split_listing :
  Py.split_lines (Py.strip (text_of_lines ["default"; "kube-system"; "team-prom"]))
  = ["default"; "kube-system"; "team-prom"].
Proof. reflexivity. Qed.

Example split_nothing : Py.split_lines "" = [""].
Proof. reflexivity. Qed.

Example exit_codes_shown :
  Py.str_of_Z (-9) = "-9" /\ Py.str_of_Z 127 = "127" /\ Py.str_of_nat 10 = "10".
Proof. repeat split; reflexivity. Qed.

Example leading_zeros_select :
  resolve_namespace ["default"; "kube-system"; "team-prom"] "003" = Ret "team-prom".
Proof. reflexivity. Qed.

Example number_past_the_list_is_a_name :
  resolve_namespace ["default"; "kube-system"; "team-prom"] "4" = Ret "4"
  /\ resolve_namespace ["default"; "kube-system"; "team-prom"] "0" = Ret "0"
  /\ resolve_namespace ["default"; "kube-system"; "team-prom"] "monitoring"
     = Ret "monitoring".
Proof. repeat split; reflexivity. Qed.

(** Rewriting the file the script itself generated swaps the hostname. *)
Example rewrite_generated_file :
  rewrite_hostname no_template "new.example.com" (default_values "old.example.com")
  = Ret (default_values "new.example.com").
Proof. vm_compute. reflexivity. Qed.

Example connect_fails_fast :
  connect_to_eks_cluster shell_down (start [""; ""])
  = (Ret false,
     mkWorld [""] None
       [ Error "Error: connection refused";
         Error "Command failed with exit code 1";
         Run "aws configure set region us-east-1";
         Info "Running: aws configure set region us-east-1";
         Input "Enter AWS region (default: us-east-1): ";
         Header "Connecting to EKS Cluster" ]).
Proof. reflexivity. Qed.

Example create_azni_prom :
  create_namespace shell_ok (start ["azni"; "prom"; "y"])
  = (Ret true,
     mkWorld [] None
       [ Success "Successfully created namespace: azni-prom";
         Run "kubectl create namespace azni-prom";
         Info "Running: kubectl create namespace azni-prom";
         Input "Create namespace 'azni-prom'? (y/n): ";
         Info "Generated namespace name: azni-prom";
         Input "Enter namespace purpose (e.g., 'eks', 'prom', 'app'): ";
         Input "Enter your username or identifier (e.g., 'azni'): ";
         Header "Creating Kubernetes Namespace" ]).
Proof. reflexivity. Qed.

Example deploy_into_team_prom :
  commands (trace (snd (deploy_prometheus shell_cluster no_template (start ["3"; ""; ""]))))
  = [ "kubectl get ingress -n team-prom";
      "kubectl get svc -n team-prom";
      "kubectl get pods -n team-prom";
      "helm upgrade --install team-prom-prom prometheus-community/prometheus --version 27.5.1 --values prometheus-values.yaml --namespace team-prom";
      list_namespaces_command;
      "helm repo update";
      repo_add_command;
      "helm version" ].
Proof. vm_compute. reflexivity. Qed.

(** ** Instances *)

Lemma namespace_is_username_dash_purpose_witness :
  "azni" <> "" /\ "prom" <> ""
  /\ exists r w' later,
      create_namespace shell_ok (start ["azni"; "prom"; "y"]) = (r, w')
      /\ trace w' = (later ++ [])%list
      /\ In (Info "Generated namespace name: azni-prom") later
      /\ In (Input "Create namespace 'azni-prom'? (y/n): ") later
      /\ commands later = ["kubectl create namespace azni-prom"].
Proof.
  split; [discriminate|]. split; [discriminate|].
  apply (namespace_is_username_dash_purpose shell_ok "azni" "prom" "y" [] None []);
    discriminate.
Defined.

(** C8 as stated fails: the confirmation [Y] is not the text [y], and the
    namespace is created all the same. *)
Lemma capital_Y_creates :
  "Y" <> "y"
  /\ fst (create_namespace shell_ok (start ["azni"; "prom"; "Y"])) = Ret true
  /\ commands (trace (snd (create_namespace shell_ok (start ["azni"; "prom"; "Y"]))))
     = ["kubectl create namespace azni-prom"].
Proof. split; [discriminate|]. split; reflexivity. Qed.

Lemma create_needs_y_or_Y_witness :
  "azni" <> "" /\ "prom" <> ""
  /\ exists r w',
      create_namespace shell_ok (start ["azni"; "prom"; "yes"]) = (r, w')
      /\ stdin w' = []
      /\ ("yes" = "y" \/ "yes" = "Y" ->
          commands (trace w') = ["kubectl create namespace azni-prom"])
      /\ ("yes" <> "y" -> "yes" <> "Y" -> r = Ret false /\ commands (trace w') = []).
Proof.
  split; [discriminate|]. split; [discriminate|].
  apply (create_needs_y_or_Y shell_ok "azni" "prom" "yes" [] None []); discriminate.
Defined.

(** C1 as stated fails: with an empty namespace the status handler returns
    [False], but the namespace listing has run by then; so have the Helm
    commands in the deploy handler. *)
Lemma empty_namespace_after_listing :
  fst (check_resource_status shell_cluster (start [""])) = Ret false
  /\ commands (trace (snd (check_resource_status shell_cluster (start [""]))))
     = [list_namespaces_command]
  /\ fst (deploy_prometheus shell_cluster no_template (start [""])) = Ret false
  /\ commands (trace (snd (deploy_prometheus shell_cluster no_template (start [""]))))
     = [list_namespaces_command; "helm repo update"; repo_add_command; "helm version"].
Proof. repeat split; vm_compute; reflexivity. Qed.

(** C3 as stated fails: the confirmation [Yes] is not the text [yes], and
    the namespace is deleted all the same. *)
Lemma capitalised_Yes_deletes :
  "Yes" <> "yes"
  /\ fst (delete_resources shell_cluster no_json show_plain (start ["2"; "3"; "Yes"]))
     = Ret true
  /\ commands (trace (snd (delete_resources shell_cluster no_json show_plain
                             (start ["2"; "3"; "Yes"]))))
     = ["kubectl delete namespace team-prom"; "kubectl get all -n team-prom";
        list_namespaces_command].
Proof. split; [discriminate|]. split; vm_compute; reflexivity. Qed.

Lemma delete_namespace_needs_yes_witness :
  exists r w',
    delete_namespace shell_cluster "team-prom" (start ["y"]) = (r, w')
    /\ r = Ret false
    /\ commands (trace w') = ["kubectl get all -n team-prom"].
Proof.
  destruct (delete_namespace_needs_yes shell_cluster no_json show_plain "3" "y" [] None [])
    as [Hpiece _].
  destruct (Hpiece "t"%char "eam-prom") as (r & w' & E & _ & _ & Hno).
  exists r, w'. split; [exact E|]. apply Hno. discriminate.
Defined.

(** The first pattern is not anchored to the ingress: a comment that ends
    in [hosts:] above a list makes the rewrite replace the first item of
    that list, a scrape job that is neither under a [hosts:] key nor an
    annotation line. *)
Lemma comment_above_list_is_rewritten :
  exists out,
    rewrite_hostname no_template "prom.example.com" commented_values = Ret out
    /\ nth_error (Py.split_lines commented_values) 4 = Some "      - job_name: nginx"
    /\ nth_error (Py.split_lines out) 4 = Some "      - prom.example.com"
    /\ only_hostname_lines_differ "" (Py.split_lines commented_values)
         (Py.split_lines out) = false.
Proof. eexists. split; [vm_compute; reflexivity|]. repeat split; reflexivity. Qed.

Lemma default_release_is_namespace_prom_witness :
  (@None string = None
   \/ Re.has_backslash (Py.or_else "" ("team-prom" ++ ".sctp-sandbox.com")) = false)
  /\ ask_release_name "team-prom" (start [""; ""])
     = (Ret "team-prom-prom",
        mkWorld [""] None [Input "Enter Prometheus release name (default: team-prom-prom): "])
  /\ exists b w',
      deploy_to shell_ok no_template "team-prom" (start [""; ""]) = (Ret b, w')
      /\ In "helm upgrade --install team-prom-prom prometheus-community/prometheus --version 27.5.1 --values prometheus-values.yaml --namespace team-prom"
            (commands (trace w')).
Proof.
  split; [left; reflexivity|].
  destruct (default_release_is_namespace_prom shell_ok no_template "t"%char "eam-prom" ""
              [] None [] (or_introl eq_refl)) as (Hask & b & w' & E & _ & C).
  split; [exact (Hask "team-prom")|].
  exists b, w'. split; [exact E|]. rewrite C. apply in_or_app. right. left. reflexivity.
Defined.

Lemma unparsable_release_list_falls_back_witness :
  no_json "WARNING: no releases" = None
  /\ exists b w' later,
      delete_release_in shell_cluster no_json show_plain "team-prom" (start [""])
      = (Ret b, w')
      /\ stdin w' = []
      /\ trace w' = (later ++ [])%list
      /\ In (Input "Enter Prometheus release name (default: team-prom-prom): ") later
      /\ commands later
         = ["helm uninstall team-prom-prom --namespace team-prom";
            "helm list -n team-prom -o json"].
Proof.
  split; [reflexivity|].
  apply (unparsable_release_list_falls_back shell_cluster no_json show_plain
           "t"%char "eam-prom" "" [] None []).
  right. right. right. reflexivity.
Defined.

(** C5: the code fails where the claim holds.  The text U+00B2 passes
    [isdigit], so [int()] is applied to it and raises ValueError, whatever
    the list of namespaces; the deploy and delete handlers stop there. *)
Theorem superscript_digit_selection_raises (namespaces : list string) :
  Py.isdigit superscript_two = true
  /\ resolve_namespace namespaces superscript_two = Raise ValueError
  /\ fst (deploy_prometheus shell_cluster no_template (start [superscript_two; ""; ""]))
     = Raise ValueError
  /\ fst (delete_resources shell_cluster no_json show_plain
            (start ["1"; superscript_two; ""]))
     = Raise ValueError.
Proof. repeat split; vm_compute; reflexivity. Qed.

(** C10: the code fails where the claim holds.  With a listed cluster and the
    selection U+00B2 the status handler raises ValueError instead of
    returning, whatever answers follow. *)
Theorem status_raises_on_superscript_digit
        (rest : list string) (vf : option string) (tr : list event) :
  fst (check_resource_status shell_cluster (mkWorld (superscript_two :: rest) vf tr))
  = Raise ValueError.
Proof. reflexivity. Qed.

(** ** The command runner when printing fails *)

(** On a terminal that prints everything the runner is [run_command]. *)
Lemma run_command_on_plain
      (shell : list event -> string -> completion)
      (cmd : string) (show_output : bool) (w : world) :
  run_command_on shell plain_terminal cmd show_output w
  = run_command shell cmd show_output w.
Proof.
  unfold run_command_on, try_block, print_in_try, print_on, run_command, plain_terminal,
    bind, print_info, print_error, print, emit, subprocess_run, when, ret.
  cbn. destruct (shell _ cmd) as [rc out err|msg]; cbn; [|reflexivity].
  destruct (rc =? 0)%Z; cbn.
  - destruct (show_output && Py.truthy out); reflexivity.
  - destruct (Py.truthy err), (Py.truthy out && show_output); reflexivity.
Qed.

(** C2, as amended.  On a terminal that prints the lines of the two
    [except] clauses, [run_command] returns a pair for every command and
    never raises.  When the line announcing the command cannot be printed,
    that failure is caught: the command is not run and the pair is
    [(False, message)].  Otherwise: on exit code 0 the pair is
    [(True, stdout)]; on another exit code the code is reported, then stderr
    when there is any, and the pair is [(False, stderr)]; when the call
    itself fails the message is reported and the pair is
    [(False, message)].  The trace lists what was printed and run, most
    recent first. *)
Theorem run_command_returns_when_reports_print
        (shell : list event -> string -> completion) (terminal : console)
        (cmd : string) (show_output : bool) (w : world) :
  (forall line, reported line = true -> terminal line = None) ->
  let before := Info ("Running: " ++ cmd) :: trace w in
  let returns (r : bool * string) (later : list event) :=
    run_command_on shell terminal cmd show_output w
    = (Ret r, mkWorld (stdin w) (values_file w) ((later ++ trace w)%list)) in
  match terminal (Info ("Running: " ++ cmd)) with
  | Some (_, message) =>
      returns (false, message) [Error ("An error occurred: " ++ message)]
  | None =>
      match shell before cmd with
      | Exit rc out err =>
          if (rc =? 0)%Z then
            returns (true, out)
              ((if show_output && Py.truthy out then [Print out] else [])
               ++ Run cmd :: [Info ("Running: " ++ cmd)])%list
          else
            returns (false, err)
              ((if Py.truthy out && show_output then [Print out] else [])
               ++ (if Py.truthy err then [Error ("Error: " ++ err)] else [])
               ++ Error ("Command failed with exit code " ++ Py.str_of_Z rc)
               :: Run cmd :: [Info ("Running: " ++ cmd)])%list
      | Fail msg =>
          returns (false, msg)
            (Error ("An error occurred: " ++ msg)
             :: Run cmd :: [Info ("Running: " ++ cmd)])
      end
  end.
Proof.
  intros Hprints before returns. subst returns before.
  unfold run_command_on, try_block, print_in_try, print_on,
    bind, emit, subprocess_run, when, ret.
  destruct (terminal (Info ("Running: " ++ cmd))) as [[e message]|] eqn:Hinfo.
  - rewrite (Hprints (Error _) eq_refl). destruct w; reflexivity.
  - cbn [trace stdin values_file].
    destruct (shell _ cmd) as [rc out err|msg]; cbn [trace stdin values_file].
    + destruct (rc =? 0)%Z.
      * destruct (show_output && Py.truthy out); [|reflexivity].
        rewrite (Hprints (Print out) eq_refl). reflexivity.
      * rewrite (Hprints (Error _) eq_refl). cbn [trace stdin values_file].
        destruct (Py.truthy err); cbn [trace stdin values_file];
          [rewrite (Hprints (Error _) eq_refl)|];
          (destruct (Py.truthy out && show_output); cbn [trace stdin values_file];
           [rewrite (Hprints (Print out) eq_refl)|]); reflexivity.
    + rewrite (Hprints (Error _) eq_refl). reflexivity.
Qed.

(** The runner raises only what a print of an [except] clause raised. *)
Lemma run_command_raises_from_a_report
      (shell : list event -> string -> completion) (terminal : console)
      (cmd : string) (show_output : bool) (w w' : world) (x : exn) :
  run_command_on shell terminal cmd show_output w = (Raise x, w') ->
  exists line message, reported line = true /\ terminal line = Some (x, message).
Proof.
  unfold run_command_on, try_block, print_in_try, print_on,
    bind, emit, subprocess_run, when, ret.
  repeat match goal with
         | |- context [terminal ?l] =>
             let E := fresh "E" in
             destruct (terminal l) as [[? ?]|] eqn:E; cbn [trace stdin values_file]
         | |- context [match shell ?t ?c with _ => _ end] =>
             destruct (shell t c) as [rc out err|msg]; cbn [trace stdin values_file]
         | |- context [if ?b then _ else _] => destruct b; cbn [trace stdin values_file]
         end;
    intros H; try discriminate H; injection H as <- _;
    match goal with
    | E : terminal ?l = Some (?e, ?m) |- exists line message, _ /\ _ = Some (?e, _) =>
        exists l, m; split; [reflexivity | exact E]
    end.
Qed.

(** C2 as stated fails: on a terminal that encodes ASCII only the line
    announcing the command cannot be printed, that failure is caught, and
    the cross of the error report cannot be printed either: the exception
    leaves [run_command], whatever the command. *)
Lemma ascii_terminal_makes_run_command_raise :
  run_command_on shell_ok ascii_terminal "kubectl get pods" true (start [])
  = (Raise UnicodeEncodeError, start []).
Proof. reflexivity. Qed.

Lemma run_command_returns_when_reports_print_witness :
  (forall line, reported line = true -> no_info_terminal line = None)
  /\ run_command_on shell_ok no_info_terminal "kubectl get pods" true (start [])
     = (Ret (false, "'charmap' codec can't encode character"),
        mkWorld [] None
          [Error "An error occurred: 'charmap' codec can't encode character"]).
Proof.
  assert (H : forall line, reported line = true -> no_info_terminal line = None)
    by (intros [] E; first [reflexivity | discriminate E]).
  split; [exact H|].
  exact (run_command_returns_when_reports_print shell_ok no_info_terminal
           "kubectl get pods" true (start []) H).
Defined.

(** ** Frame rules *)

Section Frame.

Variable shell : list event -> string -> completion.
Variable json_loads : string -> option json.
Variable parse_template : string -> option (string -> string).
Variable show : json -> string.

Variable R : world -> world -> Prop.
Variable ok : string -> bool.

Hypothesis R_refl : forall w, R w w.
Hypothesis R_trans : forall a b c, R a b -> R b c -> R a c.
Hypothesis R_emit :
  forall e w, printed e = true ->
              R w (mkWorld (stdin w) (values_file w) (e :: trace w)).
Hypothesis R_input : forall p w, R w (snd (input p w)).
Hypothesis R_run :
  forall c w, ok c = true ->
              R w (mkWorld (stdin w) (values_file w) (Run c :: trace w)).

Lemma preserves_ret {A : Type} (a : A) : preserves R (ret a).
Proof using R_refl. intros w. apply R_refl. Qed.

Lemma preserves_lift {A : Type} (o : outcome A) : preserves R (lift o).
Proof using R_refl. intros w. apply R_refl. Qed.

Lemma preserves_bind {A B : Type} (c : M A) (k : A -> M B) :
  preserves R c -> (forall a, preserves R (k a)) -> preserves R (bind c k).
Proof using R_trans.
  intros Hc Hk w. unfold bind. specialize (Hc w).
  destruct (c w) as [[a|e] w']; cbn [snd] in *.
  - eapply R_trans; [exact Hc | apply Hk].
  - exact Hc.
Qed.

Lemma preserves_emit (e : event) : printed e = true -> preserves R (emit e).
Proof using R_emit. intros He w. apply R_emit, He. Qed.

Lemma preserves_input (p : string) : preserves R (input p).
Proof using R_input. intros w. apply R_input. Qed.

Lemma preserves_subprocess_run (c : string) :
  ok c = true -> preserves R (subprocess_run shell c).
Proof using R_run. intros Hc w. apply R_run, Hc. Qed.

Ltac printing :=
  first [ apply preserves_ret | apply preserves_lift | apply preserves_input
        | unfold print, print_header, print_success, print_error, print_info,
            print_warning, sleep;
          apply preserves_emit; reflexivity ].

Ltac frame :=
  repeat first
    [ printing
    | apply preserves_bind; [ | intro ]
    | progress unfold when
    | match goal with
      | |- preserves _ (if ?b then _ else _) => destruct b
      | |- preserves _ (match ?x with _ => _ end) => destruct x
      end ].

Lemma preserves_run_command (c : string) (show_output : bool) :
  ok c = true -> preserves R (run_command shell c show_output).
Proof using R_refl R_trans R_emit R_run.
  intros Hc. unfold run_command.
  apply preserves_bind; [printing | intros _].
  apply preserves_bind; [now apply preserves_subprocess_run | intros result].
  frame.
Qed.

Lemma preserves_print_numbered (entries : list string) :
  forall i, preserves R (print_numbered i entries).
Proof using R_refl R_trans R_emit.
  induction entries as [|e entries IH]; intros i; cbn [print_numbered]; frame. apply IH.
Qed.

Lemma preserves_choose_namespace (listed manual : string) :
  ok list_namespaces_command = true ->
  preserves R (choose_namespace shell listed manual).
Proof using R_refl R_trans R_emit R_input R_run.
  intros Hok. unfold choose_namespace.
  apply preserves_bind; [printing | intros _].
  apply preserves_bind; [now apply preserves_run_command | intros [success output]].
  destruct (success && Py.truthy output); cbv zeta; frame.
  apply preserves_print_numbered.
Qed.

Ltac frame_with H :=
  repeat first
    [ printing
    | apply preserves_run_command; apply H; reflexivity
    | apply preserves_choose_namespace; apply H; reflexivity
    | apply preserves_print_numbered
    | apply preserves_bind; [ | intro ]
    | progress unfold when
    | progress cbv zeta
    | match goal with
      | |- preserves _ (if ?b then _ else _) => destruct b
      | |- preserves _ (match ?x with _ => _ end) => destruct x
      end ].

Lemma preserves_connect :
  (forall c, connect_commands c = true -> ok c = true) ->
  preserves R (connect_to_eks_cluster shell).
Proof using R_refl R_trans R_emit R_input R_run.
  intros Hok. unfold connect_to_eks_cluster. frame_with Hok.
Qed.

Lemma preserves_create :
  (forall c, create_commands c = true -> ok c = true) ->
  preserves R (create_namespace shell).
Proof using R_refl R_trans R_emit R_input R_run.
  intros Hok. unfold create_namespace, create_namespace_command. frame_with Hok.
Qed.

Lemma preserves_show_status (namespace : string) :
  (forall c, status_commands c = true -> ok c = true) ->
  preserves R (show_status shell namespace).
Proof using R_refl R_trans R_emit R_input R_run.
  intros Hok. unfold show_status, describe, offer_logs. frame_with Hok.
Qed.

Lemma preserves_status :
  (forall c, status_commands c = true -> ok c = true) ->
  preserves R (check_resource_status shell).
Proof using R_refl R_trans R_emit R_input R_run.
  intros Hok. unfold check_resource_status. frame_with Hok.
  now apply preserves_show_status.
Qed.

Lemma preserves_print_releases (releases : list json) :
  forall i, preserves R (print_releases show i releases).
Proof using R_refl R_trans R_emit.
  induction releases as [|r releases IH]; intros i; cbn [print_releases]; frame.
  apply IH.
Qed.

Lemma preserves_delete :
  (forall c, delete_commands c = true -> ok c = true) ->
  preserves R (delete_resources shell json_loads show).
Proof using R_refl R_trans R_emit R_input R_run.
  intros Hok.
  unfold delete_resources, delete_release_in, delete_namespace, choose_release,
    ask_release_name, list_releases_command, uninstall_command,
    delete_namespace_command.
  frame_with Hok; apply preserves_print_releases.
Qed.

Section Writing.

Hypothesis R_write :
  forall name content w,
    R w (mkWorld (stdin w) (Some content) (WriteFile name content :: trace w)).

Lemma preserves_deploy :
  (forall c, deploy_commands c = true -> ok c = true) ->
  preserves R (deploy_prometheus shell parse_template).
Proof using R_refl R_trans R_emit R_input R_run R_write.
  intros Hok.
  assert (Hwrite : forall name content, preserves R (write_values name content)).
  { intros name content w. apply R_write. }
  assert (Hexists : preserves R path_exists) by (intros w; apply R_refl).
  assert (Hread : preserves R read_values) by (intros w; apply R_refl).
  unfold deploy_prometheus, deploy_with_helm, deploy_to, prepare_values,
    ask_release_name, ask_hostname, deploy_command, install_helm_command,
    repo_add_command.
  repeat first [ apply Hwrite | apply Hexists | apply Hread | progress frame_with Hok ].
Qed.


End Writing.

End Frame.

(** The frames obey the rules. *)




Lemma runs_only_refl (ok : string -> bool) (w : world) : runs_only ok w w.
Proof. now exists []. Qed.

Lemma runs_only_trans (ok : string -> bool) (a b c : world) :
  runs_only ok a b -> runs_only ok b c -> runs_only ok a c.
Proof.
  intros (u & Hu & Ou) (v & Hv & Ov). exists (v ++ u)%list. split.
  - now rewrite Hv, Hu, app_assoc.
  - now rewrite forallb_app, Ou, Ov.
Qed.

Lemma runs_only_emit (ok : string -> bool) (e : event) (w : world) :
  printed e = true ->
  runs_only ok w (mkWorld (stdin w) (values_file w) (e :: trace w)).
Proof.
  intros He. exists []. split; [|reflexivity].
  destruct e; try reflexivity. discriminate He.
Qed.

Lemma runs_only_input (ok : string -> bool) (p : string) (w : world) :
  runs_only ok w (snd (input p w)).
Proof. exists []. unfold input. now destruct (stdin w). Qed.

Lemma runs_only_run (ok : string -> bool) (c : string) (w : world) :
  ok c = true -> runs_only ok w (mkWorld (stdin w) (values_file w) (Run c :: trace w)).
Proof. intros Hc. exists [c]. cbn. now rewrite Hc. Qed.

Lemma runs_only_write (ok : string -> bool) (name content : string) (w : world) :
  runs_only ok w (mkWorld (stdin w) (Some content) (WriteFile name content :: trace w)).
Proof. now exists []. Qed.

Lemma writes_nothing_refl (w : world) : writes_nothing w w.
Proof. now exists []. Qed.

Lemma writes_nothing_trans (a b c : world) :
  writes_nothing a b -> writes_nothing b c -> writes_nothing a c.
Proof.
  intros (u & Hu & Ou) (v & Hv & Ov). exists (v ++ u)%list. split.
  - now rewrite Hv, Hu, app_assoc.
  - now rewrite forallb_app, Ou, Ov.
Qed.

Lemma writes_nothing_emit (e : event) (w : world) :
  printed e = true ->
  writes_nothing w (mkWorld (stdin w) (values_file w) (e :: trace w)).
Proof.
  intros He. exists [e]. split; [reflexivity|].
  destruct e; try reflexivity. discriminate He.
Qed.

Lemma writes_nothing_input (p : string) (w : world) :
  writes_nothing w (snd (input p w)).
Proof. exists [Input p]. unfold input. now destruct (stdin w). Qed.

Lemma writes_nothing_run (c : string) (w : world) :
  writes_nothing w (mkWorld (stdin w) (values_file w) (Run c :: trace w)).
Proof. now exists [Run c]. Qed.

(** X1.  The connect, create-namespace, status and delete handlers never
    write the values file themselves: among all they do between their start
    and their end, whatever is typed and whatever the commands return, also
    when they stop on an exception, there is no write of a file.  Of the
    five handlers only the deploy handler has one. *)
Theorem only_deploy_writes_the_values_file
        (shell : list event -> string -> completion)
        (json_loads : string -> option json) (show : json -> string) (w : world) :
  writes_nothing w (snd (connect_to_eks_cluster shell w))
  /\ writes_nothing w (snd (create_namespace shell w))
  /\ writes_nothing w (snd (check_resource_status shell w))
  /\ writes_nothing w (snd (delete_resources shell json_loads show w)).
Proof.
  repeat split.
  - exact (preserves_connect shell writes_nothing (fun _ => true) writes_nothing_refl
             writes_nothing_trans writes_nothing_emit writes_nothing_input
             (fun c w _ => writes_nothing_run c w) (fun _ _ => eq_refl) w).
  - exact (preserves_create shell writes_nothing (fun _ => true) writes_nothing_refl
             writes_nothing_trans writes_nothing_emit writes_nothing_input
             (fun c w _ => writes_nothing_run c w) (fun _ _ => eq_refl) w).
  - exact (preserves_status shell writes_nothing (fun _ => true) writes_nothing_refl
             writes_nothing_trans writes_nothing_emit writes_nothing_input
             (fun c w _ => writes_nothing_run c w) (fun _ _ => eq_refl) w).
  - exact (preserves_delete shell json_loads show writes_nothing (fun _ => true)
             writes_nothing_refl writes_nothing_trans writes_nothing_emit
             writes_nothing_input (fun c w _ => writes_nothing_run c w)
             (fun _ _ => eq_refl) w).
Qed.

(** X2.  Each handler runs only commands of its own shapes, whatever is
    typed and whatever the commands do: every command between the start of
    the handler and its end starts with one of the handler's fixed texts. *)
Theorem handlers_run_their_commands_only
        (shell : list event -> string -> completion)
        (json_loads : string -> option json)
        (parse_template : string -> option (string -> string))
        (show : json -> string) (w : world) :
  runs_only connect_commands w (snd (connect_to_eks_cluster shell w))
  /\ runs_only create_commands w (snd (create_namespace shell w))
  /\ runs_only deploy_commands w (snd (deploy_prometheus shell parse_template w))
  /\ runs_only status_commands w (snd (check_resource_status shell w))
  /\ runs_only delete_commands w (snd (delete_resources shell json_loads show w)).
Proof.
  repeat split.
  - exact (preserves_connect shell _ connect_commands (runs_only_refl _)
             (runs_only_trans _) (runs_only_emit _) (runs_only_input _)
             (runs_only_run _) (fun _ H => H) w).
  - exact (preserves_create shell _ create_commands (runs_only_refl _)
             (runs_only_trans _) (runs_only_emit _) (runs_only_input _)
             (runs_only_run _) (fun _ H => H) w).
  - exact (preserves_deploy shell parse_template _ deploy_commands (runs_only_refl _)
             (runs_only_trans _) (runs_only_emit _) (runs_only_input _)
             (runs_only_run _) (runs_only_write _) (fun _ H => H) w).
  - exact (preserves_status shell _ status_commands (runs_only_refl _)
             (runs_only_trans _) (runs_only_emit _) (runs_only_input _)
             (runs_only_run _) (fun _ H => H) w).
  - exact (preserves_delete shell json_loads show _ delete_commands (runs_only_refl _)
             (runs_only_trans _) (runs_only_emit _) (runs_only_input _)
             (runs_only_run _) (fun _ H => H) w).
Qed.

(** ** The menu loop *)

Section Menu.

Variable shell : list event -> string -> completion.
Variable json_loads : string -> option json.
Variable parse_template : string -> option (string -> string).
Variable show : json -> string.





Lemma turn_dispatches (c : string) (rest : list string) (vf : option string)
      (tr : list event) :
  menu_turn shell json_loads parse_template show (mkWorld (c :: rest) vf tr)
  = dispatch shell json_loads parse_template show c
      (mkWorld rest vf
         (Input (String Py.nl "Enter your choice (1-6): ")
          :: Print "6. Exit" :: Print "5. Delete Resources"
          :: Print "4. Check Resource Status" :: Print "3. Deploy Prometheus"
          :: Print "2. Create Namespace" :: Print "1. Connect to EKS Cluster"
          :: Header "Kubernetes Resource Manager" :: tr)).
Proof. reflexivity. Qed.





End Menu.

(** ** Further runs of the handlers *)

Ltac go :=
  unfold bind, print_header, print_info, print_error, print_success,
    print_warning, print, input, emit, ret, lift, sleep, when,
    path_exists, read_values, write_values;
  cbn -[append run_command run_result run_report choose_namespace
        print_numbered Py.lower Re.sub Re.has_backslash Py.strip Py.or_else].

Ltac walk :=
  repeat first
    [ progress go
    | rewrite run_command_eq
    | match goal with
      | |- context [let (_, _) := run_result ?c in _] =>
          let success := fresh "success" in
          let output := fresh "output" in
          destruct (run_result c) as [success output] eqn:?; destruct success
      end ].

Lemma unrecognised_choice (choice : string) :
  recognised choice = false ->
  (choice =? "1") = false /\ (choice =? "2") = false /\ (choice =? "3") = false
  /\ (choice =? "4") = false /\ (choice =? "5") = false /\ (choice =? "6") = false.
Proof.
  unfold recognised. cbn [existsb]. intros H.
  repeat (apply orb_false_iff in H; destruct H as [? H]). auto 10.
Qed.

(** X5.  Choices the menu does not know do nothing but ask again: after any
    number of them, each acknowledged at the pause, the choice [6] exits with
    code 0, no command has run and the values file is as it was. *)
Theorem unknown_choices_then_exit
        (shell : list event -> string -> completion)
        (json_loads : string -> option json)
        (parse_template : string -> option (string -> string))
        (show : json -> string)
        (choices : list (string * string)) (rest : list string) (vf : option string) :
  forallb (fun turn => negb (recognised (fst turn))) choices = true ->
  forall tr,
  exists w',
    main_menu shell json_loads parse_template show (S (List.length choices))
      (mkWorld (unrecognised_turns choices ++ "6" :: rest) vf tr)
    = (Some (Exited 0), w')
    /\ stdin w' = rest /\ values_file w' = vf
    /\ commands (trace w') = commands tr.
Proof.
  induction choices as [|[choice ack] choices IH]; intros Hc tr.
  - eexists. split; [reflexivity|]. repeat split.
  - cbn [forallb fst] in Hc. apply andb_true_iff in Hc. destruct Hc as [Hchoice Hc].
    apply negb_true_iff, unrecognised_choice in Hchoice.
    destruct Hchoice as (E1 & E2 & E3 & E4 & E5 & E6).
    cbn [unrecognised_turns app List.length].
    change (main_menu shell json_loads parse_template show (S (S (List.length choices))) ?w)
      with (match menu_turn shell json_loads parse_template show w with
            | (Ret None, w') =>
                main_menu shell json_loads parse_template show (S (List.length choices)) w'
            | (Ret (Some code), w') => (Some (Exited code), w')
            | (Raise e, w') => (Some (Uncaught e), w')
            end).
    rewrite turn_dispatches. unfold dispatch. rewrite E1, E2, E3, E4, E5, E6.
    unfold pause, bind, print_error, input, emit, ret. cbn -[main_menu].
    match goal with
    | |- context [main_menu _ _ _ _ _ {| stdin := _; values_file := _; trace := ?t |}] =>
        destruct (IH Hc t) as (w' & E & Hin & Hvf & Hcmd)
    end.
    exists w'. split; [exact E|]. repeat split; auto.
Qed.

Lemma unknown_choices_then_exit_witness :
  exists w',
    main_menu shell_ok no_json no_template show_plain 3
      (mkWorld ["9"; ""; "help"; "ok"; "6"] None [])
    = (Some (Exited 0), w')
    /\ stdin w' = [] /\ values_file w' = None
    /\ commands (trace w') = [].
Proof.
  exact (unknown_choices_then_exit shell_ok no_json no_template show_plain
           [("9", ""); ("help", "ok")] [] None eq_refl []).
Defined.

(** X6.  Connecting sets the region first (us-east-1 on an empty answer).
    If that command fails the handler returns [False] at once: the cluster
    name is not asked and nothing else is run.  Otherwise it asks for the
    cluster (shared-eks-cluster on an empty answer), updates the kubeconfig
    for that cluster in the same region, and returns what this second
    command reports. *)
Theorem connect_sets_region_first
        (shell : list event -> string -> completion)
        (a b : string) (rest : list string) (vf : option string) (tr : list event) :
  let region := Py.or_else a "us-east-1" in
  let cluster := Py.or_else b "shared-eks-cluster" in
  let set_region := "aws configure set region " ++ region in
  let update :=
    "aws eks update-kubeconfig --name " ++ cluster ++ " --region " ++ region in
  let asked :=
    Info ("Running: " ++ set_region)
    :: Input "Enter AWS region (default: us-east-1): "
    :: Header "Connecting to EKS Cluster" :: tr in
  let first := shell asked set_region in
  let second :=
    shell (Info ("Running: " ++ update)
           :: Input "Enter EKS cluster name (default: shared-eks-cluster): "
           :: (run_report true first ++ Run set_region :: asked)%list) update in
  exists w',
    connect_to_eks_cluster shell (mkWorld (a :: b :: rest) vf tr)
    = (Ret (fst (run_result first) && fst (run_result second)), w')
    /\ if fst (run_result first)
       then stdin w' = rest
            /\ commands (trace w') = update :: set_region :: commands tr
       else stdin w' = b :: rest
            /\ commands (trace w') = set_region :: commands tr.
Proof.
  intros region cluster set_region update asked first second.
  unfold connect_to_eks_cluster. go. rewrite run_command_eq. go.
  fold region. fold set_region. fold asked. fold first.
  destruct (run_result first) as [[] output1]; go.
  - rewrite run_command_eq. go. fold cluster. fold update. fold second.
    destruct (run_result second) as [[] output2]; go;
      eexists; (split; [reflexivity|]); (split; [reflexivity|]);
      cbn [trace]; cmds; reflexivity.
  - eexists. split; [reflexivity|]. split; [reflexivity|]. cbn [trace]. cmds. reflexivity.
Qed.

(** X7.  In the delete menu every choice but [1] and [2] is harmless: the
    handler returns at once, [True] for [3] and [False] for anything else,
    having asked nothing more and run no command. *)
Theorem delete_menu_other_choices
        (shell : list event -> string -> completion)
        (json_loads : string -> option json) (show : json -> string)
        (choice : string) (rest : list string) (vf : option string) (tr : list event) :
  choice <> "1" -> choice <> "2" ->
  exists w',
    delete_resources shell json_loads show (mkWorld (choice :: rest) vf tr)
    = (Ret (choice =? "3"), w')
    /\ stdin w' = rest /\ values_file w' = vf
    /\ commands (trace w') = commands tr.
Proof.
  intros H1 H2. apply String.eqb_neq in H1, H2.
  unfold delete_resources. go. rewrite H1, H2.
  destruct (choice =? "3"); go; eexists; repeat split.
Qed.

Lemma delete_menu_other_choices_witness :
  "4" <> "1" /\ "4" <> "2"
  /\ exists w',
      delete_resources shell_ok no_json show_plain (start ["4"]) = (Ret false, w')
      /\ stdin w' = [] /\ values_file w' = None
      /\ commands (trace w') = [].
Proof.
  split; [discriminate|]. split; [discriminate|].
  apply (delete_menu_other_choices shell_ok no_json show_plain "4" [] None []);
    discriminate.
Defined.

(** Reading the digits fails exactly when one of them is no decimal
    digit. *)
Lemma int_acc_none (s : string) :
  forall acc, Py.int_acc acc s = None <-> Py.forallb_str Py.isdecimal_char s = false.
Proof.
  induction s as [|c s IH]; intros acc; cbn [Py.int_acc Py.forallb_str].
  - split; discriminate.
  - unfold Py.decimal_value. destruct (Py.isdecimal_char c); cbn [andb].
    + apply IH.
    + split; reflexivity.
Qed.

(** [int()] rejects a text of digits exactly when one of them is no decimal
    digit or there are more of them than [int_max_str_digits]. *)
Lemma int_of_digits_none (s : string) :
  Py.int_of_digits s = None
  <-> Py.forallb_str Py.isdecimal_char s = false
      \/ Py.int_max_str_digits < String.length s.
Proof.
  unfold Py.int_of_digits.
  destruct (Nat.leb (String.length s) Py.int_max_str_digits) eqn:E.
  - apply Nat.leb_le in E. rewrite int_acc_none. split; [now left|].
    intros [H|H]; [exact H | lia].
  - apply Nat.leb_gt in E. split; [now right | reflexivity].
Qed.

(** A numeral that [int()] reads has at most [int_max_str_digits] digits. *)
Lemma int_of_digits_bound (s : string) (v : N) :
  Py.int_of_digits s = Some v -> String.length s <= Py.int_max_str_digits.
Proof.
  unfold Py.int_of_digits.
  destruct (Nat.leb (String.length s) Py.int_max_str_digits) eqn:E; [|discriminate].
  intros _. now apply Nat.leb_le.
Qed.

(** X8.  The choice from the list yields an entry of the list or the answer
    itself, never anything else; it raises only ValueError, and exactly when
    the answer passes [isdigit] although [int()] refuses it: one of its
    characters is no decimal digit, or it has more than 4300 digits. *)
Theorem resolve_namespace_results (namespaces : list string) (selection : string) :
  (forall ns, resolve_namespace namespaces selection = Ret ns ->
              In ns namespaces \/ ns = selection)
  /\ (forall e, resolve_namespace namespaces selection = Raise e -> e = ValueError)
  /\ (resolve_namespace namespaces selection = Raise ValueError
      <-> Py.isdigit selection = true
          /\ (Py.forallb_str Py.isdecimal_char selection = false
              \/ Py.int_max_str_digits < String.length selection)).
Proof.
  pose proof (int_of_digits_none selection) as Hnone.
  pose proof (resolve_namespace_cases namespaces selection) as Hcases.
  repeat apply conj.
  - unfold resolve_namespace.
    destruct (chosen_index (List.length namespaces) selection) as [[i|]|e];
      [|intros ns H; injection H as <-; now right | discriminate].
    destruct (nth_error namespaces i) as [x|] eqn:E; [|discriminate].
    intros ns H. injection H as <-. left. eapply nth_error_In, E.
  - intros e H. destruct Hcases as [[ns Hns] | [Hr _]]; congruence.
  - intros H. destruct Hcases as [[ns Hns] | (_ & Hd & Hi)]; [congruence|].
    split; [exact Hd|]. now apply Hnone.
  - intros [Hd Hdec]. apply Hnone in Hdec.
    unfold resolve_namespace, chosen_index. now rewrite Hd, Hdec.
Qed.

(** The namespace choice when the listing succeeds with some output. *)
Lemma choose_from_listing
      (shell : list event -> string -> completion)
      (listed manual selection out err : string)
      (rest : list string) (vf : option string) (tr : list event) :
  shell (Info ("Running: " ++ list_namespaces_command)
         :: Info "Fetching available namespaces..." :: tr)
        list_namespaces_command = Exit 0 out err ->
  out <> "" ->
  exists w0,
    choose_namespace shell listed manual (mkWorld (selection :: rest) vf tr)
    = (resolve_namespace (Py.split_lines (Py.strip out)) selection,
       mkWorld rest vf
         (Input (String Py.nl listed)
          :: trace (snd (print_numbered 1 (Py.split_lines (Py.strip out)) w0)))).
Proof.
  intros Hshell Hout.
  unfold choose_namespace. go. rewrite run_command_eq. go.
  rewrite Hshell. cbn [run_result run_report Z.eqb]. rewrite (truthy_true _ Hout).
  cbn [andb app].
  match goal with
  | |- context [print_numbered 1 ?l ?w0] =>
      exists w0; destruct (print_numbered_spec l 1 w0) as (t & E & _)
  end.
  rewrite E. cbn [snd trace stdin values_file]. go.
  now destruct (resolve_namespace _ selection).
Qed.

(** X9.  When the listing succeeds and the answer is a decimal numeral
    that [int()] reads (at most 4300 digits, leading zeros counted) as a
    number between 1 and the number of lines listed, the namespace chosen is
    the line at that position, and it is the one that was printed with that
    number. *)
Theorem choice_by_number_is_the_line_shown
        (shell : list event -> string -> completion)
        (listed manual selection out err : string) (v : N)
        (rest : list string) (vf : option string) (tr : list event) :
  let namespaces := Py.split_lines (Py.strip out) in
  shell (Info ("Running: " ++ list_namespaces_command)
         :: Info "Fetching available namespaces..." :: tr)
        list_namespaces_command = Exit 0 out err ->
  out <> "" ->
  Py.isdigit selection = true ->
  Py.int_of_digits selection = Some v ->
  (1 <= v <= N.of_nat (List.length namespaces))%N ->
  exists ns w',
    choose_namespace shell listed manual (mkWorld (selection :: rest) vf tr) = (Ret ns, w')
    /\ nth_error namespaces (N.to_nat v - 1) = Some ns
    /\ In (Print (Py.str_of_nat (N.to_nat v) ++ ". " ++ ns)) (trace w')
    /\ stdin w' = rest.
Proof.
  intros namespaces Hshell Hout Hd Hv Hrange.
  destruct (resolve_in_range namespaces selection v Hd Hv Hrange) as (ns & Hnth & Hres).
  destruct (choose_from_listing shell listed manual selection out err rest vf tr
              Hshell Hout) as (w0 & E).
  fold namespaces in E. rewrite Hres in E.
  exists ns. eexists. split; [exact E|]. split; [exact Hnth|].
  split; [|reflexivity]. cbn [trace]. right.
  replace (N.to_nat v) with (1 + (N.to_nat v - 1)) by lia.
  now apply numbered_display.
Qed.

Lemma choice_by_number_is_the_line_shown_witness :
  exists ns w',
    choose_namespace shell_cluster "Enter namespace number or name: " "Enter namespace: "
      (mkWorld ["2"] None []) = (Ret ns, w')
    /\ nth_error (Py.split_lines
                    (Py.strip (text_of_lines ["default"; "kube-system"; "team-prom"])))
                 (N.to_nat 2 - 1) = Some ns
    /\ In (Print (Py.str_of_nat (N.to_nat 2) ++ ". " ++ ns)) (trace w')
    /\ stdin w' = [].
Proof.
  apply (choice_by_number_is_the_line_shown shell_cluster
           "Enter namespace number or name: " "Enter namespace: " "2"
           (text_of_lines ["default"; "kube-system"; "team-prom"]) "" 2 [] None []);
    try reflexivity; [discriminate | vm_compute; split; discriminate].
Defined.

(** ** The listing and its lines *)

Lemma solid_not_nl (c : ascii) : solid c = true -> Ascii.eqb c Py.nl = false.
Proof.
  unfold solid. intros H. destruct (Ascii.eqb c Py.nl) eqn:E; [|reflexivity].
  apply Ascii.eqb_eq in E. subst c. discriminate H.
Qed.

Lemma rstrip_after_solid (n t : string) :
  Py.forallb_str solid n = true ->
  Py.rstrip (n ++ t) = match Py.rstrip t with
                       | EmptyString => n
                       | r => n ++ r
                       end.
Proof.
  induction n as [|c n IH]; intros H.
  - cbn. now destruct (Py.rstrip t).
  - cbn [Py.forallb_str] in H. apply andb_true_iff in H. destruct H as [Hc Hn].
    cbn [append Py.rstrip]. rewrite (IH Hn).
    unfold solid in Hc. apply negb_true_iff in Hc.
    destruct (Py.rstrip t) as [|x r].
    + destruct n; [now rewrite Hc | reflexivity].
    + destruct n; reflexivity.
Qed.

Lemma split_lines_solid (n : string) :
  Py.forallb_str solid n = true -> Py.split_lines n = [n].
Proof.
  induction n as [|c n IH]; intros H; [reflexivity|].
  cbn [Py.forallb_str] in H. apply andb_true_iff in H. destruct H as [Hc Hn].
  cbn [Py.split_lines]. now rewrite (solid_not_nl _ Hc), (IH Hn).
Qed.

Lemma split_lines_after_solid (n t : string) :
  Py.forallb_str solid n = true ->
  Py.split_lines (n ++ String Py.nl t) = n :: Py.split_lines t.
Proof.
  induction n as [|c n IH]; intros H; [reflexivity|].
  cbn [Py.forallb_str] in H. apply andb_true_iff in H. destruct H as [Hc Hn].
  cbn [append Py.split_lines]. now rewrite (solid_not_nl _ Hc), (IH Hn).
Qed.

Lemma rstrip_listing (names : list string) :
  names <> [] -> forallb is_name names = true ->
  Py.rstrip (text_of_lines names) = join_lines names /\ join_lines names <> "".
Proof.
  induction names as [|n names IH]; intros Hne Hnames; [congruence|].
  cbn [forallb] in Hnames. apply andb_true_iff in Hnames. destruct Hnames as [Hn Hnames].
  unfold is_name in Hn. apply andb_true_iff in Hn. destruct Hn as [Hn1 Hn2].
  assert (Hn0 : n <> "") by (intros ->; discriminate Hn1).
  cbn [text_of_lines]. rewrite (rstrip_after_solid _ _ Hn2).
  destruct names as [|m names].
  - cbn. split; [reflexivity | exact Hn0].
  - destruct IH as [IH1 IH2]; [discriminate | exact Hnames |].
    change (join_lines (n :: m :: names))
      with (n ++ String Py.nl (join_lines (m :: names))).
    cbn [Py.rstrip]. rewrite IH1.
    destruct (join_lines (m :: names)) as [|x r]; [congruence|].
    split; [reflexivity|]. destruct n; [congruence | discriminate].
Qed.

Lemma split_join (names : list string) :
  names <> [] -> forallb is_name names = true ->
  Py.split_lines (join_lines names) = names.
Proof.
  induction names as [|n names IH]; intros Hne Hnames; [congruence|].
  cbn [forallb] in Hnames. apply andb_true_iff in Hnames. destruct Hnames as [Hn Hnames].
  unfold is_name in Hn. apply andb_true_iff in Hn. destruct Hn as [_ Hn2].
  destruct names as [|m names].
  - cbn [join_lines]. now apply split_lines_solid.
  - change (join_lines (n :: m :: names))
      with (n ++ String Py.nl (join_lines (m :: names))).
    rewrite (split_lines_after_solid _ _ Hn2).
    f_equal. apply IH; [discriminate | exact Hnames].
Qed.

Lemma lstrip_listing (names : list string) :
  names <> [] -> forallb is_name names = true ->
  Py.lstrip (text_of_lines names) = text_of_lines names.
Proof.
  intros Hne Hnames. destruct names as [|n names]; [congruence|].
  cbn [forallb] in Hnames. apply andb_true_iff in Hnames. destruct Hnames as [Hn _].
  unfold is_name in Hn. apply andb_true_iff in Hn. destruct Hn as [Hn1 Hn2].
  destruct n as [|c n]; [discriminate Hn1|].
  cbn [Py.forallb_str] in Hn2. apply andb_true_iff in Hn2. destruct Hn2 as [Hc _].
  unfold solid in Hc. apply negb_true_iff in Hc.
  cbn [text_of_lines append Py.lstrip]. now rewrite Hc.
Qed.

(** X10.  The listing is read back as it was printed: when kubectl prints a
    non-empty list of names, one per line, each without blanks, then
    [output.strip().split('\n')] is that list of names. *)
Theorem listing_round_trip (names : list string) :
  names <> [] -> forallb is_name names = true ->
  Py.split_lines (Py.strip (text_of_lines names)) = names.
Proof.
  intros Hne Hnames. unfold Py.strip. rewrite (lstrip_listing names Hne Hnames).
  destruct (rstrip_listing names Hne Hnames) as [-> _].
  now apply split_join.
Qed.

Lemma listing_round_trip_witness :
  ["default"; "kube-system"; "team-prom"] <> []
  /\ forallb is_name ["default"; "kube-system"; "team-prom"] = true
  /\ Py.split_lines (Py.strip (text_of_lines ["default"; "kube-system"; "team-prom"]))
     = ["default"; "kube-system"; "team-prom"].
Proof.
  split; [discriminate|]. split; [reflexivity|].
  apply listing_round_trip; [discriminate | reflexivity].
Defined.

(** X11.  End to end: when kubectl prints the names one per line and the
    answer is a decimal numeral that [int()] reads (at most 4300 digits) as
    [k], from 1 to the number of names, the handler goes on with the [k]-th
    name printed. *)
Theorem numbered_choice_picks_the_name
        (shell : list event -> string -> completion)
        (names : list string) (listed manual selection err : string) (v : N)
        (rest : list string) (vf : option string) (tr : list event) :
  names <> [] -> forallb is_name names = true ->
  shell (Info ("Running: " ++ list_namespaces_command)
         :: Info "Fetching available namespaces..." :: tr)
        list_namespaces_command = Exit 0 (text_of_lines names) err ->
  Py.isdigit selection = true ->
  Py.int_of_digits selection = Some v ->
  (1 <= v <= N.of_nat (List.length names))%N ->
  exists ns w',
    choose_namespace shell listed manual (mkWorld (selection :: rest) vf tr) = (Ret ns, w')
    /\ nth_error names (N.to_nat v - 1) = Some ns
    /\ stdin w' = rest.
Proof.
  intros Hne Hnames Hshell Hd Hv Hrange.
  assert (Hout : text_of_lines names <> "").
  { destruct names as [|n names]; [congruence|]. cbn. destruct n; discriminate. }
  assert (Hparse : Py.split_lines (Py.strip (text_of_lines names)) = names).
  { unfold Py.strip. rewrite (lstrip_listing names Hne Hnames).
    destruct (rstrip_listing names Hne Hnames) as [-> _]. now apply split_join. }
  destruct (resolve_in_range names selection v Hd Hv Hrange) as (ns & Hnth & Hres).
  destruct (choose_from_listing shell listed manual selection (text_of_lines names) err
              rest vf tr Hshell Hout) as (w0 & E).
  rewrite Hparse, Hres in E.
  exists ns. eexists. split; [exact E|]. split; [exact Hnth | reflexivity].
Qed.

Lemma numbered_choice_picks_the_name_witness :
  exists ns w',
    choose_namespace shell_cluster "Enter namespace number or name: " "Enter namespace: "
      (mkWorld ["3"; "7"] None []) = (Ret ns, w')
    /\ nth_error ["default"; "kube-system"; "team-prom"] (N.to_nat 3 - 1) = Some ns
    /\ stdin w' = ["7"].
Proof.
  apply (numbered_choice_picks_the_name shell_cluster
           ["default"; "kube-system"; "team-prom"]
           "Enter namespace number or name: " "Enter namespace: " "3" "" 3 ["7"] None []);
    try reflexivity; [discriminate | vm_compute; split; discriminate].
Defined.

(** ** Rewriting files that hold no key *)

Lemma drop_nil (k : nat) : drop k "" = "".
Proof. now destruct k. Qed.

Lemma sub_from_copy (r : Re.regex) (repl : string -> string) (pre rest : string) :
  (forall k, k < String.length pre -> Re.match_here r (drop k pre ++ rest) = None) ->
  Re.sub_from r repl 0 (pre ++ rest) = pre ++ Re.sub_from r repl 0 rest.
Proof.
  induction pre as [|c pre IH]; intros H; [reflexivity|].
  cbn [append Re.sub_from].
  pose proof (H 0 ltac:(cbn; lia)) as H0. cbn [drop append] in H0. rewrite H0.
  f_equal. apply IH. intros k Hk. apply (H (S k)). cbn. lia.
Qed.

Lemma contains_drop (p s : string) (k : nat) :
  contains p s = false -> Re.drop_prefix p (drop k s) = None.
Proof.
  revert k. induction s as [|c s IH]; intros k H.
  - rewrite drop_nil. cbn in H. now destruct (Re.drop_prefix p "").
  - cbn [contains] in H.
    destruct (Re.drop_prefix p (String c s)) eqn:E; [discriminate|].
    destruct k; [exact E | now apply IH].
Qed.

Lemma contains_end (p s : string) :
  contains p s = false -> Re.drop_prefix p "" = None.
Proof.
  induction s as [|c s IH]; cbn [contains].
  - now destruct (Re.drop_prefix p "").
  - destruct (Re.drop_prefix p (String c s)); [discriminate | exact IH].
Qed.

Lemma sub_without_literal (p : string) (r : Re.regex) (repl : string -> string)
      (s : string) :
  contains p s = false -> Re.sub (Re.Lit p :: r) repl s = s.
Proof.
  intros H. unfold Re.sub.
  assert (Hno : forall k, Re.match_here (Re.Lit p :: r) (drop k s) = None).
  { intros k. cbn [Re.match_here]. now rewrite (contains_drop p s k H). }
  rewrite <- (append_nil_r s) at 1. rewrite sub_from_copy.
  - cbn [Re.sub_from Re.match_here]. rewrite (contains_end p s H).
    now rewrite append_nil_r.
  - intros k _. rewrite append_nil_r. apply Hno.
Qed.

(** A text that holds neither [hosts:] nor [external-dns] is left as it is
    by the two substitutions. *)
Lemma rewrite_without_keys_is_identity
        (parse_template : string -> option (string -> string))
        (hostname content : string) :
  Re.has_backslash hostname = false ->
  contains "hosts:" content = false ->
  contains "external-dns" content = false ->
  rewrite_hostname parse_template hostname content = Ret content.
Proof.
  intros Hplain Hhosts Hdns. rewrite (rewrite_hostname_plain _ _ _ Hplain).
  unfold Re.hosts_pattern, Re.dns_pattern.
  now rewrite (sub_without_literal _ _ _ _ Hhosts), (sub_without_literal _ _ _ _ Hdns).
Qed.


(** ** Rewriting the file the script generated *)

Lemma default_values_generated (h : string) : default_values h = generated h h.
Proof.
  unfold default_values, generated, values_head, values_indent, dns_key.
  cbn [text_of_lines]. rewrite ?append_assoc. cbn [append]. rewrite ?append_assoc.
  reflexivity.
Qed.

Lemma mismatch_sound (p x t : string) :
  mismatch p x = true -> Re.drop_prefix p (x ++ t) = None.
Proof.
  revert x; induction p as [|a p IH]; intros x H; [discriminate|].
  destruct x as [|b x]; [discriminate|]. cbn in *.
  destruct (Ascii.eqb a b); [now apply IH | reflexivity].
Qed.

Lemma clear_sound (p : string) (r : Re.regex) (x t : string) :
  clear p x = true ->
  forall k, k < String.length x -> Re.match_here (Re.Lit p :: r) (drop k x ++ t) = None.
Proof.
  induction x as [|c x IH]; intros H k Hk; [cbn in Hk; lia|].
  cbn [clear] in H. apply andb_true_iff in H. destruct H as [H0 H].
  destruct k as [|k].
  - cbn [drop Re.match_here]. now rewrite (mismatch_sound _ _ t H0).
  - cbn [drop]. apply IH; [exact H | cbn in Hk; lia].
Qed.

Lemma sub_from_skip (r : Re.regex) (repl : string -> string) (a t : string) (k : nat) :
  Re.sub_from r repl (String.length a + k) (a ++ t) = Re.sub_from r repl k t.
Proof. induction a as [|c a IH]; [reflexivity | exact IH]. Qed.

(** A match at the head is replaced and the scan resumes after it. *)
Lemma sub_from_match (r : Re.regex) (repl : string) (c : ascii) (a t : string) :
  Re.match_here r (String c a ++ t) = Some (S (String.length a)) ->
  Re.sub_from r (fun _ => repl) 0 (String c a ++ t)
  = repl ++ Re.sub_from r (fun _ => repl) 0 t.
Proof.
  intros H. cbn [append Re.sub_from] in *. rewrite H. f_equal.
  rewrite <- (Nat.add_0_r (String.length a)). apply sub_from_skip.
Qed.

Lemma one_line_cons (c : ascii) (s : string) :
  one_line (String c s) -> Ascii.eqb c Py.nl = false /\ one_line s.
Proof.
  unfold one_line. cbn [Py.forallb_str]. intros H. apply andb_true_iff in H.
  destruct H as [Hc Hs]. split; [now apply negb_true_iff | exact Hs].
Qed.

Lemma one_line_drop (k : nat) (s : string) : one_line s -> one_line (drop k s).
Proof.
  revert s; induction k as [|k IH]; intros [|c s] H; try exact H.
  apply IH. now apply one_line_cons in H.
Qed.

(** [.*] runs to the end of the line. *)
Lemma dot_star_line (h t : string) :
  one_line h ->
  Re.match_here [Re.Star Re.Dot] (h ++ String Py.nl t) = Some (String.length h).
Proof.
  induction h as [|c h IH]; intros H; rewrite match_here_star.
  - reflexivity.
  - apply one_line_cons in H. destruct H as [Hc H].
    cbn [append Re.accepts]. rewrite Hc. cbn [negb]. now rewrite (IH H).
Qed.

(** [.*] followed by a quote runs to the last quote of the line. *)
Lemma quoted_value_line (h t : string) :
  one_line h ->
  Re.match_here [Re.Star Re.Dot; Re.Lit (String Py.dquote "")]
    (h ++ String Py.dquote (String Py.nl t))
  = Some (S (String.length h)).
Proof.
  induction h as [|c h IH]; intros H; rewrite match_here_star.
  - reflexivity.
  - apply one_line_cons in H. destruct H as [Hc H].
    cbn [append Re.accepts]. rewrite Hc. cbn [negb]. now rewrite (IH H).
Qed.

Lemma hosts_key_match (r : Re.regex) (s : string) :
  Re.match_here (Re.Lit "hosts:" :: Re.Star Re.Space :: Re.Lit (String Py.nl "")
                 :: Re.Star Re.Space :: Re.Lit "- " :: r)
    ("hosts:" ++ String Py.nl ("      - " ++ s))
  = option_map (Nat.add 15) (Re.match_here r s).
Proof. cbn. destruct (Re.match_here r s); reflexivity. Qed.

Lemma dns_key_match (r : Re.regex) (s : string) :
  Re.match_here (Re.Lit "external-dns" :: Re.One Re.Dot :: Re.Lit "alpha"
                 :: Re.One Re.Dot :: Re.Lit "kubernetes" :: Re.One Re.Dot
                 :: Re.Lit ("io/hostname: " ++ String Py.dquote "") :: r)
    (dns_key ++ String Py.dquote s)
  = option_map (Nat.add 44) (Re.match_here r s).
Proof. cbn. destruct (Re.match_here r s); reflexivity. Qed.

Lemma sub_from_replace (r : Re.regex) (repl m t : string) (n : nat) :
  Re.match_here r (m ++ t) = Some (S n) -> String.length m = S n ->
  Re.sub_from r (fun _ => repl) 0 (m ++ t)
  = repl ++ Re.sub_from r (fun _ => repl) 0 t.
Proof.
  intros H L. destruct m as [|c m]; [discriminate|].
  cbn [append Re.sub_from] in *. rewrite H. f_equal.
  injection L as L. subst n. rewrite <- (Nat.add_0_r (String.length m)).
  apply sub_from_skip.
Qed.

(** A literal free of the character [q] that starts a text [x ++ q...]
    ends within [x]. *)
Lemma drop_prefix_within (p x : string) (q : ascii) (t rest : string) :
  Py.forallb_str (fun c => negb (Ascii.eqb c q)) p = true ->
  Re.drop_prefix p (x ++ String q t) = Some rest ->
  exists k, rest = drop k x ++ String q t /\ Re.drop_prefix p x = Some (drop k x).
Proof.
  revert x; induction p as [|a p IH]; intros x Hp H.
  - exists 0. cbn in H. injection H as <-. now destruct x.
  - cbn [Py.forallb_str] in Hp. apply andb_true_iff in Hp. destruct Hp as [Ha Hp].
    destruct x as [|b x]; cbn [append Re.drop_prefix] in H.
    + apply negb_true_iff in Ha. now rewrite Ha in H.
    + cbn [Re.drop_prefix]. destruct (Ascii.eqb a b); [|discriminate].
      destruct (IH x Hp H) as [k [E1 E2]]. now exists (S k).
Qed.

(** Blanks of a line that ends in a quote never reach a line feed. *)
Lemma blanks_stop_at_quote (r : Re.regex) (x t : string) :
  one_line x ->
  Re.match_here (Re.Star Re.Space :: Re.Lit (String Py.nl "") :: r)
    (x ++ String Py.dquote t) = None.
Proof.
  induction x as [|c x IH]; intros H; rewrite match_here_star.
  - reflexivity.
  - apply one_line_cons in H. destruct H as [Hc H].
    cbn [append]. rewrite (IH H).
    assert (E : Re.match_here (Re.Lit (String Py.nl "") :: r)
                  (String c (x ++ String Py.dquote t)) = None).
    { cbn [Re.match_here Re.drop_prefix]. rewrite Ascii.eqb_sym, Hc. reflexivity. }
    rewrite E. now destruct (Re.accepts Re.Space c).
Qed.

Lemma match_here_lit (p : string) (r : Re.regex) (s : string) :
  Re.match_here (Re.Lit p :: r) s
  = match Re.drop_prefix p s with
    | Some rest => option_map (Nat.add (String.length p)) (Re.match_here r rest)
    | None => None
    end.
Proof. reflexivity. Qed.

Lemma no_host_list_in_quoted_value (x t : string) :
  one_line x ->
  Re.match_here Re.hosts_pattern (x ++ String Py.dquote t) = None.
Proof.
  intros H. unfold Re.hosts_pattern. rewrite match_here_lit.
  destruct (Re.drop_prefix "hosts:" (x ++ String Py.dquote t)) as [rest|] eqn:E;
    [|reflexivity].
  apply drop_prefix_within in E; [|reflexivity]. destruct E as [k [-> _]].
  rewrite blanks_stop_at_quote; [reflexivity | now apply one_line_drop].
Qed.

(** A literal without line feed that does not occur in [x] does not start
    in [x] when a line feed follows. *)
Lemma absent_before_line_feed (p x t : string) (k : nat) :
  one_line p -> contains p x = false ->
  Re.drop_prefix p (drop k x ++ String Py.nl t) = None.
Proof.
  intros Hp H.
  destruct (Re.drop_prefix p (drop k x ++ String Py.nl t)) as [rest|] eqn:E;
    [|reflexivity].
  apply drop_prefix_within in E; [|exact Hp]. destruct E as [j [_ E]].
  now rewrite (contains_drop p x k H) in E.
Qed.

Lemma hosts_pass (old new : string) :
  one_line old ->
  Re.sub Re.hosts_pattern (fun _ => hosts_replacement new) (generated old old)
  = generated new old.
Proof.
  intros H. unfold Re.sub, generated.
  rewrite sub_from_copy.
  2:{ intros k Hk. apply clear_sound; [vm_compute; reflexivity | exact Hk]. }
  f_equal.
  set (T := dns_key ++ String Py.dquote (old ++ String Py.dquote (String Py.nl ""))).
  change (Re.sub_from Re.hosts_pattern (fun _ => hosts_replacement new) 0
            (hosts_replacement old ++ values_indent ++ T)
          = hosts_replacement new ++ values_indent ++ T).
  rewrite (sub_from_replace _ _ _ _ (14 + String.length old)).
  - f_equal.
    change (values_indent ++ T)
      with ((values_indent ++ dns_key ++ String Py.dquote "")
            ++ old ++ String Py.dquote (String Py.nl "")).
    rewrite sub_from_copy.
    2:{ intros k Hk. apply clear_sound; [vm_compute; reflexivity | exact Hk]. }
    f_equal. rewrite sub_from_copy; [reflexivity|].
    intros k _. apply no_host_list_in_quoted_value. now apply one_line_drop.
  - pose proof (hosts_key_match [Re.Star Re.Dot]
                  (old ++ String Py.nl ("    annotations:" ++ String Py.nl ("      " ++ T))))
      as E.
    rewrite (dot_star_line old _ H) in E. exact E.
  - reflexivity.
Qed.

Lemma dns_pass (old new : string) :
  one_line old ->
  contains "external-dns" new = false ->
  Re.sub Re.dns_pattern (fun _ => dns_replacement new) (generated new old)
  = generated new new.
Proof.
  intros H Hnew. unfold Re.sub, generated.
  set (V := fun v : string => v ++ String Py.dquote "").
  assert (A : forall v, v ++ String Py.dquote (String Py.nl "") = V v ++ String Py.nl "").
  { intros v. unfold V. induction v as [|c v IH]; [reflexivity|]. cbn. now rewrite IH. }
  rewrite !A.
  change (Re.sub_from Re.dns_pattern (fun _ => dns_replacement new) 0
            ((values_head ++ hosts_replacement "")
             ++ new ++ values_indent ++ (dns_key ++ String Py.dquote (V old))
             ++ String Py.nl "")
          = (values_head ++ hosts_replacement "")
             ++ new ++ values_indent ++ dns_replacement new ++ String Py.nl "").
  rewrite sub_from_copy.
  2:{ intros k Hk. apply clear_sound; [vm_compute; reflexivity | exact Hk]. }
  f_equal. rewrite sub_from_copy.
  2:{ intros k _. unfold Re.dns_pattern. rewrite match_here_lit.
      match goal with
      | |- context [Re.drop_prefix ?p ?s] =>
          replace (Re.drop_prefix p s) with (@None string); [reflexivity|]
      end.
      symmetry. refine (absent_before_line_feed "external-dns" new _ k eq_refl Hnew). }
  f_equal. rewrite sub_from_copy.
  2:{ intros k Hk. apply clear_sound; [vm_compute; reflexivity | exact Hk]. }
  f_equal.
  rewrite (sub_from_replace _ _ _ _ (44 + String.length old)).
  - reflexivity.
  - pose proof (dns_key_match [Re.Star Re.Dot; Re.Lit (String Py.dquote "")]
                  (old ++ String Py.dquote (String Py.nl ""))) as E.
    rewrite (quoted_value_line old "" H) in E.
    change ((dns_key ++ String Py.dquote (V old)) ++ String Py.nl "")
      with (dns_key ++ String Py.dquote (V old ++ String Py.nl "")).
    rewrite <- A. exact E.
  - unfold V. cbn [dns_key append String.length].
    rewrite length_append. cbn. lia.
Qed.

(** X13.  Updating a values file that the script generated itself gives the
    file it would generate for the new hostname. *)
Theorem regenerated_values_file
        (parse_template : string -> option (string -> string))
        (old new : string) :
  one_line old ->
  Re.has_backslash new = false ->
  contains "external-dns" new = false ->
  rewrite_hostname parse_template new (default_values old)
  = Ret (default_values new).
Proof.
  intros Hold Hplain Hnew. rewrite (rewrite_hostname_plain _ _ _ Hplain).
  rewrite !default_values_generated.
  now rewrite (hosts_pass old new Hold), (dns_pass old new Hold Hnew).
Qed.

Lemma regenerated_values_file_witness :
  rewrite_hostname no_template "new.sctp-sandbox.com"
    (default_values "team-prom.sctp-sandbox.com")
  = Ret (default_values "new.sctp-sandbox.com").
Proof. apply regenerated_values_file; reflexivity. Defined.

(** ** Releases read from the listing *)

Lemma has_keys_items (release : json) :
  has_keys release = true ->
  exists name chart, item release "name" = Ret name /\ item release "chart" = Ret chart.
Proof.
  destruct release as [| | | |items|fields]; try discriminate. cbn [has_keys item].
  destruct (lookup "name" fields) as [x|]; [|discriminate].
  destruct (lookup "chart" fields) as [y|]; [|discriminate]. eauto.
Qed.

Lemma lacks_keys_raises (release : json) :
  has_keys release = false ->
  (exists e, item release "name" = Raise e /\ (e = KeyError \/ e = TypeError))
  \/ (exists name e, item release "name" = Ret name
                     /\ item release "chart" = Raise e /\ e = KeyError).
Proof.
  destruct release as [| | | |items|fields]; cbn [has_keys item]; eauto.
  destruct (lookup "name" fields) as [x|]; [|eauto].
  destruct (lookup "chart" fields) as [y|]; [discriminate|]. eauto 6.
Qed.

Lemma print_releases_shown (show : json -> string) (releases : list json) :
  forallb has_keys releases = true ->
  forall (i : nat) (w : world),
  exists t,
    print_releases show i releases w
    = (Ret tt, mkWorld (stdin w) (values_file w) ((t ++ trace w)%list))
    /\ commands t = [].
Proof.
  induction releases as [|r releases IH]; intros H i w.
  - exists []. destruct w; split; reflexivity.
  - cbn [forallb] in H. apply andb_true_iff in H. destruct H as [Hr H].
    destruct (has_keys_items r Hr) as (name & chart & En & Ec).
    cbn [print_releases]. unfold bind, lift, print, emit. rewrite En, Ec.
    match goal with
    | |- context [print_releases show (S i) releases ?w0] =>
        destruct (IH H (S i) w0) as (t & E & Ht); rewrite E
    end.
    cbn [stdin values_file trace].
    eexists (t ++ [_])%list. split.
    + rewrite <- app_assoc. reflexivity.
    + rewrite commands_app, Ht. reflexivity.
Qed.

Lemma print_releases_raises (show : json -> string) (releases : list json) :
  forallb has_keys releases = false ->
  forall (i : nat) (w : world),
  exists e w',
    print_releases show i releases w = (Raise e, w')
    /\ (e = KeyError \/ e = TypeError)
    /\ stdin w' = stdin w /\ values_file w' = values_file w
    /\ commands (trace w') = commands (trace w).
Proof.
  induction releases as [|r releases IH]; intros H i w; [discriminate|].
  cbn [forallb] in H. cbn [print_releases]. unfold bind, lift, print, emit.
  destruct (has_keys r) eqn:Hr.
  - destruct (has_keys_items r Hr) as (name & chart & En & Ec). rewrite En, Ec.
    cbn [andb] in H.
    match goal with
    | |- context [print_releases show (S i) releases ?w0] =>
        destruct (IH H (S i) w0) as (e & w' & E & He & Hin & Hvf & Hc); rewrite E
    end.
    exists e, w'. cbn [stdin values_file trace commands] in *. auto.
  - destruct (lacks_keys_raises r Hr) as [(e & En & He) | (name & e & En & Ec & He)].
    + rewrite En. exists e, w. auto.
    + rewrite En, Ec. exists e, w. auto.
Qed.

(** X14.  A release entry without [name] or [chart] in the parsed listing
    aborts the deletion: the handler raises KeyError or TypeError while
    printing the list, before it asks anything, and [helm uninstall] is not
    run. *)
Theorem malformed_release_aborts_deletion
        (shell : list event -> string -> completion)
        (json_loads : string -> option json) (show : json -> string)
        (a : ascii) (n out err : string) (releases : list json)
        (answers : list string) (vf : option string) (tr : list event) :
  let ns := String a n in
  shell (Info ("Running: " ++ list_releases_command ns)
         :: Info ("Fetching Helm releases in namespace '" ++ ns ++ "'...")
         :: Info ("Using namespace: " ++ ns) :: tr)
        (list_releases_command ns) = Exit 0 out err ->
  out <> "" -> Py.strip out <> "[]" ->
  json_loads out = Some (JArr releases) ->
  forallb has_keys releases = false ->
  exists e w',
    delete_release_in shell json_loads show ns (mkWorld answers vf tr) = (Raise e, w')
    /\ (e = KeyError \/ e = TypeError)
    /\ stdin w' = answers /\ values_file w' = vf
    /\ commands (trace w') = list_releases_command ns :: commands tr.
Proof.
  intros ns Hshell Hout Hlist Hjson Hbad.
  unfold delete_release_in. go. rewrite run_command_eq. go. fold ns.
  rewrite Hshell. cbn [run_result run_report Z.eqb]. rewrite (truthy_true _ Hout).
  apply String.eqb_neq in Hlist. rewrite Hlist. cbn [andb negb app]. rewrite Hjson.
  unfold choose_release. go.
  match goal with
  | |- context [print_releases show 1 releases ?w0] =>
      destruct (print_releases_raises show releases Hbad 1 w0)
        as (e & w' & E & He & Hin & Hvf & Hc); rewrite E
  end.
  exists e, w'. cbn [stdin values_file trace commands] in *. auto.
Qed.

Lemma malformed_release_aborts_deletion_witness :
  exists e w',
    delete_release_in
      (fun _ c => if c =? "helm list -n team-prom -o json"
                  then Exit 0 "[{}]" "" else Exit 1 "" "")
      (fun _ => Some (JArr [JObj []])) show_plain "team-prom" (mkWorld ["1"] None [])
    = (Raise e, w')
    /\ (e = KeyError \/ e = TypeError)
    /\ stdin w' = ["1"] /\ values_file w' = None
    /\ commands (trace w') = ["helm list -n team-prom -o json"].
Proof.
  apply (malformed_release_aborts_deletion _ _ _ "t" "eam-prom" "[{}]" "" [JObj []]);
    try reflexivity; discriminate.
Defined.

(** X15.  With a well-formed listing, the answer [k] (a decimal numeral
    that [int()] reads, at most 4300 digits, as a number between 1 and the
    number of releases) uninstalls the release listed at position [k], by
    its name, in the chosen namespace. *)
Theorem numbered_release_is_uninstalled
        (shell : list event -> string -> completion)
        (json_loads : string -> option json) (show : json -> string)
        (a : ascii) (n out err : string) (releases : list json)
        (selection : string) (v : N)
        (rest : list string) (vf : option string) (tr : list event) :
  let ns := String a n in
  shell (Info ("Running: " ++ list_releases_command ns)
         :: Info ("Fetching Helm releases in namespace '" ++ ns ++ "'...")
         :: Info ("Using namespace: " ++ ns) :: tr)
        (list_releases_command ns) = Exit 0 out err ->
  out <> "" -> Py.strip out <> "[]" ->
  json_loads out = Some (JArr releases) ->
  forallb has_keys releases = true ->
  Py.isdigit selection = true ->
  Py.int_of_digits selection = Some v ->
  (1 <= v <= N.of_nat (List.length releases))%N ->
  exists release name b w',
    nth_error releases (N.to_nat v - 1) = Some release
    /\ item release "name" = Ret name
    /\ delete_release_in shell json_loads show ns (mkWorld (selection :: rest) vf tr)
       = (Ret b, w')
    /\ stdin w' = rest
    /\ commands (trace w')
       = uninstall_command (format show name) ns :: list_releases_command ns
         :: commands tr.
Proof.
  intros ns Hshell Hout Hlist Hjson Hgood Hd Hv [H1 H2].
  destruct (nth_error releases (N.to_nat v - 1)) as [release|] eqn:Hnth;
    [|apply nth_error_None in Hnth; lia].
  assert (Hkeys : has_keys release = true).
  { rewrite forallb_forall in Hgood. eapply Hgood, nth_error_In, Hnth. }
  destruct (has_keys_items release Hkeys) as (name & chart & En & _).
  exists release, name.
  unfold delete_release_in. go. rewrite run_command_eq. go. fold ns.
  rewrite Hshell. cbn [run_result run_report Z.eqb]. rewrite (truthy_true _ Hout).
  apply String.eqb_neq in Hlist. rewrite Hlist. cbn [andb negb app]. rewrite Hjson.
  unfold choose_release. go.
  match goal with
  | |- context [print_releases show 1 releases ?w0] =>
      destruct (print_releases_shown show releases Hgood 1 w0) as (t & E & Ht);
      rewrite E
  end.
  go. unfold chosen_index. rewrite Hd, Hv.
  apply N.leb_le in H1, H2. rewrite H1, H2. cbn [andb]. go.
  rewrite Hnth, En. go. rewrite run_command_eq. go.
  match goal with
  | |- context [let (_, _) := run_result ?c in _] =>
      destruct (run_result c) as [success output] eqn:R; destruct success
  end; go; do 2 eexists; (split; [reflexivity|]); (split; [reflexivity|]);
    (split; [reflexivity|]); (split; [reflexivity|]);
    cbn [trace]; cmds; rewrite ?commands_app, ?commands_run_report, ?Ht; reflexivity.
Qed.

Lemma numbered_release_is_uninstalled_witness :
  exists release name b w',
    nth_error two_releases (N.to_nat 2 - 1) = Some release
    /\ item release "name" = Ret name
    /\ delete_release_in shell_releases (fun _ => Some (JArr two_releases)) show_plain
         "team" (mkWorld ["2"] None []) = (Ret b, w')
    /\ stdin w' = []
    /\ commands (trace w')
       = [uninstall_command (format show_plain name) "team";
          list_releases_command "team"].
Proof.
  apply (numbered_release_is_uninstalled shell_releases _ show_plain "t" "eam" "[...]" ""
           two_releases "2" 2 [] None []);
    try reflexivity; try discriminate. cbn. lia.
Defined.

(** X16.  With a well-formed listing, an answer that is no number of the
    list (no digit text, the empty answer included, or a numeral that
    [int()] reads, at most 4300 digits, as a number out of range) is taken
    as the release name as typed: no default applies. *)
Theorem release_answer_is_used_as_typed
        (shell : list event -> string -> completion)
        (json_loads : string -> option json) (show : json -> string)
        (a : ascii) (n out err : string) (releases : list json)
        (selection : string)
        (rest : list string) (vf : option string) (tr : list event) :
  let ns := String a n in
  shell (Info ("Running: " ++ list_releases_command ns)
         :: Info ("Fetching Helm releases in namespace '" ++ ns ++ "'...")
         :: Info ("Using namespace: " ++ ns) :: tr)
        (list_releases_command ns) = Exit 0 out err ->
  out <> "" -> Py.strip out <> "[]" ->
  json_loads out = Some (JArr releases) ->
  forallb has_keys releases = true ->
  Py.isdigit selection = false
  \/ (exists v, Py.int_of_digits selection = Some v
                /\ (v < 1 \/ N.of_nat (List.length releases) < v)%N) ->
  exists b w',
    delete_release_in shell json_loads show ns (mkWorld (selection :: rest) vf tr)
    = (Ret b, w')
    /\ stdin w' = rest
    /\ commands (trace w')
       = uninstall_command selection ns :: list_releases_command ns :: commands tr.
Proof.
  intros ns Hshell Hout Hlist Hjson Hgood Hsel.
  assert (Hnone : chosen_index (List.length releases) selection = Ret None).
  { unfold chosen_index. destruct Hsel as [Hd | (v & Hv & Hrange)].
    - now rewrite Hd.
    - rewrite Hv. destruct (Py.isdigit selection); [|reflexivity].
      destruct Hrange as [H | H].
      + apply N.leb_gt in H. now rewrite H.
      + apply N.leb_gt in H. rewrite H. now rewrite andb_false_r. }
  unfold delete_release_in. go. rewrite run_command_eq. go. fold ns.
  rewrite Hshell. cbn [run_result run_report Z.eqb]. rewrite (truthy_true _ Hout).
  apply String.eqb_neq in Hlist. rewrite Hlist. cbn [andb negb app]. rewrite Hjson.
  unfold choose_release. go.
  match goal with
  | |- context [print_releases show 1 releases ?w0] =>
      destruct (print_releases_shown show releases Hgood 1 w0) as (t & E & Ht);
      rewrite E
  end.
  go. rewrite Hnone. go. rewrite run_command_eq. go.
  match goal with
  | |- context [let (_, _) := run_result ?c in _] =>
      destruct (run_result c) as [success output] eqn:R; destruct success
  end; go; do 2 eexists; (split; [reflexivity|]); (split; [reflexivity|]);
    cbn [trace]; cmds; rewrite ?commands_app, ?commands_run_report, ?Ht; reflexivity.
Qed.

Lemma release_answer_is_used_as_typed_witness :
  exists b w',
    delete_release_in shell_releases (fun _ => Some (JArr two_releases)) show_plain
      "team" (mkWorld [""] None []) = (Ret b, w')
    /\ stdin w' = []
    /\ commands (trace w') = ["helm uninstall  --namespace team";
                              "helm list -n team -o json"].
Proof.
  apply (release_answer_is_used_as_typed shell_releases _ show_plain "t" "eam" "[...]" ""
           two_releases "" [] None []);
    try reflexivity; try discriminate. now left.
Defined.

(** ** The values file across deployments *)

Lemma universal_newlines_no_cr (s : string) :
  no_cr s -> Py.universal_newlines s = s.
Proof.
  unfold no_cr. induction s as [|c s IH]; [reflexivity|].
  cbn [Py.forallb_str Py.universal_newlines]. intros H.
  apply andb_true_iff in H. destruct H as [Hc Hs]. apply negb_true_iff in Hc.
  rewrite Hc. now rewrite (IH Hs).
Qed.

Lemma forallb_str_app (p : ascii -> bool) (a b : string) :
  Py.forallb_str p (a ++ b) = Py.forallb_str p a && Py.forallb_str p b.
Proof.
  induction a as [|c a IH]; [reflexivity|].
  cbn [append Py.forallb_str]. now rewrite IH, andb_assoc.
Qed.

Lemma generated_no_cr (entry value : string) :
  no_cr entry -> no_cr value -> no_cr (generated entry value).
Proof.
  unfold no_cr, generated. intros He Hv.
  change ("hosts:" ++ String Py.nl ("      - " ++ entry ++ values_indent ++ dns_key
            ++ String Py.dquote (value ++ String Py.dquote (String Py.nl ""))))
    with (hosts_replacement "" ++ entry ++ (values_indent ++ dns_key ++ String Py.dquote "")
            ++ value ++ String Py.dquote (String Py.nl "")).
  rewrite !forallb_str_app, He, Hv. reflexivity.
Qed.

Lemma run_report_prints (show_output : bool) (c : completion) (e : event) :
  In e (run_report show_output c) -> (exists s, e = Print s) \/ (exists s, e = Error s).
Proof.
  destruct c as [rc out err|msg]; cbn [run_report].
  - destruct (rc =? 0)%Z.
    + destruct (show_output && Py.truthy out); cbn; intuition (subst; eauto).
    + rewrite !in_app_iff.
      destruct (Py.truthy out && show_output), (Py.truthy err); cbn;
        intuition (subst; eauto).
  - cbn. intuition (subst; eauto).
Qed.

Ltac deploying :=
  unfold bind, print_header, print_info, print_error, print_success,
    print_warning, print, input, emit, ret, lift, sleep, when,
    path_exists, read_values, write_values;
  cbn -[append run_command run_result run_report Py.or_else rewrite_hostname
        default_values deploy_command values_file_name Py.universal_newlines].

(** The deployment past the namespace choice, given the text it writes. *)
Lemma deploy_to_writes
      (shell : list event -> string -> completion)
      (parse_template : string -> option (string -> string))
      (a : ascii) (n r h : string) (rest : list string) (vf : option string)
      (tr : list event) (content : string) :
  let ns := String a n in
  let release := Py.or_else r (ns ++ "-prom") in
  let hostname := Py.or_else h (ns ++ ".sctp-sandbox.com") in
  match vf with
  | None => Ret (default_values hostname)
  | Some c => rewrite_hostname parse_template hostname (Py.universal_newlines c)
  end = Ret content ->
  exists b w' before after,
    deploy_to shell parse_template ns (mkWorld (r :: h :: rest) vf tr) = (Ret b, w')
    /\ stdin w' = rest
    /\ trace w' = (after ++ Run (deploy_command release ns) :: before)%list
    /\ b = fst (run_result (shell before (deploy_command release ns)))
    /\ In (WriteFile values_file_name content) before
    /\ commands before = commands tr
    /\ commands after
       = (if b then ["kubectl get ingress -n " ++ ns; "kubectl get svc -n " ++ ns;
                     "kubectl get pods -n " ++ ns]%string
          else [])
    /\ (In (Sleep 5) after <-> b = true).
Proof.
  intros ns release hostname Hcontent.
  unfold deploy_to, ask_release_name, default_release_name, prepare_values, ask_hostname.
  deploying. fold ns. fold release. fold hostname.
  unfold hostname in Hcontent.
  destruct vf as [c|]; deploying;
    [rewrite Hcontent | injection Hcontent as <-];
    deploying; rewrite run_command_eq; deploying;
    match goal with
    | |- context [Run (deploy_command release ns) :: ?b] =>
        remember b as before eqn:Hbefore
    end;
    match goal with
    | |- context [let (_, _) := run_result ?c in _] =>
        destruct (run_result c) as [success output] eqn:R; destruct success
    end;
    repeat first [progress deploying | rewrite run_command_eq];
    lazymatch goal with
    | |- exists b w' bf af,
          (Ret ?x, {| stdin := _; values_file := _; trace := ?t |}) = _ /\ _ =>
        let l := strip t constr:(Run (deploy_command release ns) :: before) in
        exists x; eexists; exists before, l
    end;
    (split; [reflexivity|]); (split; [reflexivity|]);
    (split; [cbn [trace]; same_trace|]);
    (split; [now rewrite R|]);
    (split; [subst before; find_in|]);
    (split; [subst before; reflexivity|]);
    (split; [cmds; reflexivity|]).
  all: try (split; [reflexivity | intros _; find_in]).
  all: split; [|discriminate];
    intros [H|H]; [discriminate|];
    rewrite app_nil_r in H; apply run_report_prints in H;
    destruct H as [[s H]|[s H]]; discriminate.
Qed.

(** X17.  Without a values file, the deployment writes the default file for
    the hostname (the namespace under sctp-sandbox.com on an empty answer)
    before it runs [helm upgrade]; it returns whether that command
    succeeded, and waits and lists pods, services and ingresses exactly
    when it did. *)
Theorem first_deploy_writes_default_values
        (shell : list event -> string -> completion)
        (parse_template : string -> option (string -> string))
        (a : ascii) (n r h : string) (rest : list string) (tr : list event) :
  let ns := String a n in
  let release := Py.or_else r (ns ++ "-prom") in
  let hostname := Py.or_else h (ns ++ ".sctp-sandbox.com") in
  exists b w' before after,
    deploy_to shell parse_template ns (mkWorld (r :: h :: rest) None tr) = (Ret b, w')
    /\ stdin w' = rest
    /\ trace w' = (after ++ Run (deploy_command release ns) :: before)%list
    /\ b = fst (run_result (shell before (deploy_command release ns)))
    /\ In (WriteFile values_file_name (default_values hostname)) before
    /\ commands before = commands tr
    /\ commands after
       = (if b then ["kubectl get ingress -n " ++ ns; "kubectl get svc -n " ++ ns;
                     "kubectl get pods -n " ++ ns]%string
          else [])
    /\ (In (Sleep 5) after <-> b = true).
Proof.
  intros ns release hostname.
  exact (deploy_to_writes shell parse_template a n r h rest None tr
           (default_values hostname) eq_refl).
Qed.

(** X18.  Deploying over the values file an earlier deployment generated
    (for a hostname of one line, without carriage return): the file is read,
    rewritten for the hostname now given and written back before
    [helm upgrade] runs, and what is written is exactly the default file for
    the new hostname. *)
Theorem redeploy_regenerates_values_file
        (shell : list event -> string -> completion)
        (parse_template : string -> option (string -> string))
        (a : ascii) (n r h old : string) (rest : list string) (tr : list event) :
  let ns := String a n in
  let release := Py.or_else r (ns ++ "-prom") in
  let hostname := Py.or_else h (ns ++ ".sctp-sandbox.com") in
  one_line old -> no_cr old ->
  Re.has_backslash hostname = false ->
  contains "external-dns" hostname = false ->
  exists b w' before after,
    deploy_to shell parse_template ns
      (mkWorld (r :: h :: rest) (Some (default_values old)) tr) = (Ret b, w')
    /\ stdin w' = rest
    /\ trace w' = (after ++ Run (deploy_command release ns) :: before)%list
    /\ b = fst (run_result (shell before (deploy_command release ns)))
    /\ In (WriteFile values_file_name (default_values hostname)) before
    /\ commands before = commands tr.
Proof.
  assert (Hrewrite : forall old new,
            one_line old -> no_cr old -> Re.has_backslash new = false ->
            contains "external-dns" new = false ->
            rewrite_hostname parse_template new
              (Py.universal_newlines (default_values old))
            = Ret (default_values new)).
  { intros old' new Hline Hcr Hplain Hdns.
    rewrite (rewrite_hostname_plain _ _ _ Hplain), !default_values_generated.
    rewrite (universal_newlines_no_cr _ (generated_no_cr old' old' Hcr Hcr)).
    rewrite (hosts_pass old' new Hline), (dns_pass old' new Hline Hdns). reflexivity. }
  intros ns release hostname Hline Hcr Hplain Hdns.
  specialize (Hrewrite old hostname Hline Hcr Hplain Hdns).
  pose proof (deploy_to_writes shell parse_template a n r h rest
                (Some (default_values old)) tr) as D.
  cbv zeta in D. fold ns in D. fold release in D. fold hostname in D.
  specialize (D (default_values hostname) Hrewrite).
  destruct D as (b & w' & before & after & E & Hin & Htrace & Hb & Hw & Hc & _).
  exists b, w', before, after. auto 10.
Qed.

Lemma redeploy_regenerates_values_file_witness :
  exists b w' before after,
    deploy_to shell_ok no_template "team-prom"
      (mkWorld ["two"; "metrics.example.com"]
         (Some (default_values "team-prom.sctp-sandbox.com")) []) = (Ret b, w')
    /\ stdin w' = []
    /\ trace w'
       = (after ++ Run (deploy_command "two" "team-prom") :: before)%list
    /\ b = fst (run_result (shell_ok before (deploy_command "two" "team-prom")))
    /\ In (WriteFile values_file_name (default_values "metrics.example.com")) before
    /\ commands before = [].
Proof.
  apply (redeploy_regenerates_values_file shell_ok no_template
           "t" "eam-prom" "two" "metrics.example.com" "team-prom.sctp-sandbox.com" [] []);
    reflexivity.
Defined.

(** X19.  With a values file in place, a hostname holding a backslash that
    [re] rejects as a replacement template aborts the deployment with
    re.error: the file is left as it was and [helm upgrade] is not run. *)
Theorem rejected_hostname_template_aborts
        (shell : list event -> string -> completion)
        (parse_template : string -> option (string -> string))
        (a : ascii) (n r h content : string) (rest : list string) (tr : list event) :
  let ns := String a n in
  let hostname := Py.or_else h (ns ++ ".sctp-sandbox.com") in
  Re.has_backslash hostname = true ->
  parse_template (hosts_replacement hostname) = None ->
  exists w',
    deploy_to shell parse_template ns (mkWorld (r :: h :: rest) (Some content) tr)
    = (Raise ReError, w')
    /\ stdin w' = rest
    /\ values_file w' = Some content
    /\ commands (trace w') = commands tr.
Proof.
  intros ns hostname Hslash Hreject.
  assert (Hraise : rewrite_hostname parse_template hostname
                     (Py.universal_newlines content) = Raise ReError).
  { unfold rewrite_hostname, re_sub.
    now rewrite hosts_replacement_plain, Hslash, Hreject. }
  unfold hostname in Hraise.
  unfold deploy_to, ask_release_name, default_release_name, prepare_values, ask_hostname.
  deploying. fold ns. rewrite Hraise.
  eexists. split; [reflexivity|]. repeat split.
Qed.

Lemma rejected_hostname_template_aborts_witness :
  exists w',
    deploy_to shell_ok no_template "team-prom"
      (mkWorld [""; String Py.backslash "q"] (Some "server:") [])
    = (Raise ReError, w')
    /\ stdin w' = []
    /\ values_file w' = Some "server:"
    /\ commands (trace w') = [].
Proof.
  apply (rejected_hostname_template_aborts shell_ok no_template
           "t" "eam-prom" "" (String Py.backslash "q") "server:" [] []);
    reflexivity.
Defined.

(** ** Rewriting a file line by line *)

Lemma indent_cons (c : ascii) (s : string) :
  indent (String c s) -> Py.isspace c = true /\ Ascii.eqb c Py.nl = false /\ indent s.
Proof.
  unfold indent. cbn [Py.forallb_str]. intros H.
  apply andb_true_iff in H. destruct H as [Hc Hs].
  apply andb_true_iff in Hc. destruct Hc as [H1 H2].
  apply negb_true_iff in H2. auto.
Qed.

Lemma indent_blank (s : string) : indent s -> Py.forallb_str (Re.accepts Re.Space) s = true.
Proof.
  induction s as [|c s IH]; [reflexivity|]. intros H.
  apply indent_cons in H. destruct H as (H1 & _ & H). cbn. now rewrite H1, (IH H).
Qed.

Lemma indent_one_line (s : string) : indent s -> one_line s.
Proof.
  unfold one_line. induction s as [|c s IH]; [reflexivity|]. intros H.
  apply indent_cons in H. destruct H as (_ & H2 & H). cbn. now rewrite H2, (IH H).
Qed.

Lemma not_the_blank (a c : ascii) :
  Py.isspace a = false -> Py.isspace c = true -> Ascii.eqb a c = false.
Proof.
  intros Ha Hc. destruct (Ascii.eqb a c) eqn:E; [|reflexivity].
  apply Ascii.eqb_eq in E. congruence.
Qed.

(** A text that starts with no blank starts nowhere in an indentation. *)
Lemma sub_from_indent (a : ascii) (p : string) (r : Re.regex) (repl : string -> string)
      (x t : string) :
  Py.isspace a = false -> indent x ->
  Re.sub_from (Re.Lit (String a p) :: r) repl 0 (x ++ t)
  = x ++ Re.sub_from (Re.Lit (String a p) :: r) repl 0 t.
Proof.
  intros Ha. induction x as [|c x IH]; intros H; [reflexivity|].
  apply indent_cons in H. destruct H as (Hc & _ & H).
  cbn [append Re.sub_from]. rewrite match_here_lit. cbn [Re.drop_prefix].
  rewrite (not_the_blank a c Ha Hc). now rewrite (IH H).
Qed.

Lemma sub_from_line (a : ascii) (p : string) (r : Re.regex) (repl : string -> string)
      (l t : string) :
  one_line (String a p) -> contains (String a p) l = false ->
  Re.sub_from (Re.Lit (String a p) :: r) repl 0 (l ++ String Py.nl t)
  = l ++ String Py.nl (Re.sub_from (Re.Lit (String a p) :: r) repl 0 t).
Proof.
  intros Hp Hl. rewrite sub_from_copy.
  - f_equal. cbn [Re.sub_from]. rewrite match_here_lit. cbn [Re.drop_prefix].
    apply one_line_cons in Hp. destruct Hp as [Ha _].
    now rewrite Ha.
  - intros k _. rewrite match_here_lit.
    now rewrite (absent_before_line_feed (String a p) l t k Hp Hl).
Qed.

Lemma sub_from_line_feed (a : ascii) (p : string) (r : Re.regex)
      (repl : string -> string) (t : string) :
  one_line (String a p) ->
  Re.sub_from (Re.Lit (String a p) :: r) repl 0 (String Py.nl t)
  = String Py.nl (Re.sub_from (Re.Lit (String a p) :: r) repl 0 t).
Proof.
  intros Hp. exact (sub_from_line a p r repl "" t Hp eq_refl).
Qed.

Lemma sub_from_lines (a : ascii) (p : string) (r : Re.regex) (repl : string -> string)
      (ls : list string) (t : string) :
  one_line (String a p) -> free_of (String a p) ls = true ->
  Re.sub_from (Re.Lit (String a p) :: r) repl 0 (text_of_lines ls ++ t)
  = text_of_lines ls ++ Re.sub_from (Re.Lit (String a p) :: r) repl 0 t.
Proof.
  intros Hp. induction ls as [|l ls IH]; intros H; [reflexivity|].
  cbn [free_of forallb] in H. apply andb_true_iff in H. destruct H as [Hl H].
  apply negb_true_iff in Hl.
  cbn [text_of_lines]. rewrite !append_assoc. cbn [append].
  rewrite (sub_from_line a p r repl l _ Hp Hl). now rewrite (IH H).
Qed.

Lemma sub_from_last (p : string) (r : Re.regex) (repl : string -> string) (s : string) :
  contains p s = false -> Re.sub_from (Re.Lit p :: r) repl 0 s = s.
Proof. exact (sub_without_literal p r repl s). Qed.

(** A run of accepted characters before a match of the star. *)
Lemma star_run (a : Re.atom) (r : Re.regex) (run s : string) (n : nat) :
  Py.forallb_str (Re.accepts a) run = true ->
  Re.match_here (Re.Star a :: r) s = Some n ->
  Re.match_here (Re.Star a :: r) (run ++ s) = Some (String.length run + n).
Proof.
  intros Hrun Hs. induction run as [|c run IH]; [exact Hs|].
  cbn [Py.forallb_str] in Hrun. apply andb_true_iff in Hrun. destruct Hrun as [Hc Hrun].
  rewrite match_here_star. cbn [append]. now rewrite Hc, (IH Hrun).
Qed.

(** Blanks of a line never reach a line feed across another character. *)
Lemma blanks_stop (r : Re.regex) (c : ascii) (x t : string) :
  Py.isspace c = false -> one_line x ->
  Re.match_here (Re.Star Re.Space :: Re.Lit (String Py.nl "") :: r) (x ++ String c t)
  = None.
Proof.
  intros Hc. assert (Hnl : Ascii.eqb Py.nl c = false).
  { destruct (Ascii.eqb Py.nl c) eqn:E; [|reflexivity].
    apply Ascii.eqb_eq in E. subst c. discriminate Hc. }
  induction x as [|d x IH]; intros H; rewrite match_here_star.
  - cbn [append Re.accepts]. rewrite Hc, match_here_lit. cbn [Re.drop_prefix].
    now rewrite Hnl.
  - apply one_line_cons in H. destruct H as [Hd H].
    cbn [append]. rewrite (IH H), match_here_lit. cbn [Re.drop_prefix].
    rewrite Ascii.eqb_sym, Hd. now destruct (Re.accepts Re.Space d).
Qed.

(** The first pattern on the key line and the entry line below it. *)
Lemma hosts_block_match (gap i2 entry t : string) :
  indent gap -> indent i2 -> one_line entry ->
  Re.match_here Re.hosts_pattern
    ("hosts:" ++ gap ++ String Py.nl (i2 ++ "- " ++ entry ++ String Py.nl t))
  = Some (6 + (String.length gap + (1 + (String.length i2 + (2 + String.length entry))))).
Proof.
  intros Hgap Hi2 Hentry. unfold Re.hosts_pattern.
  rewrite match_here_lit.
  change (Re.drop_prefix "hosts:" ("hosts:" ++ ?x)) with (Some x).
  cbv beta iota.
  assert (Hentry_line :
            Re.match_here [Re.Star Re.Space; Re.Lit "- "; Re.Star Re.Dot]
              (i2 ++ "- " ++ entry ++ String Py.nl t)
            = Some (String.length i2 + (2 + String.length entry))).
  { apply star_run; [now apply indent_blank|].
    rewrite match_here_star. cbn [append Re.accepts Py.isspace].
    change (Py.isspace "-") with false. cbv iota.
    rewrite match_here_lit.
    change (Re.drop_prefix "- " (String "-" (String " " ?x))) with (Some x).
    cbv beta iota. now rewrite (dot_star_line entry t Hentry). }
  rewrite (star_run Re.Space _ gap _ (1 + (String.length i2 + (2 + String.length entry)))).
  - reflexivity.
  - now apply indent_blank.
  - rewrite match_here_star. cbn [Re.accepts].
    change (Py.isspace Py.nl) with true. cbv iota.
    change (i2 ++ "- " ++ entry ++ String Py.nl t)
      with (i2 ++ String "-" (" " ++ entry ++ String Py.nl t)).
    rewrite (blanks_stop _ "-" i2 _ eq_refl (indent_one_line _ Hi2)).
    rewrite match_here_lit. cbn [Re.drop_prefix]. rewrite Ascii.eqb_refl.
    change (i2 ++ String "-" (" " ++ entry ++ String Py.nl t))
      with (i2 ++ "- " ++ entry ++ String Py.nl t).
    now rewrite Hentry_line.
Qed.

Lemma hosts_block_sub (new gap i2 entry t : string) :
  indent gap -> indent i2 -> one_line entry ->
  Re.sub_from Re.hosts_pattern (fun _ => hosts_replacement new) 0
    ("hosts:" ++ gap ++ String Py.nl (i2 ++ "- " ++ entry ++ String Py.nl t))
  = hosts_replacement new
    ++ Re.sub_from Re.hosts_pattern (fun _ => hosts_replacement new) 0 (String Py.nl t).
Proof.
  intros Hgap Hi2 Hentry.
  assert (E : "hosts:" ++ gap ++ String Py.nl (i2 ++ "- " ++ entry ++ String Py.nl t)
              = ("hosts:" ++ gap ++ String Py.nl (i2 ++ "- " ++ entry)) ++ String Py.nl t).
  { rewrite !append_assoc. cbn [append]. rewrite !append_assoc. reflexivity. }
  pose proof (hosts_block_match gap i2 entry t Hgap Hi2 Hentry) as Hmatch.
  rewrite E in *.
  apply (sub_from_replace _ _ _ _ _ Hmatch).
  rewrite !length_append. cbn [String.length]. rewrite !length_append.
  cbn [String.length]. lia.
Qed.

(** What follows the last quote of a line holds no quote. *)
Lemma no_quote_after (tail t : string) :
  one_line tail -> no_quote tail ->
  Re.match_here [Re.Star Re.Dot; Re.Lit (String Py.dquote "")] (tail ++ String Py.nl t)
  = None.
Proof.
  unfold no_quote. induction tail as [|c tail IH]; intros Hline Hq.
  - reflexivity.
  - apply one_line_cons in Hline. destruct Hline as [Hc Hline].
    cbn [Py.forallb_str] in Hq. apply andb_true_iff in Hq. destruct Hq as [Hcq Hq].
    apply negb_true_iff in Hcq.
    rewrite match_here_star. cbn [append Re.accepts]. rewrite Hc. cbn [negb].
    rewrite (IH Hline Hq), match_here_lit. cbn [Re.drop_prefix].
    rewrite Ascii.eqb_sym, Hcq. reflexivity.
Qed.

Lemma quoted_value_tail (value tail t : string) :
  one_line value -> one_line tail -> no_quote tail ->
  Re.match_here [Re.Star Re.Dot; Re.Lit (String Py.dquote "")]
    (value ++ String Py.dquote (tail ++ String Py.nl t))
  = Some (S (String.length value)).
Proof.
  intros Hvalue Htail Hq. induction value as [|c value IH]; rewrite match_here_star.
  - cbn [append Re.accepts]. change (negb (Ascii.eqb Py.dquote Py.nl)) with true.
    cbv iota. rewrite (no_quote_after tail t Htail Hq). reflexivity.
  - apply one_line_cons in Hvalue. destruct Hvalue as [Hc Hvalue].
    cbn [append Re.accepts]. rewrite Hc. cbn [negb]. now rewrite (IH Hvalue).
Qed.

Lemma dns_entry_sub (new value tail t : string) :
  one_line value -> one_line tail -> no_quote tail ->
  Re.sub_from Re.dns_pattern (fun _ => dns_replacement new) 0
    (dns_key ++ String Py.dquote (value ++ String Py.dquote (tail ++ String Py.nl t)))
  = dns_replacement new
    ++ Re.sub_from Re.dns_pattern (fun _ => dns_replacement new) 0 (tail ++ String Py.nl t).
Proof.
  intros Hvalue Htail Hq.
  assert (E : dns_key ++ String Py.dquote (value ++ String Py.dquote (tail ++ String Py.nl t))
              = (dns_key ++ String Py.dquote (value ++ String Py.dquote ""))
                ++ tail ++ String Py.nl t).
  { unfold dns_key. cbn [append]. rewrite !append_assoc. reflexivity. }
  pose proof (dns_key_match [Re.Star Re.Dot; Re.Lit (String Py.dquote "")]
                (value ++ String Py.dquote (tail ++ String Py.nl t))) as Hmatch.
  rewrite (quoted_value_tail value tail t Hvalue Htail Hq) in Hmatch.
  rewrite E in *.
  apply (sub_from_replace _ _ _ _ _ Hmatch).
  unfold dns_key. cbn [append String.length]. rewrite length_append. cbn. lia.
Qed.

Section Lines.

Variables (above between below : list string) (last : string).
Variables (i1 gap i2 entry i3 value tail : string).

Hypothesis Hi1 : indent i1.
Hypothesis Hgap : indent gap.
Hypothesis Hi2 : indent i2.
Hypothesis Hi3 : indent i3.
Hypothesis Hentry : one_line entry.
Hypothesis Hvalue : one_line value.
Hypothesis Htail : one_line tail.
Hypothesis Hquote : no_quote tail.

Lemma hosts_pass_lines (new : string) :
  free_of "hosts:"
    (above ++ between
     ++ [i3 ++ dns_key ++ String Py.dquote (value ++ String Py.dquote tail)]
     ++ below ++ [last]) = true ->
  Re.sub Re.hosts_pattern (fun _ => hosts_replacement new)
    (scanned above between below last i1 i3 tail
       ("hosts:" ++ gap ++ String Py.nl (i2 ++ "- ")) entry
       (fun rest => dns_key ++ String Py.dquote (value ++ String Py.dquote rest)))
  = scanned above between below last i1 i3 tail (hosts_replacement "") new
      (fun rest => dns_key ++ String Py.dquote (value ++ String Py.dquote rest)).
Proof using Hi1 Hgap Hi2 Hentry.
  unfold free_of. rewrite !forallb_app. cbn [forallb]. intros H.
  apply andb_true_iff in H. destruct H as [Habove H].
  apply andb_true_iff in H. destruct H as [Hbetween H].
  apply andb_true_iff in H. destruct H as [Hline H]. rewrite andb_true_r in Hline.
  apply andb_true_iff in H. destruct H as [Hbelow Hlast]. rewrite andb_true_r in Hlast.
  apply negb_true_iff in Hline, Hlast.
  unfold Re.sub, scanned, Re.hosts_pattern.
  rewrite (sub_from_lines "h" "osts:" _ _ above _ eq_refl Habove). f_equal.
  rewrite (sub_from_indent "h" "osts:" _ _ i1 _ eq_refl Hi1). f_equal.
  assert (E : forall rest,
            ("hosts:" ++ gap ++ String Py.nl (i2 ++ "- ")) ++ entry ++ String Py.nl rest
            = "hosts:" ++ gap ++ String Py.nl (i2 ++ "- " ++ entry ++ String Py.nl rest)).
  { intros rest. rewrite !append_assoc. cbn [append]. rewrite !append_assoc. reflexivity. }
  rewrite E.
  rewrite (hosts_block_sub new gap i2 entry _ Hgap Hi2 Hentry).
  change (hosts_replacement new ++ ?x) with (hosts_replacement "" ++ new ++ x).
  do 2 f_equal. unfold Re.hosts_pattern.
  rewrite (sub_from_line_feed "h" "osts:" _ _ _ eq_refl). f_equal.
  rewrite (sub_from_lines "h" "osts:" _ _ between _ eq_refl Hbetween). f_equal.
  assert (E2 : forall rest,
            i3 ++ dns_key ++ String Py.dquote (value ++ String Py.dquote (tail ++ rest))
            = (i3 ++ dns_key ++ String Py.dquote (value ++ String Py.dquote tail)) ++ rest).
  { intros rest. unfold dns_key. rewrite !append_assoc. cbn [append].
    rewrite !append_assoc. reflexivity. }
  rewrite E2.
  rewrite (sub_from_line "h" "osts:" _ _ _ _ eq_refl Hline). f_equal. f_equal.
  rewrite (sub_from_lines "h" "osts:" _ _ below _ eq_refl Hbelow). f_equal.
  exact (sub_from_last "hosts:" _ _ last Hlast).
Qed.

Lemma dns_pass_lines (new : string) :
  contains "external-dns" new = false ->
  free_of "external-dns" (above ++ between ++ [tail] ++ below ++ [last]) = true ->
  Re.sub Re.dns_pattern (fun _ => dns_replacement new)
    (scanned above between below last i1 i3 tail (hosts_replacement "") new
       (fun rest => dns_key ++ String Py.dquote (value ++ String Py.dquote rest)))
  = scanned above between below last i1 i3 tail (hosts_replacement "") new
      (fun rest => dns_replacement new ++ rest).
Proof using Hi1 Hi3 Hvalue Htail Hquote.
  intros Hnew.
  unfold free_of. rewrite !forallb_app. cbn [forallb]. intros H.
  apply andb_true_iff in H. destruct H as [Habove H].
  apply andb_true_iff in H. destruct H as [Hbetween H].
  apply andb_true_iff in H. destruct H as [Hline H]. rewrite andb_true_r in Hline.
  apply andb_true_iff in H. destruct H as [Hbelow Hlast]. rewrite andb_true_r in Hlast.
  apply negb_true_iff in Hline, Hlast.
  unfold Re.sub, scanned, Re.dns_pattern.
  rewrite (sub_from_lines "e" "xternal-dns" _ _ above _ eq_refl Habove). f_equal.
  rewrite (sub_from_indent "e" "xternal-dns" _ _ i1 _ eq_refl Hi1). f_equal.
  rewrite sub_from_copy.
  2:{ intros k Hk. apply clear_sound; [vm_compute; reflexivity | exact Hk]. }
  f_equal.
  rewrite (sub_from_line "e" "xternal-dns" _ _ new _ eq_refl Hnew). do 2 f_equal.
  rewrite (sub_from_lines "e" "xternal-dns" _ _ between _ eq_refl Hbetween). f_equal.
  rewrite (sub_from_indent "e" "xternal-dns" _ _ i3 _ eq_refl Hi3). f_equal.
  pose proof (dns_entry_sub new value tail (text_of_lines below ++ last)
                Hvalue Htail Hquote) as Hsub.
  unfold Re.dns_pattern in Hsub. rewrite Hsub. f_equal.
  rewrite (sub_from_line "e" "xternal-dns" _ _ tail _ eq_refl Hline). do 2 f_equal.
  rewrite (sub_from_lines "e" "xternal-dns" _ _ below _ eq_refl Hbelow). f_equal.
  exact (sub_from_last "external-dns" _ _ last Hlast).
Qed.

End Lines.

Lemma text_of_lines_app (a b : list string) :
  text_of_lines (a ++ b) = text_of_lines a ++ text_of_lines b.
Proof.
  induction a as [|l a IH]; [reflexivity|].
  cbn [app text_of_lines]. now rewrite IH, append_assoc.
Qed.

Ltac flatten :=
  rewrite ?text_of_lines_app; cbn [text_of_lines app];
  repeat (progress (rewrite ?append_assoc; cbn [append])).

(** The two substitutions on a file with one host list and one annotation. *)
Lemma rewrite_lines
      (parse_template : string -> option (string -> string))
      (above between below : list string)
      (last i1 gap i2 entry i3 value tail new : string) :
  indent i1 -> indent gap -> indent i2 -> indent i3 ->
  one_line entry -> one_line value -> one_line tail -> no_quote tail ->
  free_of "hosts:"
    (above ++ between ++ [annotation_line i3 value tail] ++ below ++ [last]) = true ->
  free_of "external-dns" (above ++ between ++ [tail] ++ below ++ [last]) = true ->
  Re.has_backslash new = false ->
  contains "external-dns" new = false ->
  rewrite_hostname parse_template new
    (file_of above (i1 ++ "hosts:" ++ gap) (i2 ++ "- " ++ entry) between
       (annotation_line i3 value tail) below last)
  = Ret (file_of above (i1 ++ "hosts:") ("      - " ++ new) between
           (annotation_line i3 new tail) below last).
Proof.
  intros Hi1 Hgap Hi2 Hi3 Hentry Hvalue Htail Hquote Hhosts Hdns Hplain Hnew.
  rewrite (rewrite_hostname_plain _ _ _ Hplain).
  replace (file_of above (i1 ++ "hosts:" ++ gap) (i2 ++ "- " ++ entry) between
             (annotation_line i3 value tail) below last)
    with (scanned above between below last i1 i3 tail
            ("hosts:" ++ gap ++ String Py.nl (i2 ++ "- ")) entry
            (fun rest => dns_key ++ String Py.dquote (value ++ String Py.dquote rest))).
  2:{ unfold scanned, file_of, annotation_line, dns_key. flatten. reflexivity. }
  rewrite (hosts_pass_lines above between below last i1 gap i2 entry i3 value tail
             Hi1 Hgap Hi2 Hentry new Hhosts).
  rewrite (dns_pass_lines above between below last i1 i3 value tail
             Hi1 Hi3 Hvalue Htail Hquote new Hnew Hdns).
  f_equal. unfold scanned, file_of, annotation_line, dns_replacement, hosts_replacement,
    dns_key. flatten. reflexivity.
Qed.

(** C4, as amended.  The values file is read in text mode and written back
    in full.  When the text read has one host list (the key line [hosts:]
    and its entry on the next line) and, below it, one annotation line with
    a quoted value, and neither [hosts:] nor [external-dns] on any other
    line, then the file written has the entry line replaced by the entry for
    the hostname and the annotation value replaced by the hostname (what
    trails [hosts:] on the key line is dropped); every other line is the
    line read.  A file without carriage return is read as it is, so that its
    other lines are kept byte for byte. *)
Theorem rewrite_changes_the_two_hostname_lines
        (parse_template : string -> option (string -> string))
        (namespace h content : string) (rest : list string) (tr : list event)
        (above between below : list string)
        (last i1 gap i2 entry i3 value tail : string) :
  let hostname := Py.or_else h (namespace ++ ".sctp-sandbox.com") in
  let written :=
    file_of above (i1 ++ "hosts:") ("      - " ++ hostname) between
      (annotation_line i3 hostname tail) below last in
  Py.universal_newlines content
  = file_of above (i1 ++ "hosts:" ++ gap) (i2 ++ "- " ++ entry) between
      (annotation_line i3 value tail) below last ->
  indent i1 -> indent gap -> indent i2 -> indent i3 ->
  one_line entry -> one_line value -> one_line tail -> no_quote tail ->
  free_of "hosts:"
    (above ++ between ++ [annotation_line i3 value tail] ++ below ++ [last]) = true ->
  free_of "external-dns" (above ++ between ++ [tail] ++ below ++ [last]) = true ->
  Re.has_backslash hostname = false ->
  contains "external-dns" hostname = false ->
  prepare_values parse_template namespace (mkWorld (h :: rest) (Some content) tr)
  = (Ret hostname,
     mkWorld rest (Some written)
       (Success ("Updated values file with hostname: " ++ hostname)
        :: WriteFile values_file_name written
        :: Input ("Enter hostname for Prometheus ingress (default: "
                  ++ namespace ++ ".sctp-sandbox.com): ")
        :: tr))
  /\ (no_cr content -> Py.universal_newlines content = content).
Proof.
  intros hostname written Hfile Hi1 Hgap Hi2 Hi3 Hentry Hvalue Htail Hquote
    Hhosts Hdns Hplain Hnew.
  pose proof (rewrite_lines parse_template above between below last i1 gap i2 entry
                i3 value tail hostname Hi1 Hgap Hi2 Hi3 Hentry Hvalue Htail Hquote
                Hhosts Hdns Hplain Hnew) as Hrewrite.
  rewrite <- Hfile in Hrewrite. fold written in Hrewrite.
  split; [|apply universal_newlines_no_cr].
  clearbody written. subst hostname.
  unfold prepare_values, ask_hostname. deploying.
  rewrite Hrewrite. reflexivity.
Qed.

Lemma rewrite_changes_the_two_hostname_lines_witness :
  prepare_values no_template "team-prom"
    (mkWorld [""] (Some (default_values "old.example.com")) [])
  = (Ret "team-prom.sctp-sandbox.com",
     mkWorld [] (Some (default_values "team-prom.sctp-sandbox.com"))
       [ Success "Updated values file with hostname: team-prom.sctp-sandbox.com";
         WriteFile values_file_name (default_values "team-prom.sctp-sandbox.com");
         Input "Enter hostname for Prometheus ingress (default: team-prom.sctp-sandbox.com): " ])
  /\ (no_cr (default_values "old.example.com") ->
      Py.universal_newlines (default_values "old.example.com")
      = default_values "old.example.com").
Proof.
  apply (rewrite_changes_the_two_hostname_lines no_template "team-prom" ""
           (default_values "old.example.com") [] []
           generated_above ["    annotations:"] [] ""
           "    " "" "      " "old.example.com" "      " "old.example.com" "");
    reflexivity.
Defined.

(** C4 as stated fails: a file saved with carriage returns is read in text
    mode, so every line of it is written back without its carriage return,
    although none of them is the host list or the annotation. *)
Lemma crlf_file_loses_its_carriage_returns :
  contains "hosts:" crlf_values = false
  /\ contains "external-dns" crlf_values = false
  /\ exists written,
      values_file (snd (prepare_values no_template "team-prom"
                          (mkWorld ["prom.example.com"] (Some crlf_values) [])))
      = Some written
      /\ Py.split_lines crlf_values
         = ["server:" ++ String Py.cr ""; "  persistentVolume:" ++ String Py.cr ""; ""]
      /\ Py.split_lines written = ["server:"; "  persistentVolume:"; ""].
Proof.
  split; [reflexivity|]. split; [reflexivity|].
  eexists. split; [vm_compute; reflexivity|]. split; reflexivity.
Qed.

(** X12.  A values file that, as read in text mode, holds neither the text
    [hosts:] nor the text [external-dns] is written back as it was read,
    whatever the hostname (without backslash): its carriage returns are gone
    or turned into line feeds and nothing else has changed; a file without
    carriage return is written back byte for byte. *)
Theorem file_without_keys_is_written_as_read
        (parse_template : string -> option (string -> string))
        (namespace h content : string) (rest : list string) (tr : list event) :
  let hostname := Py.or_else h (namespace ++ ".sctp-sandbox.com") in
  let text := Py.universal_newlines content in
  Re.has_backslash hostname = false ->
  contains "hosts:" text = false ->
  contains "external-dns" text = false ->
  prepare_values parse_template namespace (mkWorld (h :: rest) (Some content) tr)
  = (Ret hostname,
     mkWorld rest (Some text)
       (Success ("Updated values file with hostname: " ++ hostname)
        :: WriteFile values_file_name text
        :: Input ("Enter hostname for Prometheus ingress (default: "
                  ++ namespace ++ ".sctp-sandbox.com): ")
        :: tr))
  /\ (no_cr content -> text = content).
Proof.
  intros hostname text Hplain Hhosts Hdns.
  pose proof (rewrite_without_keys_is_identity parse_template hostname text
                Hplain Hhosts Hdns) as Hsame.
  split; [|apply universal_newlines_no_cr].
  subst text hostname. unfold prepare_values, ask_hostname. deploying.
  rewrite Hsame. reflexivity.
Qed.

Lemma file_without_keys_is_written_as_read_witness :
  prepare_values no_template "team-prom" (mkWorld [""] (Some crlf_values) [])
  = (Ret "team-prom.sctp-sandbox.com",
     mkWorld [] (Some (text_of_lines ["server:"; "  persistentVolume:"]))
       [ Success "Updated values file with hostname: team-prom.sctp-sandbox.com";
         WriteFile values_file_name (text_of_lines ["server:"; "  persistentVolume:"]);
         Input "Enter hostname for Prometheus ingress (default: team-prom.sctp-sandbox.com): " ])
  /\ (no_cr crlf_values -> text_of_lines ["server:"; "  persistentVolume:"] = crlf_values).
Proof.
  apply (file_without_keys_is_written_as_read no_template "team-prom" "" crlf_values [] []);
    reflexivity.
Defined.

(** ** The pods view *)

(** X20.  The pods view lists the pods, describes a pod only when a name is
    given, and shows its logs only when, besides, the answer lower-cases to
    [y]; on an empty name the question about logs is not asked. *)
Theorem pod_logs_need_a_name_and_y
        (shell : list event -> string -> completion)
        (a : ascii) (n pod answer : string) (rest : list string)
        (vf : option string) (tr : list event) :
  let ns := String a n in
  exists w',
    show_status shell ns (mkWorld ("2" :: pod :: answer :: rest) vf tr) = (Ret true, w')
    /\ values_file w' = vf
    /\ stdin w' = (if Py.truthy pod then rest else answer :: rest)
    /\ commands (trace w')
       = ((if Py.truthy pod then
             ((if Py.lower answer =? "y"
               then ["kubectl logs " ++ pod ++ " -n " ++ ns]%string else [])
              ++ ["kubectl describe pod " ++ pod ++ " -n " ++ ns]%string)
           else [])
          ++ ("kubectl get pods -n " ++ ns)%string :: commands tr)%list.
Proof.
  intros ns. unfold show_status, describe, offer_logs. go. rewrite run_command_eq. go.
  destruct (Py.truthy pod); go.
  - rewrite run_command_eq. go.
    destruct (Py.lower answer =? "y"); go.
    + rewrite run_command_eq. go.
      eexists. split; [reflexivity|]. repeat split. cbn [trace]. cmds. reflexivity.
    + eexists. split; [reflexivity|]. repeat split. cbn [trace]. cmds. reflexivity.
  - eexists. split; [reflexivity|]. repeat split. cbn [trace]. cmds. reflexivity.
Qed.
